(** * Aerospace Compliance Checker: the validation pipeline of [app.py]

    A shallow embedding of [ComplianceChecker] (src/app.py): the drawing
    and BOM validators, the risk score, the report and the exposure string,
    together with the properties of the pipeline.

    Conventions of the embedding.
    - Python [str] is [string]; [str.lower], [str.upper] and the regular
      expression classes are modelled on the ASCII range (a character
      outside [A-Z]/[a-z] is left alone by the case maps), so the model
      is that of the code on ASCII text.  Where a statement relates the
      two case maps to each other it says so by asking for ASCII text.
    - Python [int] is [Z].
    - The instance attributes of the checker are a record threaded through
      every method (explicit state passing).
    - The collaborators that touch the file system (PyPDF2, pandas) are
      given by their outcome: a value, or the message of the exception. *)

From Stdlib Require Import Bool Arith ZArith Lia List Permutation.
From Stdlib Require Import Ascii String DecimalString DecimalPos DecimalZ.
Import ListNotations.

Open Scope string_scope.
Open Scope Z_scope.

Set Implicit Arguments.

(* ================================================================== *)
(** ** Python strings *)

Module PyStr.

Definition code (c : ascii) : nat := nat_of_ascii c.

Definition is_upper (c : ascii) : bool :=
  (Nat.leb 65 (code c) && Nat.leb (code c) 90)%bool.

Definition is_lower (c : ascii) : bool :=
  (Nat.leb 97 (code c) && Nat.leb (code c) 122)%bool.

Definition lower_char (c : ascii) : ascii :=
  if is_upper c then ascii_of_nat (code c + 32) else c.

Definition upper_char (c : ascii) : ascii :=
  if is_lower c then ascii_of_nat (code c - 32) else c.

Fixpoint smap (f : ascii -> ascii) (s : string) : string :=
  match s with
  | EmptyString => EmptyString
  | String c t => String (f c) (smap f t)
  end.

(** [s.lower()] and [s.upper()], as they act on ASCII text: the letters
    A-Z and a-z change case, every other character stays. *)
Definition lower (s : string) : string := smap lower_char s.
Definition upper (s : string) : string := smap upper_char s.

(** [needle in hay]: some suffix of [hay] starts with [needle]. *)
Fixpoint contains (needle hay : string) : bool :=
  match hay with
  | EmptyString => prefix needle EmptyString
  | String _ t => (prefix needle hay || contains needle t)%bool
  end.

(** [any(p(x) for x in xs)] *)
Definition any {A} (p : A -> bool) (xs : list A) : bool := existsb p xs.

(** [str(n)] for an [int] *)
Definition str_int (n : Z) : string := NilZero.string_of_int (Z.to_int n).

(** Truth value of a string: the empty string is falsy. *)
Definition truthy (s : string) : bool :=
  match s with EmptyString => false | _ => true end.

(** [f"{n:,}"] for a non-negative [int]: a comma before every group of
    three digits counted from the right. *)
Fixpoint group3 (first : bool) (s : string) : string :=
  match s with
  | EmptyString => EmptyString
  | String c t =>
      let rest := String c (group3 false t) in
      if (negb first && Nat.eqb (Nat.modulo (String.length s) 3) 0)%bool
      then String "," rest else rest
  end.

Definition fmt_comma (n : Z) : string := group3 true (str_int n).

End PyStr.

(* ================================================================== *)
(** ** Regular expressions: what [re.search] needs

    [re.search(p, text)] is truthy exactly when some substring of [text]
    belongs to the language of [p]; the three patterns of
    [_check_revision_marking] use only classes, concatenation, [?], [*],
    [+] and bounded repetition, so the order in which the backtracking
    engine tries alternatives does not matter for the truth value. *)

Module Re.

Inductive regex : Type :=
| Void : regex
| Eps : regex
| Class : (ascii -> bool) -> regex
| Cat : regex -> regex -> regex
| Alt : regex -> regex -> regex
| Star : regex -> regex.

(** [r?], [r+], [r{lo,lo+extra}] *)
Definition Opt (r : regex) : regex := Alt Eps r.
Definition Plus (r : regex) : regex := Cat r (Star r).

Fixpoint upto (extra : nat) (r : regex) : regex :=
  match extra with
  | O => Eps
  | S k => Opt (Cat r (upto k r))
  end.

Fixpoint Repeat (lo extra : nat) (r : regex) : regex :=
  match lo with
  | O => upto extra r
  | S k => Cat r (Repeat k extra r)
  end.

(** character classes *)
Definition chr (a : ascii) : regex := Class (Ascii.eqb a).

Fixpoint mem_char (c : ascii) (s : string) : bool :=
  match s with
  | EmptyString => false
  | String a t => (Ascii.eqb a c || mem_char c t)%bool
  end.

(** [[abc]] *)
Definition set (members : string) : regex := Class (fun c => mem_char c members).

Definition in_range (lo hi : ascii) (c : ascii) : bool :=
  (Nat.leb (nat_of_ascii lo) (nat_of_ascii c)
   && Nat.leb (nat_of_ascii c) (nat_of_ascii hi))%bool.

(** [\d], on ASCII text *)
Definition digit (c : ascii) : bool := in_range "0" "9" c.

(** [\s], on ASCII text: tab, line feed, vertical tab, form feed,
    carriage return, the four separators 28..31 and the space. *)
Definition space (c : ascii) : bool :=
  let n := nat_of_ascii c in
  ((Nat.leb 9 n && Nat.leb n 13) || (Nat.leb 28 n && Nat.leb n 32))%bool.

(** a literal *)
Fixpoint lit (s : string) : regex :=
  match s with
  | EmptyString => Eps
  | String c t => Cat (chr c) (lit t)
  end.

Fixpoint nullable (r : regex) : bool :=
  match r with
  | Void => false
  | Eps => true
  | Class _ => false
  | Cat a b => (nullable a && nullable b)%bool
  | Alt a b => (nullable a || nullable b)%bool
  | Star _ => true
  end.

(** Brzozowski derivative *)
Fixpoint deriv (c : ascii) (r : regex) : regex :=
  match r with
  | Void => Void
  | Eps => Void
  | Class p => if p c then Eps else Void
  | Cat a b =>
      if nullable a then Alt (Cat (deriv c a) b) (deriv c b)
      else Cat (deriv c a) b
  | Alt a b => Alt (deriv c a) (deriv c b)
  | Star a => Cat (deriv c a) (Star a)
  end.

(** [re.match(r, s)]: some prefix of [s] is in the language of [r]. *)
Fixpoint match_prefix (r : regex) (s : string) : bool :=
  match s with
  | EmptyString => nullable r
  | String c t => (nullable r || match_prefix (deriv c r) t)%bool
  end.

(** [re.search(r, s)]: a match starting at some position of [s]. *)
Fixpoint search (r : regex) (s : string) : bool :=
  match s with
  | EmptyString => match_prefix r s
  | String _ t => (match_prefix r s || search r t)%bool
  end.

(** The language of a pattern, as a relation. *)
Inductive lang : regex -> string -> Prop :=
| L_eps : lang Eps ""
| L_class p c : p c = true -> lang (Class p) (String c "")
| L_cat a b u v : lang a u -> lang b v -> lang (Cat a b) (u ++ v)
| L_alt_l a b u : lang a u -> lang (Alt a b) u
| L_alt_r a b u : lang b u -> lang (Alt a b) u
| L_star_nil a : lang (Star a) ""
| L_star_app a u v : lang a u -> lang (Star a) v -> lang (Star a) (u ++ v).

End Re.

(* ================================================================== *)
(** ** Floats: the one place [app.py] leaves the integers

    [f"{total/1000000:.1f}"] divides two [int]s into a binary64 float
    (correctly rounded, ties to even) and prints it with one decimal
    (again correctly rounded on the exact binary value, ties to even).
    Both roundings are computed here on exact integers.  The operands are
    positive and their quotient is at least 1, so neither subnormals nor
    signs occur. *)

Module PyFloat.

(** [n / d] rounded to the nearest integer, ties to even ([0 < d]). *)
Definition div_rne (n d : Z) : Z :=
  let q := n / d in
  let r := n mod d in
  if 2 * r <? d then q
  else if d <? 2 * r then q + 1
  else if Z.even q then q else q + 1.

(** [floor (log2 (n / d))] for [0 < d <= n]. *)
Definition ilog2_ratio (n d : Z) : Z :=
  let k := Z.log2 n - Z.log2 d in
  if d * 2 ^ k <=? n then k else k - 1.

(** The binary64 value of [n / d] as a fraction [(num, den)]: a 53-bit
    significand [m] scaled by a power of two. *)
Definition true_div (n d : Z) : Z * Z :=
  let e := ilog2_ratio n d in
  let s := 52 - e in
  if 0 <=? s then (div_rne (n * 2 ^ s) d, 2 ^ s)
  else (div_rne n (d * 2 ^ (- s)) * 2 ^ (- s), 1).

(** [format(x, ".1f")] of a non-negative value [x = num / den]. *)
Definition fmt_1f (x : Z * Z) : string :=
  let '(num, den) := x in
  let tenths := div_rne (10 * num) den in
  PyStr.str_int (tenths / 10) ++ "." ++ PyStr.str_int (tenths mod 10).

End PyFloat.

(* ================================================================== *)
(** ** Findings, the checker's attributes, the report *)

Inductive severity : Type := HIGH | MEDIUM | LOW.

(** One entry of [self.violations] or [self.warnings]; the keys
    ['cost_impact'] and ['location'] are absent from some of them. *)
Record finding : Type := Finding {
  rule : string;
  description : string;
  sev : severity;
  fix_ : string;
  cost_impact : option string;
  location : option string
}.

(** The instance attributes set by [__init__]. *)
Record checker : Type := Checker {
  violations : list finding;
  warnings : list finding;
  risk_score : Z;
  checked_items : Z
}.

Definition init : checker := Checker [] [] 0 0.

Record summary : Type := Summary {
  total_violations : Z;
  total_warnings : Z;
  estimated_risk : string
}.

Record report : Type := Report {
  status : string;
  rep_risk_score : Z;
  rep_violations : list finding;
  rep_warnings : list finding;
  rep_checked_items : Z;
  timestamp : string;
  rep_summary : summary
}.

(** [self.violations.append(f)], [self.warnings.append(f)] *)
Definition append_violation (c : checker) (f : finding) : checker :=
  Checker (violations c ++ [f]) (warnings c) (risk_score c) (checked_items c).

Definition append_warning (c : checker) (f : finding) : checker :=
  Checker (violations c) (warnings c ++ [f]) (risk_score c) (checked_items c).

Definition len {A} (l : list A) : Z := Z.of_nat (List.length l).

(* ================================================================== *)
(** ** The collaborators: PyPDF2 and pandas *)

(** Result of a call that may raise: the value, or [str(e)]. *)
Inductive outcome (A : Type) : Type :=
| Raised : string -> outcome A
| Returned : A -> outcome A.
Arguments Raised {A} _.
Arguments Returned {A} _.

(** A cell of a data frame: missing ([NaN]) or a value, kept as the text
    [str] gives for it. *)
Inductive cell : Type := NaN | Val (shown : string).

(** An index label of a data frame.  The default index numbers the rows
    0, 1, 2, ...; when the data rows of a file have one more field than
    its header, the readers take the first field as the index instead, so
    that a label can be any integer, a string, or another value.  The
    loop uses a label only in [idx + 2] inside an f-string: an integer
    adds, a string raises [TypeError], and any other label is given by
    what that expression does for it, the text printed or the message of
    the exception. *)
Inductive label : Type :=
| LInt (n : Z)
| LStr (s : string)
| LOther (plus_two : outcome string).

(** A data frame as [read_csv] and [read_excel] build it: the column
    labels (strings, which the readers keep distinct) and the rows, each
    under its index label and holding one cell per column. *)
Record frame : Type := Frame {
  columns : list string;
  rows : list (label * list cell)
}.

(** What the file system answers. *)
Record world : Type := World {
  pdf_pages : string -> outcome (list string);
  read_excel : string -> outcome frame;
  read_csv : string -> outcome frame;
  now_isoformat : string
}.

Module Pd.

Fixpoint lookup (cols : list string) (row : list cell) (key : string)
  : option cell :=
  match cols, row with
  | col :: cols', v :: row' =>
      if String.eqb col key then Some v else lookup cols' row' key
  | _, _ => None
  end.

(** [row.get(key, default)]; [None] stands for Python's [None], both as
    a key and as a result. *)
Definition get (cols : list string) (row : list cell)
           (key : option string) (default : option cell) : option cell :=
  match key with
  | None => default
  | Some k =>
      match lookup cols row k with
      | Some v => Some v
      | None => default
      end
  end.

(** [pd.isna], [pd.notna] *)
Definition isna (v : option cell) : bool :=
  match v with
  | None => true
  | Some NaN => true
  | Some (Val _) => false
  end.

Definition notna (v : option cell) : bool := negb (isna v).

(** [str(v)], also what an f-string prints for [v] *)
Definition str (v : option cell) : string :=
  match v with
  | None => "None"
  | Some NaN => "nan"
  | Some (Val s) => s
  end.

(** [df.iterrows()]: the rows paired with their index labels. *)
Definition iterrows (df : frame) : list (label * list cell) := rows df.

Definition dquote : string := String (ascii_of_nat 34) "".

(** [str(e)] of the [TypeError] that [s + 2] raises for a string [s]. *)
Definition str_plus_int : string :=
  "can only concatenate str (not " ++ dquote ++ "int" ++ dquote ++ ") to str".

(** [f'{idx + 2}'] *)
Definition plus_two (idx : label) : outcome string :=
  match idx with
  | LInt n => Returned (PyStr.str_int (n + 2))
  | LStr _ => Raised str_plus_int
  | LOther r => r
  end.

(** The default index: the rows numbered from [start]. *)
Fixpoint range_from (start : nat) (data : list (list cell))
  : list (label * list cell) :=
  match data with
  | [] => []
  | r :: rest => (LInt (Z.of_nat start), r) :: range_from (S start) rest
  end.

(** The frame a file gives whose data rows have as many fields as its
    header. *)
Definition range_frame (cols : list string) (data : list (list cell)) : frame :=
  Frame cols (range_from 0 data).

(** The rows paired with their positions. *)
Fixpoint enumerate_from (start : nat) (rs : list (list cell))
  : list (nat * list cell) :=
  match rs with
  | [] => []
  | r :: rest => (start, r) :: enumerate_from (S start) rest
  end.

Definition enumerate (data : list (list cell)) : list (nat * list cell) :=
  enumerate_from 0 data.

End Pd.

(* ================================================================== *)
(** ** [ComplianceChecker]: the keyword checks *)

Definition newline : string := String (ascii_of_nat 10) "".

(** [_extract_pdf_text]: the page texts joined, each followed by a line
    feed; any exception of the reader is raised again with a prefix. *)
Definition _extract_pdf_text (w : world) (file_path : string) : outcome string :=
  match pdf_pages w file_path with
  | Raised e => Raised ("PDF extraction failed: " ++ e)
  | Returned pages =>
      Returned (fold_left (fun text page => text ++ (page ++ newline)) pages "")
  end.

Definition itar_keywords : list string :=
  ["ITAR"; "export control"; "EAR99"; "22 CFR";
   "International Traffic in Arms"; "export license"].

Definition _check_itar_marking (text : string) : bool :=
  let text_lower := PyStr.lower text in
  PyStr.any (fun keyword => PyStr.contains (PyStr.lower keyword) text_lower)
            itar_keywords.

Definition restricted_drawing : list string :=
  ["beryllium copper"; "cadmium"; "mercury"; "lead";
   "hexavalent chromium"; "asbestos"].

Definition _check_restricted_materials (text : string) : list string :=
  let text_lower := PyStr.lower text in
  fold_left
    (fun found_materials material =>
       if PyStr.contains (PyStr.lower material) text_lower
       then (found_materials ++ [material])%list else found_materials)
    restricted_drawing [].

(** [[Rr]ev[ision]?\s*[A-Z0-9]+], [[Vv]ersion\s*[0-9.]+] and
    [[Dd]ate:\s*\d{1,2}[/-]\d{1,2}[/-]\d{2,4}] *)
Definition revision_patterns : list Re.regex :=
  [ Re.Cat (Re.set "Rr")
      (Re.Cat (Re.lit "ev")
         (Re.Cat (Re.Opt (Re.set "ision"))
            (Re.Cat (Re.Star (Re.Class Re.space))
               (Re.Plus (Re.Class (fun c =>
                  (Re.in_range "A" "Z" c || Re.in_range "0" "9" c)%bool))))));
    Re.Cat (Re.set "Vv")
      (Re.Cat (Re.lit "ersion")
         (Re.Cat (Re.Star (Re.Class Re.space))
            (Re.Plus (Re.Class (fun c =>
               (Re.in_range "0" "9" c || Ascii.eqb c ".")%bool)))));
    Re.Cat (Re.set "Dd")
      (Re.Cat (Re.lit "ate:")
         (Re.Cat (Re.Star (Re.Class Re.space))
            (Re.Cat (Re.Repeat 1 1 (Re.Class Re.digit))
               (Re.Cat (Re.set "/-")
                  (Re.Cat (Re.Repeat 1 1 (Re.Class Re.digit))
                     (Re.Cat (Re.set "/-")
                        (Re.Repeat 2 2 (Re.Class Re.digit)))))))) ].

Definition _check_revision_marking (text : string) : bool :=
  existsb (fun pattern => Re.search pattern text) revision_patterns.

Definition traceability_keywords : list string :=
  ["serial number"; "lot number"; "batch"; "traceability"; "track";
   "S/N"; "L/N"].

Definition _check_traceability (text : string) : bool :=
  let text_lower := PyStr.lower text in
  PyStr.any (fun keyword => PyStr.contains (PyStr.lower keyword) text_lower)
            traceability_keywords.

(** [_find_column]: the first column label that contains one of the
    candidate names, letter case ignored. *)
Fixpoint _find_column (cols : list string) (possible_names : list string)
  : option string :=
  match cols with
  | [] => None
  | col :: rest =>
      if existsb (fun name => PyStr.contains (PyStr.lower name) (PyStr.lower col))
                 possible_names
      then Some col
      else _find_column rest possible_names
  end.

Definition itar_indicators : list string := ["MIL-"; "MS"; "NAS"; "AN"; "CAGE"].

Definition _is_itar_controlled (part_number : string) : bool :=
  let part_upper := PyStr.upper part_number in
  PyStr.any (fun indicator => PyStr.contains indicator part_upper) itar_indicators.

Definition restricted_bom : list string :=
  ["BERYLLIUM"; "CADMIUM"; "MERCURY"; "LEAD"; "CHROMIUM VI"; "ASBESTOS"].

Definition _is_restricted_material (material : string) : bool :=
  let material_upper := PyStr.upper material in
  PyStr.any (fun rest => PyStr.contains rest material_upper) restricted_bom.

Definition certified_suppliers : list string :=
  ["BOEING"; "LOCKHEED"; "RAYTHEON"; "NORTHROP";
   "HONEYWELL"; "COLLINS"; "PARKER"; "EATON"].

Definition _is_certified_supplier (supplier : string) : bool :=
  let supplier_upper := PyStr.upper supplier in
  PyStr.any (fun cert => PyStr.contains cert supplier_upper) certified_suppliers.

(* ================================================================== *)
(** ** [ComplianceChecker]: the two validators *)

Definition drawing_error (e : string) : finding :=
  Finding "SYSTEM" ("Could not fully parse drawing: " ++ e) LOW
          "Manual review recommended" None None.

Definition itar_001 : finding :=
  Finding "ITAR-001" "Missing ITAR export control statement" HIGH
          "Add standard ITAR warning to title block"
          (Some "$10,000-$100,000 potential fine") None.

Definition mat_001 (material : string) : finding :=
  Finding "AS9100-MAT-001" ("Restricted material detected: " ++ material) HIGH
          ("Replace " ++ material ++ " with approved alternative")
          (Some "Potential rejection of entire batch") None.

Definition doc_002 : finding :=
  Finding "AS9100-DOC-002" "No revision number detected" MEDIUM
          "Add revision letter/number to title block" None None.

Definition trace_001 : finding :=
  Finding "AS9100-TRACE-001" "Missing traceability requirements" HIGH
          "Add serial number or lot traceability note" None None.

(** The body of the [try] of [_validate_technical_drawing], once the text
    is there. *)
Definition drawing_checks (c : checker) (text : string) : checker :=
  let c1 := if negb (_check_itar_marking text)
            then append_violation c itar_001 else c in
  let c2 := fold_left (fun c' material => append_violation c' (mat_001 material))
                      (_check_restricted_materials text) c1 in
  let c3 := if negb (_check_revision_marking text)
            then append_warning c2 doc_002 else c2 in
  if negb (_check_traceability text)
  then append_violation c3 trace_001 else c3.

Definition _validate_technical_drawing (w : world) (c : checker)
           (file_path : string) : checker :=
  match _extract_pdf_text w file_path with
  | Raised e => append_warning c (drawing_error e)
  | Returned text => drawing_checks c text
  end.

Definition bom_error (e : string) : finding :=
  Finding "SYSTEM" ("Error processing BOM: " ++ e) MEDIUM
          "Check file format and structure" None None.

(** [f'Row {idx + 2}'] *)
Definition row_location (idx : label) : outcome string :=
  match Pd.plus_two idx with
  | Returned n => Returned ("Row " ++ n)
  | Raised e => Raised e
  end.

(** The four entries of the BOM loop, given the text of [f'Row {idx + 2}']. *)
Definition itar_bom_at (part : option cell) (loc : string) : finding :=
  Finding "ITAR-BOM-001" ("ITAR controlled part: " ++ Pd.str part) HIGH
          "Ensure proper export licensing" None (Some loc).

Definition mat_002_at (material : string) (part : option cell) (loc : string)
  : finding :=
  Finding "AS9100-MAT-002" ("Restricted material in BOM: " ++ material) HIGH
          "Replace with approved material" None
          (Some (loc ++ ", Part: " ++ Pd.str part)).

Definition sup_001_at (supplier : string) (loc : string) : finding :=
  Finding "AS9100-SUP-001" ("Non-certified supplier: " ++ supplier) MEDIUM
          "Verify AS9100 certification status" None (Some loc).

Definition data_001_at (loc : string) : finding :=
  Finding "AS9100-DATA-001" "Missing part number" HIGH
          "All items must have part numbers" None (Some loc).

(** The same entries for the row at position [idx] of a frame with the
    default index. *)
Definition row_label (idx : nat) : string :=
  "Row " ++ PyStr.str_int (Z.of_nat idx + 2).

Definition itar_bom_001 (part : option cell) (idx : nat) : finding :=
  itar_bom_at part (row_label idx).

Definition mat_002 (material : string) (part : option cell) (idx : nat) : finding :=
  mat_002_at material part (row_label idx).

Definition sup_001 (supplier : string) (idx : nat) : finding :=
  sup_001_at supplier (row_label idx).

Definition data_001 (idx : nat) : finding := data_001_at (row_label idx).

(** *** Methods that may raise

    A step of a method that can raise: the attributes as the step leaves
    them, and its value or the exception.  What was appended before an
    exception stays appended. *)
Definition M (A : Type) : Type := checker -> checker * outcome A.

Definition ret {A} (a : A) : M A := fun c => (c, Returned a).

Definition bind {A B} (m : M A) (k : A -> M B) : M B :=
  fun c =>
    let '(c', r) := m c in
    match r with
    | Returned a => k a c'
    | Raised e => (c', Raised e)
    end.

Definition eval {A} (r : outcome A) : M A := fun c => (c, r).

Definition violation (f : finding) : M unit :=
  fun c => (append_violation c f, Returned tt).

Definition warning (f : finding) : M unit :=
  fun c => (append_warning c f, Returned tt).

Definition when (b : bool) (m : M unit) : M unit := if b then m else ret tt.

Declare Scope method_scope.
Delimit Scope method_scope with method.
Notation "x <- m ;; k" := (bind m (fun x => k))
  (at level 61, m at next level, right associativity) : method_scope.
Notation "m ;; k" := (bind m (fun _ => k))
  (at level 61, right associativity) : method_scope.

(** [for x in l: body(x)], left as soon as a pass raises. *)
Fixpoint for_each {A} (l : list A) (body : A -> M unit) : M unit :=
  match l with
  | [] => ret tt
  | x :: rest => (body x ;; for_each rest body)%method
  end.

(** Truth value of an [Optional[str]]. *)
Definition truthy_col (col : option string) : bool :=
  match col with
  | None => false
  | Some s => PyStr.truthy s
  end.

Section BomRow.

Variable cols : list string.
Variables part_col material_col supplier_col : option string.

(** One pass of the body of [for idx, row in df.iterrows()].  Each entry
    is built before it is appended, and building it evaluates
    [idx + 2]. *)
Definition check_row (ir : label * list cell) : M unit :=
  let '(idx, row) := ir in
  let get := Pd.get cols row in
  (when (truthy_col part_col
         && _is_itar_controlled (Pd.str (get part_col (Some (Val "")))))%bool
     (loc <- eval (row_location idx) ;;
      warning (itar_bom_at (get part_col (Some (Val "Unknown"))) loc)) ;;
   when (truthy_col material_col && Pd.notna (get material_col None))%bool
     (let material := PyStr.upper (Pd.str (get material_col (Some (Val "")))) in
      when (_is_restricted_material material)
        (loc <- eval (row_location idx) ;;
         violation (mat_002_at material (get part_col (Some (Val "Unknown")))
                               loc))) ;;
   when (truthy_col supplier_col && Pd.notna (get supplier_col None))%bool
     (let supplier := Pd.str (get supplier_col (Some (Val ""))) in
      when (negb (_is_certified_supplier supplier))
        (loc <- eval (row_location idx) ;; warning (sup_001_at supplier loc))) ;;
   when (truthy_col part_col && Pd.isna (get part_col None))%bool
     (loc <- eval (row_location idx) ;; violation (data_001_at loc)))%method.

End BomRow.

(** [s.endswith(suffix)] *)
Definition endswith (s suffix : string) : bool :=
  let n := String.length s in
  let k := String.length suffix in
  (Nat.leb k n && String.eqb (substring (n - k) k s) suffix)%bool.

Definition part_names : list string := ["Part Number"; "P/N"; "Part"].
Definition material_names : list string := ["Material"; "Mat"; "Composition"].
Definition supplier_names : list string := ["Supplier"; "Vendor"; "Manufacturer"].

(** The body of the [try] of [_validate_bom], once the frame is there. *)
Definition bom_checks (df : frame) : M unit :=
  fun c =>
    let c0 := Checker (violations c) (warnings c) (risk_score c)
                      (len (rows df)) in
    let part_col := _find_column (columns df) part_names in
    let material_col := _find_column (columns df) material_names in
    let supplier_col := _find_column (columns df) supplier_names in
    for_each (Pd.iterrows df)
             (check_row (columns df) part_col material_col supplier_col) c0.

(** The [try] covers the reading and the loop alike: whichever raises,
    the handler appends its one warning to what is there. *)
Definition _validate_bom (w : world) (c : checker) (file_path : string)
  : checker :=
  let read := if endswith file_path ".xlsx"
              then read_excel w file_path else read_csv w file_path in
  match read with
  | Raised e => append_warning c (bom_error e)
  | Returned df =>
      let '(c', r) := bom_checks df c in
      match r with
      | Returned _ => c'
      | Raised e => append_warning c' (bom_error e)
      end
  end.

(* ================================================================== *)
(** ** [ComplianceChecker]: score, cost and report *)

(** The [if]/[elif]/[else] of [_calculate_risk_cost] on its [total]. *)
Definition render_exposure (total : Z) : string :=
  if 1000000 <? total
  then "$" ++ PyFloat.fmt_1f (PyFloat.true_div total 1000000)
           ++ "M potential exposure"
  else if 0 <? total
  then "$" ++ PyStr.fmt_comma total ++ " potential exposure"
  else "Minimal risk".

Definition _calculate_risk_cost (c : checker) : string :=
  let base_cost := len (violations c) * 50000 in
  let warning_cost := len (warnings c) * 5000 in
  let total := base_cost + warning_cost in
  render_exposure total.

Definition _generate_report (w : world) (c : checker) : report :=
  let status := if len (violations c) =? 0 then "PASS" else "FAIL" in
  Report status (risk_score c) (violations c) (warnings c) (checked_items c)
         (now_isoformat w)
         (Summary (len (violations c)) (len (warnings c))
                  (_calculate_risk_cost c)).

(** [validate_document]: the attributes after the call, and the report. *)
Definition validate_document (w : world) (c : checker)
           (file_path doc_type : string) : checker * report :=
  let c0 := Checker [] [] 0 (checked_items c) in
  let c1 := if String.eqb doc_type "drawing"
            then _validate_technical_drawing w c0 file_path
            else if String.eqb doc_type "bom"
            then _validate_bom w c0 file_path
            else c0 in
  let c2 := Checker (violations c1) (warnings c1)
                    (Z.min 100 (len (violations c1) * 15 + len (warnings c1) * 5))
                    (checked_items c1) in
  (c2, _generate_report w c2).

(* ================================================================== *)
(** ** What one call emits, rule by rule

    The validators append to two lists as they go.  The definitions below
    name the condition under which each rule fires and the findings one
    row, one drawing and one call contribute; the properties section
    proves that the validators append exactly these. *)

Section RowRules.

Variable cols : list string.
Variables part_col material_col supplier_col : option string.

Definition part_shown (row : list cell) : option cell :=
  Pd.get cols row part_col (Some (Val "Unknown")).

Definition material_shown (row : list cell) : string :=
  PyStr.upper (Pd.str (Pd.get cols row material_col (Some (Val "")))).

Definition supplier_shown (row : list cell) : string :=
  Pd.str (Pd.get cols row supplier_col (Some (Val ""))).

Definition fires_itar_bom (row : list cell) : bool :=
  (truthy_col part_col
   && _is_itar_controlled (Pd.str (Pd.get cols row part_col (Some (Val "")))))%bool.

Definition fires_restricted (row : list cell) : bool :=
  (truthy_col material_col && Pd.notna (Pd.get cols row material_col None)
   && _is_restricted_material (material_shown row))%bool.

Definition fires_uncertified (row : list cell) : bool :=
  (truthy_col supplier_col && Pd.notna (Pd.get cols row supplier_col None)
   && negb (_is_certified_supplier (supplier_shown row)))%bool.

Definition fires_missing_part (row : list cell) : bool :=
  (truthy_col part_col && Pd.isna (Pd.get cols row part_col None))%bool.

Definition row_fires (row : list cell) : bool :=
  (fires_itar_bom row || fires_restricted row || fires_uncertified row
   || fires_missing_part row)%bool.

(** What a row appends when its location renders as [loc]. *)
Definition emits_violations (loc : string) (row : list cell) : list finding :=
  ((if fires_restricted row
    then [mat_002_at (material_shown row) (part_shown row) loc] else [])
   ++ (if fires_missing_part row then [data_001_at loc] else []))%list.

Definition emits_warnings (loc : string) (row : list cell) : list finding :=
  ((if fires_itar_bom row then [itar_bom_at (part_shown row) loc] else [])
   ++ (if fires_uncertified row
       then [sup_001_at (supplier_shown row) loc] else []))%list.

(** The same for the row at a position of a frame with the default
    index. *)
Definition row_violations (ir : nat * list cell) : list finding :=
  let '(idx, row) := ir in emits_violations (row_label idx) row.

Definition row_warnings (ir : nat * list cell) : list finding :=
  let '(idx, row) := ir in emits_warnings (row_label idx) row.

(** What a row of the frame appends. *)
Definition row_emits (ir : label * list cell) : list finding * list finding :=
  match row_location (fst ir) with
  | Returned loc => (emits_violations loc (snd ir), emits_warnings loc (snd ir))
  | Raised _ => ([], [])
  end.

(** The exception a row raises: that of its label, at the first rule
    that fires. *)
Definition row_raises (ir : label * list cell) : option string :=
  match row_location (fst ir) with
  | Returned _ => None
  | Raised e => if row_fires (snd ir) then Some e else None
  end.

(** The rows the loop completes, and the exception that ends it. *)
Fixpoint processed (irs : list (label * list cell)) : list (label * list cell) :=
  match irs with
  | [] => []
  | ir :: rest =>
      match row_raises ir with
      | Some _ => []
      | None => ir :: processed rest
      end
  end.

Fixpoint first_raise (irs : list (label * list cell)) : option string :=
  match irs with
  | [] => None
  | ir :: rest =>
      match row_raises ir with
      | Some e => Some e
      | None => first_raise rest
      end
  end.

End RowRules.

Definition part_column (df : frame) : option string :=
  _find_column (columns df) part_names.
Definition material_column (df : frame) : option string :=
  _find_column (columns df) material_names.
Definition supplier_column (df : frame) : option string :=
  _find_column (columns df) supplier_names.

(** The rows of a frame the loop completes. *)
Definition completed (df : frame) : list (label * list cell) :=
  processed (columns df) (part_column df) (material_column df)
            (supplier_column df) (rows df).

(** The warning of the handler, when the loop raises. *)
Definition loop_warning (df : frame) : list finding :=
  match first_raise (columns df) (part_column df) (material_column df)
                    (supplier_column df) (rows df) with
  | Some e => [bom_error e]
  | None => []
  end.

Definition bom_violations (df : frame) : list finding :=
  flat_map (fun ir => fst (row_emits (columns df) (part_column df)
                                     (material_column df) (supplier_column df) ir))
           (completed df).

Definition bom_warnings (df : frame) : list finding :=
  (flat_map (fun ir => snd (row_emits (columns df) (part_column df)
                                      (material_column df) (supplier_column df) ir))
            (completed df)
   ++ loop_warning df)%list.

(** Violations and warnings by position, for a frame with the default
    index. *)
Definition positional_violations (cols : list string) (data : list (list cell))
  : list finding :=
  flat_map (row_violations cols (_find_column cols part_names)
              (_find_column cols material_names))
           (Pd.enumerate data).

Definition positional_warnings (cols : list string) (data : list (list cell))
  : list finding :=
  flat_map (row_warnings cols (_find_column cols part_names)
              (_find_column cols supplier_names))
           (Pd.enumerate data).

Definition drawing_violations (text : string) : list finding :=
  ((if negb (_check_itar_marking text) then [itar_001] else [])
   ++ map mat_001 (_check_restricted_materials text)
   ++ (if negb (_check_traceability text) then [trace_001] else []))%list.

Definition drawing_warnings (text : string) : list finding :=
  if negb (_check_revision_marking text) then [doc_002] else [].

(** The frame a BOM call reads. *)
Definition read_bom (w : world) (file_path : string) : outcome frame :=
  if endswith file_path ".xlsx" then read_excel w file_path
  else read_csv w file_path.

(** Violations and warnings of one call of [validate_document]. *)
Definition emitted (w : world) (file_path doc_type : string)
  : list finding * list finding :=
  if String.eqb doc_type "drawing" then
    match _extract_pdf_text w file_path with
    | Raised e => ([], [drawing_error e])
    | Returned text => (drawing_violations text, drawing_warnings text)
    end
  else if String.eqb doc_type "bom" then
    match read_bom w file_path with
    | Raised e => ([], [bom_error e])
    | Returned df => (bom_violations df, bom_warnings df)
    end
  else ([], []).

(** All findings of a report, violations first. *)
Definition findings (r : report) : list finding :=
  (rep_violations r ++ rep_warnings r)%list.

Definition is_high (f : finding) : bool :=
  match sev f with HIGH => true | _ => false end.

Definition has_rule (name : string) (f : finding) : bool :=
  String.eqb (rule f) name.

Definition count (p : finding -> bool) (l : list finding) : Z :=
  len (filter p l).

(** A finding that weighs as a violation: of severity High, the export
    licensing reminder of the BOM loop apart. *)
Definition is_major (f : finding) : bool :=
  (is_high f && negb (has_rule "ITAR-BOM-001" f))%bool.

Definition is_minor (f : finding) : bool := negb (is_major f).

(** The score and the exposure total as the specification words them:
    weighted by the severity of each finding. *)
Definition spec_risk_score (fs : list finding) : Z :=
  Z.min 100 (15 * count is_high fs + 5 * count (fun f => negb (is_high f)) fs).

Definition spec_exposure_total (fs : list finding) : Z :=
  50000 * count is_high fs + 5000 * count (fun f => negb (is_high f)) fs.

Fixpoint all_digits (s : string) : bool :=
  match s with
  | EmptyString => true
  | String c t => (Re.digit c && all_digits t)%bool
  end.

(** The location of a finding names the row of index [idx]: it is the
    row label, alone or followed by a comma. *)
Definition at_row (idx : nat) (f : finding) : bool :=
  match location f with
  | Some l =>
      (String.eqb l (row_label idx) || prefix (row_label idx ++ ",") l)%bool
  | None => false
  end.

(** Every finding of rule [a] comes before every finding of rule [b]. *)
Definition rule_precedes (a b : string) (l : list finding) : Prop :=
  forall i j fi fj,
    nth_error l i = Some fi -> nth_error l j = Some fj ->
    rule fi = a -> rule fj = b -> (i < j)%nat.

(* ================================================================== *)
(** ** Sample inputs *)

(** A file system that answers every path the same way. *)
Definition const_world (pages : outcome (list string)) (table : outcome frame)
  : world :=
  World (fun _ => pages) (fun _ => table) (fun _ => table)
        "2024-05-01T09:30:00".

Definition run_bom (df : frame) : report :=
  snd (validate_document (const_world (Returned []) (Returned df))
                         init "bom.csv" "bom").

Definition run_drawing (text : string) : report :=
  snd (validate_document (const_world (Returned [text]) (Raised "no table"))
                         init "drawing.pdf" "drawing").

(** One row, one column, a part whose name merely contains "AN". *)
Definition panel_bom : frame := Pd.range_frame ["Part Number"] [[Val "PANEL"]].

(** A file system on which nothing can be read. *)
Definition unreadable : world :=
  const_world (Raised "EOF marker not found")
              (Raised "No columns to parse from file").

Definition broken_bom_report : report :=
  snd (validate_document unreadable init "bom.csv" "bom").

(** The fields of a report the clock does not touch, [checked_items]
    left out. *)
Definition core_fields (r : report)
  : list finding * list finding * string * Z * summary :=
  (rep_violations r, rep_warnings r, status r, rep_risk_score r, rep_summary r).

(** The attributes after a sequence of calls on a fresh instance. *)
Definition after (calls : list (world * string * string)) : checker :=
  fold_left (fun c call =>
               let '(w, file_path, doc_type) := call in
               fst (validate_document w c file_path doc_type))
            calls init.

(** Two file systems that hold the same content at a path. *)
Definition same_content (w1 w2 : world) (file_path : string) : Prop :=
  pdf_pages w1 file_path = pdf_pages w2 file_path
  /\ read_excel w1 file_path = read_excel w2 file_path
  /\ read_csv w1 file_path = read_csv w2 file_path.

(** The same file system read at a later time. *)
Definition later (w : world) : world :=
  World (pdf_pages w) (read_excel w) (read_csv w) "2031-12-31T23:59:59".

(** Two rows, each with a restricted material, an unknown supplier and no
    part number. *)
Definition two_bad_rows : frame :=
  Pd.range_frame ["Part Number"; "Material"; "Supplier"]
        [[NaN; Val "Cadmium"; Val "Acme"]; [NaN; Val "Lead"; Val "Apex"]].

(** Five rows; the second and the fourth have no part number. *)
Definition five_rows : list (list cell) :=
  [[Val "B-1"; Val "bolt"]; [NaN; Val "shim"]; [Val "B-3"; Val "nut"];
   [NaN; Val "clip"]; [Val "B-5"; Val "pin"]].

Definition five_row_bom : frame :=
  Pd.range_frame ["Part Number"; "Description"] five_rows.

(** One row plated with cadmium. *)
Definition cadmium_rows : list (list cell) :=
  [[Val "B-1"; Val "Steel 4130"]; [Val "B-2"; Val "Cadmium Plating 0.002in"]].

Definition cadmium_bom : frame :=
  Pd.range_frame ["Part Number"; "Material"] cadmium_rows.

(** Files whose data rows have one more field than the header: the
    first field becomes the index.

    [Part Number,Description] over [10,,bolt] and [20,,shim]: integer
    labels 10 and 20, no part number in either row. *)
Definition numbered_bom : frame :=
  Frame ["Part Number"; "Description"]
        [(LInt 10, [NaN; Val "bolt"]); (LInt 20, [NaN; Val "shim"])].

(** The same rows under the label 7 twice: [7,,bolt] and [7,,shim]. *)
Definition repeated_bom : frame :=
  Frame ["Part Number"; "Description"]
        [(LInt 7, [NaN; Val "bolt"]); (LInt 7, [NaN; Val "shim"])].

(** [Part Number,Description] over [A,,bolt] and [B,,shim]: string
    labels, no part number in either row. *)
Definition lettered_bom : frame :=
  Frame ["Part Number"; "Description"]
        [(LStr "A", [NaN; Val "bolt"]); (LStr "B", [NaN; Val "shim"])].

(** [Part Number,Material] over [X1,B-2,Cadmium Plating 0.002in]. *)
Definition labelled_cadmium_bom : frame :=
  Frame ["Part Number"; "Material"]
        [(LStr "X1", [Val "B-2"; Val "Cadmium Plating 0.002in"])].

(** [Part Number] over [X1,PANEL]. *)
Definition labelled_panel_bom : frame :=
  Frame ["Part Number"] [(LStr "X1", [Val "PANEL"])].

(** Text in which every character is ASCII. *)
Fixpoint ascii_only (s : string) : bool :=
  match s with
  | EmptyString => true
  | String c t => (Nat.ltb (nat_of_ascii c) 128 && ascii_only t)%bool
  end.

(** A drawing that names all six restricted materials, with and without
    an export marking; neither has a traceability note. *)
Definition six_materials : string :=
  "beryllium copper, cadmium, mercury, lead, hexavalent chromium, asbestos".

Definition seven_high : report := run_drawing ("ITAR. Rev A. " ++ six_materials).
Definition eight_high : report := run_drawing ("Rev A. " ++ six_materials).

(* ================================================================== *)
(** ** [ComplianceEngine] (core/compliance_engine.py)

    The rule tables are the literals of [load_as9100_rules] and
    [load_itar_rules]; of the [data] dictionary the checks read the keys
    ['materials'] and ['raw_text'] only, each of which may be absent. *)

Module Engine.

(** An entry of [restricted_materials]. *)
Record restricted_rule : Type := Restricted {
  material : string;
  restriction : string;
  severity : string;
  reference : string
}.

Definition restricted_materials : list restricted_rule :=
  [ Restricted "beryllium copper" "Prohibited in crew compartments"
               "violation" "AS9100D Section 8.5.1";
    Restricted "cadmium" "Requires special handling and disposal"
               "warning" "Environmental compliance" ].

Definition keywords_to_check : list string :=
  ["military"; "defense"; "weapon"; "missile"; "satellite"].

(** A violation or a warning of the engine; ['location'] and ['action']
    are keys only some of them have. *)
Record entry : Type := Entry {
  type_ : string;
  entry_description : string;
  entry_reference : string;
  entry_location : option string;
  entry_action : option string
}.

Record recommendation : Type := Recommendation {
  priority : string;
  message : string;
  action : string
}.

Record result : Type := Result {
  violations : list entry;
  warnings : list entry;
  recommendations : list recommendation
}.

Record data : Type := Data {
  materials : option (list string);
  raw_text : option string
}.

Definition found (restricted : restricted_rule) : string :=
  "Found " ++ material restricted ++ ": " ++ restriction restricted.

(** The inner loop of [check_as9100]: one material against every rule. *)
Definition check_material (acc : list entry * list entry) (mat : string)
  : list entry * list entry :=
  fold_left
    (fun acc' restricted =>
       if PyStr.contains (PyStr.lower (material restricted)) (PyStr.lower mat)
       then
         if String.eqb (severity restricted) "violation"
         then ((fst acc' ++ [Entry "Restricted Material" (found restricted)
                                   (reference restricted) (Some mat) None])%list,
               snd acc')
         else (fst acc',
               (snd acc' ++ [Entry "Material Warning" (found restricted)
                                   (reference restricted) None None])%list)
       else acc')
    restricted_materials acc.

Definition check_as9100 (d : data) : result :=
  let '(vs, ws) :=
    match materials d with
    | Some ms => fold_left check_material ms ([], [])
    | None => ([], [])
    end in
  let recs :=
    if 3 <? len vs
    then [Recommendation "high"
            "Multiple AS9100 violations found. Recommend full compliance review."
            "Schedule compliance audit with quality team"]
    else [] in
  Result vs ws recs.

Definition itar_markers : list string :=
  ["itar"; "export controlled"; "technical data"].

Definition missing_marking : entry :=
  Entry "Missing Export Control Marking"
        "Document contains ITAR-controlled content but lacks proper marking"
        "22 CFR 120-130" None (Some "Add ITAR warning statement to document").

Definition check_itar (d : data) : result :=
  match raw_text d with
  | Some raw =>
      let text := PyStr.lower raw in
      let has_itar_marking :=
        PyStr.any (fun marker => PyStr.contains marker text) itar_markers in
      if negb has_itar_marking then
        let contains_itar_content :=
          PyStr.any (fun keyword => PyStr.contains (PyStr.lower keyword) text)
                    keywords_to_check in
        if contains_itar_content then Result [missing_marking] [] []
        else Result [] [] []
      else Result [] [] []
  | None => Result [] [] []
  end.

Definition check_far (d : data) : result := Result [] [] [].

Definition check (d : data) (standard : string) : result :=
  if String.eqb standard "as9100" then check_as9100 d
  else if String.eqb standard "itar" then check_itar d
  else if String.eqb standard "far" then check_far d
  else Result [] [] [].

(** [calculate_risk_score]: 15 off per violation, 5 off per warning,
    never below zero. *)
Definition calculate_risk_score {A B} (vs : list A) (ws : list B) : Z :=
  let base_score := 100 in
  let base_score := fold_left (fun score _ => score - 15) vs base_score in
  let base_score := fold_left (fun score _ => score - 5) ws base_score in
  Z.max 0 base_score.

End Engine.

(* ================================================================== *)
(** ** Vocabulary of the further properties *)

(** [s.replace(",", "")] *)
Fixpoint remove_commas (s : string) : string :=
  match s with
  | EmptyString => EmptyString
  | String c t =>
      if Ascii.eqb c "," then remove_commas t else String c (remove_commas t)
  end.

(** [int(s.replace(",", ""))], when it parses. *)
Definition parse_amount (s : string) : option Z :=
  option_map Z.of_int (NilZero.int_of_string (remove_commas s)).

Definition letter (c : ascii) : bool :=
  (PyStr.is_upper c || PyStr.is_lower c)%bool.

(** No character of the text is an ASCII letter. *)
Fixpoint no_letters (s : string) : bool :=
  match s with
  | EmptyString => true
  | String c t => (negb (letter c) && no_letters t)%bool
  end.

Fixpoint has_letter (s : string) : bool :=
  match s with
  | EmptyString => false
  | String c t => (letter c || has_letter t)%bool
  end.

Fixpoint all_letters (s : string) : bool :=
  match s with
  | EmptyString => true
  | String c t => (letter c && all_letters t)%bool
  end.

(** The text [_extract_pdf_text] builds from the pages. *)
Definition join_pages (pages : list string) : string :=
  fold_left (fun text page => text ++ (page ++ newline)) pages "".

(** [needle] occurs in [hay], letter case ignored. *)
Definition icontains (needle hay : string) : bool :=
  PyStr.contains (PyStr.lower needle) (PyStr.lower hay).

(** The two entries [check_as9100] can append. *)
Definition beryllium_entry (mat : string) : Engine.entry :=
  Engine.Entry "Restricted Material"
               "Found beryllium copper: Prohibited in crew compartments"
               "AS9100D Section 8.5.1" (Some mat) None.

Definition cadmium_entry : Engine.entry :=
  Engine.Entry "Material Warning"
               "Found cadmium: Requires special handling and disposal"
               "Environmental compliance" None None.

(** The test [_find_column] applies to one column label. *)
Definition column_matches (possible_names : list string) (col : string) : bool :=
  existsb (fun name => icontains name col) possible_names.

(* ================================================================== *)
(** * Properties *)

(** ** Strings *)

Module PyStrFacts.
Import PyStr.

Lemma append_nil_r (s : string) : s ++ "" = s.
Proof. induction s; simpl; congruence. Qed.

Lemma append_assoc (a b c : string) : (a ++ b) ++ c = a ++ (b ++ c).
Proof. induction a; simpl; congruence. Qed.

Lemma smap_app f (a b : string) : smap f (a ++ b) = smap f a ++ smap f b.
Proof. induction a; simpl; congruence. Qed.

Lemma prefix_iff (n h : string) :
  prefix n h = true <-> exists b, h = n ++ b.
Proof.
  revert h; induction n as [|c n IH]; intros h.
  - split; [intros _; exists h; reflexivity | intros _; destruct h; reflexivity].
  - destruct h as [|d h]; simpl.
    + split; [discriminate | intros [b Hb]; discriminate].
    + destruct (ascii_dec c d) as [->|Hne].
      * rewrite IH. split; intros [b Hb]; exists b; congruence.
      * split; [discriminate | intros [b Hb]; congruence].
Qed.

(** [needle in hay] holds exactly when [hay] splits around [needle]. *)
Lemma contains_iff (n h : string) :
  contains n h = true <-> exists a b, h = a ++ n ++ b.
Proof.
  induction h as [|c h IH]; cbn [contains].
  - rewrite prefix_iff. split.
    + intros [b Hb]. exists "", b. exact Hb.
    + intros [a [b Hab]]. destruct a; [|discriminate]. exists b. exact Hab.
  - rewrite orb_true_iff, IH, (prefix_iff n (String c h)). split.
    + intros [[b Hb] | [a [b Hab]]].
      * exists "", b. exact Hb.
      * exists (String c a), b. simpl. congruence.
    + intros [a [b Hab]]. destruct a as [|d a]; simpl in Hab.
      * left. exists b. exact Hab.
      * right. exists a, b. congruence.
Qed.

Lemma contains_smap f (n h : string) :
  contains n h = true -> contains (smap f n) (smap f h) = true.
Proof.
  rewrite !contains_iff. intros [a [b ->]].
  exists (smap f a), (smap f b). now rewrite !smap_app.
Qed.

Lemma contains_nonempty (n h : string) :
  n <> "" -> contains n h = true -> truthy h = true.
Proof.
  intros Hn Hc. destruct h; [|reflexivity].
  simpl in Hc. destruct n; [congruence | discriminate].
Qed.

Ltac all_chars c :=
  destruct c as [[] [] [] [] [] [] [] []]; vm_compute; reflexivity.

Lemma upper_lower_char c : upper_char (lower_char c) = upper_char c.
Proof. all_chars c. Qed.

Lemma smap_smap f g s : smap f (smap g s) = smap (fun c => f (g c)) s.
Proof. induction s; simpl; congruence. Qed.

Lemma smap_ext f g s : (forall c, f c = g c) -> smap f s = smap g s.
Proof. intros H; induction s; simpl; congruence. Qed.

(** A fact of the ASCII case maps: text that agrees in lower case agrees
    in upper case. *)
Lemma upper_lower s : upper (lower s) = upper s.
Proof. unfold lower, upper. rewrite smap_smap. apply smap_ext, upper_lower_char. Qed.

End PyStrFacts.

(** ** The validators append what the rule-by-rule view says *)

Section Decomposition.

Lemma check_row_spec cols pc mc sc (ir : label * list cell) (c : checker) :
  check_row cols pc mc sc ir c =
  match row_location (fst ir) with
  | Returned loc =>
      (Checker (violations c ++ emits_violations cols pc mc loc (snd ir))
               (warnings c ++ emits_warnings cols pc sc loc (snd ir))
               (risk_score c) (checked_items c),
       Returned tt)
  | Raised e =>
      (c, if row_fires cols pc mc sc (snd ir) then Raised e else Returned tt)
  end.
Proof.
  destruct c as [v wn rs ci], ir as [idx row]. cbn [fst snd].
  unfold check_row, emits_violations, emits_warnings, row_fires,
    fires_restricted, fires_missing_part, fires_itar_bom, fires_uncertified,
    material_shown, supplier_shown, part_shown, when.
  destruct (row_location idx) as [e|loc];
    destruct (truthy_col pc), (truthy_col mc), (truthy_col sc);
    cbn [andb orb];
    repeat match goal with
           | |- context [_is_itar_controlled ?x] =>
               destruct (_is_itar_controlled x)
           | |- context [Pd.notna ?x] => destruct (Pd.notna x)
           | |- context [Pd.isna ?x] => destruct (Pd.isna x)
           | |- context [_is_restricted_material ?x] =>
               destruct (_is_restricted_material x)
           | |- context [_is_certified_supplier ?x] =>
               destruct (_is_certified_supplier x)
           end;
    cbn [andb negb orb];
    unfold bind, eval, ret, violation, warning, append_violation, append_warning;
    cbn [violations warnings risk_score checked_items app];
    rewrite ?app_nil_r, <- ?app_assoc; reflexivity.
Qed.

Lemma row_emits_returned cols pc mc sc idx row loc :
  row_location idx = Returned loc ->
  row_emits cols pc mc sc (idx, row)
  = (emits_violations cols pc mc loc row, emits_warnings cols pc sc loc row).
Proof. intros E. unfold row_emits. cbn [fst snd]. now rewrite E. Qed.

Lemma row_emits_raised cols pc mc sc idx row e :
  row_location idx = Raised e ->
  row_emits cols pc mc sc (idx, row) = ([], []).
Proof. intros E. unfold row_emits. cbn [fst snd]. now rewrite E. Qed.

(** The loop appends what the rows it completes emit, and ends with the
    exception of the first row that raises. *)
Lemma for_each_check_row cols pc mc sc (irs : list (label * list cell)) :
  forall c,
    for_each irs (check_row cols pc mc sc) c =
    (Checker (violations c
              ++ flat_map (fun ir => fst (row_emits cols pc mc sc ir))
                          (processed cols pc mc sc irs))
             (warnings c
              ++ flat_map (fun ir => snd (row_emits cols pc mc sc ir))
                          (processed cols pc mc sc irs))
             (risk_score c) (checked_items c),
     match first_raise cols pc mc sc irs with
     | Some e => Raised e
     | None => Returned tt
     end).
Proof.
  induction irs as [|[idx row] irs IH]; intros c;
    cbn [for_each processed first_raise].
  - unfold ret. cbn [flat_map]. rewrite !app_nil_r. now destruct c.
  - unfold bind. rewrite check_row_spec. unfold row_raises. cbn [fst snd].
    destruct (row_location idx) as [e|loc] eqn:E.
    + destruct (row_fires cols pc mc sc row).
      * cbn [flat_map]. rewrite !app_nil_r. now destruct c.
      * rewrite IH. cbn [flat_map].
        rewrite (@row_emits_raised cols pc mc sc idx row e E).
        cbn [fst snd app]. reflexivity.
    + rewrite IH. cbn [flat_map violations warnings risk_score checked_items].
      rewrite (@row_emits_returned cols pc mc sc idx row loc E). cbn [fst snd].
      now rewrite <- !app_assoc.
Qed.

(** The [try] of [_validate_bom] around the loop: the entries of the rows
    the loop completes, then the warning of the handler if it raised. *)
Lemma bom_checks_handled (c : checker) (df : frame) :
  (let '(c', r) := bom_checks df c in
   match r with
   | Returned _ => c'
   | Raised e => append_warning c' (bom_error e)
   end)
  = Checker (violations c ++ bom_violations df) (warnings c ++ bom_warnings df)
            (risk_score c) (len (rows df)).
Proof.
  unfold bom_checks, Pd.iterrows. rewrite for_each_check_row.
  unfold bom_violations, bom_warnings, loop_warning, completed,
    part_column, material_column, supplier_column.
  cbn [violations warnings risk_score checked_items].
  destruct (first_raise _ _ _ _ _) as [e|].
  - unfold append_warning. cbn [violations warnings risk_score checked_items].
    now rewrite <- app_assoc.
  - now rewrite app_nil_r.
Qed.

Lemma fold_mat_001 (ms : list string) :
  forall c,
    fold_left (fun c' m => append_violation c' (mat_001 m)) ms c =
    Checker (violations c ++ map mat_001 ms) (warnings c)
            (risk_score c) (checked_items c).
Proof.
  induction ms as [|m ms IH]; intros c; cbn [fold_left map].
  - rewrite app_nil_r. now destruct c.
  - rewrite IH. cbn. now rewrite <- app_assoc.
Qed.

Lemma drawing_checks_spec (c : checker) (text : string) :
  drawing_checks c text =
  Checker (violations c ++ drawing_violations text)
          (warnings c ++ drawing_warnings text)
          (risk_score c) (checked_items c).
Proof.
  destruct c as [v wn rs ci].
  unfold drawing_checks, drawing_violations, drawing_warnings.
  rewrite fold_mat_001.
  destruct (_check_itar_marking text), (_check_revision_marking text),
    (_check_traceability text);
    unfold append_violation, append_warning;
    cbn [negb violations warnings risk_score checked_items app];
    rewrite ?app_nil_r, <- ?app_assoc; reflexivity.
Qed.

(** A call leaves in the attributes, and reports, what [emitted] says;
    only [checked_items] depends on the attributes before the call. *)
Lemma validate_document_spec w c file_path doc_type :
  exists items,
    validate_document w c file_path doc_type =
    let v := fst (emitted w file_path doc_type) in
    let wn := snd (emitted w file_path doc_type) in
    let c' := Checker v wn (Z.min 100 (len v * 15 + len wn * 5)) items in
    (c', _generate_report w c').
Proof.
  unfold emitted, validate_document, _validate_technical_drawing,
    _validate_bom, read_bom.
  destruct (String.eqb doc_type "drawing").
  - destruct (_extract_pdf_text w file_path) as [e|text].
    + eexists. reflexivity.
    + rewrite drawing_checks_spec. eexists. reflexivity.
  - destruct (String.eqb doc_type "bom").
    + destruct (if endswith file_path ".xlsx" then _ else _) as [e|df].
      * eexists. reflexivity.
      * rewrite bom_checks_handled. eexists. reflexivity.
    + eexists. reflexivity.
Qed.

Lemma report_fields w c file_path doc_type :
  let r := snd (validate_document w c file_path doc_type) in
  let v := fst (emitted w file_path doc_type) in
  let wn := snd (emitted w file_path doc_type) in
  rep_violations r = v /\ rep_warnings r = wn
  /\ status r = (if len v =? 0 then "PASS" else "FAIL")
  /\ rep_risk_score r = Z.min 100 (len v * 15 + len wn * 5)
  /\ rep_summary r =
     Summary (len v) (len wn) (render_exposure (len v * 50000 + len wn * 5000))
  /\ timestamp r = now_isoformat w.
Proof.
  destruct (validate_document_spec w c file_path doc_type) as [items ->].
  cbn. repeat split.
Qed.

End Decomposition.

(** ** Which list a finding lands in *)

Section Severity.

Lemma forallb_flat_map {A B} (p : B -> bool) (f : A -> list B) (l : list A) :
  (forall x, forallb p (f x) = true) -> forallb p (flat_map f l) = true.
Proof.
  intros H. induction l as [|x l IH]; cbn [flat_map forallb]; [reflexivity|].
  now rewrite forallb_app, H, IH.
Qed.

Lemma emits_violations_major cols pc mc loc row :
  forallb is_major (emits_violations cols pc mc loc row) = true.
Proof.
  unfold emits_violations.
  destruct (fires_restricted cols mc row), (fires_missing_part cols pc row);
    reflexivity.
Qed.

Lemma emits_warnings_minor cols pc sc loc row :
  forallb is_minor (emits_warnings cols pc sc loc row) = true.
Proof.
  unfold emits_warnings.
  destruct (fires_itar_bom cols pc row), (fires_uncertified cols sc row);
    reflexivity.
Qed.

Lemma row_emits_sorted cols pc mc sc ir :
  forallb is_major (fst (row_emits cols pc mc sc ir)) = true
  /\ forallb is_minor (snd (row_emits cols pc mc sc ir)) = true.
Proof.
  unfold row_emits. destruct (row_location (fst ir)); cbn [fst snd].
  - split; reflexivity.
  - split; [apply emits_violations_major | apply emits_warnings_minor].
Qed.

Lemma drawing_violations_major text :
  forallb is_major (drawing_violations text) = true.
Proof.
  unfold drawing_violations. rewrite !forallb_app.
  destruct (_check_itar_marking text), (_check_traceability text);
    cbn [negb forallb andb];
    try (replace (is_major itar_001) with true by reflexivity);
    try (replace (is_major trace_001) with true by reflexivity);
    cbn [andb]; rewrite ?andb_true_r;
    induction (_check_restricted_materials text) as [|m ms IH];
    try reflexivity; cbn [map forallb]; rewrite IH; reflexivity.
Qed.

Lemma drawing_warnings_minor text :
  forallb is_minor (drawing_warnings text) = true.
Proof.
  unfold drawing_warnings. now destruct (_check_revision_marking text).
Qed.

(** Every violation of a call is major, every warning minor. *)
Lemma emitted_sorted w file_path doc_type :
  forallb is_major (fst (emitted w file_path doc_type)) = true
  /\ forallb is_minor (snd (emitted w file_path doc_type)) = true.
Proof.
  unfold emitted.
  destruct (String.eqb doc_type "drawing").
  - destruct (_extract_pdf_text w file_path) as [e|text]; cbn [fst snd].
    + split; reflexivity.
    + split; [apply drawing_violations_major | apply drawing_warnings_minor].
  - destruct (String.eqb doc_type "bom"); [|split; reflexivity].
    destruct (read_bom w file_path) as [e|df]; cbn [fst snd].
    + split; reflexivity.
    + split.
      * apply forallb_flat_map. intros ir. apply row_emits_sorted.
      * unfold bom_warnings, loop_warning. rewrite forallb_app.
        apply andb_true_iff. split.
        -- apply forallb_flat_map. intros ir. apply row_emits_sorted.
        -- now destruct (first_raise _ _ _ _ _).
Qed.

Lemma filter_all {A} (p : A -> bool) (l : list A) :
  forallb p l = true -> filter p l = l.
Proof.
  induction l as [|x l IH]; cbn; [reflexivity|].
  intros H. apply andb_true_iff in H as [Hx Hl]. now rewrite Hx, IH.
Qed.

Lemma filter_none {A} (p : A -> bool) (l : list A) :
  forallb (fun x => negb (p x)) l = true -> filter p l = [].
Proof.
  induction l as [|x l IH]; cbn; [reflexivity|].
  intros H. apply andb_true_iff in H as [Hx Hl].
  apply negb_true_iff in Hx. now rewrite Hx, IH.
Qed.

(** The lengths of the two lists, read off the findings of the report. *)
Lemma lengths_by_weight w c file_path doc_type :
  let r := snd (validate_document w c file_path doc_type) in
  len (rep_violations r) = count is_major (findings r)
  /\ len (rep_warnings r) = count is_minor (findings r).
Proof.
  intros r.
  destruct (report_fields w c file_path doc_type) as (Hv & Hw & _).
  destruct (emitted_sorted w file_path doc_type) as [Hmaj Hmin].
  fold r in Hv, Hw. rewrite <- Hv in Hmaj. rewrite <- Hw in Hmin.
  unfold count, findings. rewrite !filter_app.
  rewrite (filter_all _ _ Hmaj), (filter_all _ _ Hmin).
  rewrite (filter_none is_major (rep_warnings r)) by exact Hmin.
  rewrite (filter_none is_minor (rep_violations r)).
  - now rewrite app_nil_r.
  - rewrite forallb_forall in Hmaj |- *. intros f Hf.
    unfold is_minor. now rewrite negb_involutive, (Hmaj f Hf).
Qed.

End Severity.

(** ** Status *)

Section Status.

Lemma is_major_high f : is_major f = true -> sev f = HIGH.
Proof.
  unfold is_major, is_high. destruct (sev f); cbn; congruence.
Qed.

Lemma len_zero_iff {A} (l : list A) : (len l =? 0) = true <-> l = [].
Proof.
  unfold len. rewrite Z.eqb_eq.
  destruct l; cbn [List.length]; split; intros H;
    try reflexivity; try discriminate; lia.
Qed.

Lemma status_cases w c file_path doc_type :
  let r := snd (validate_document w c file_path doc_type) in
  (rep_violations r = [] /\ status r = "PASS")
  \/ (rep_violations r <> [] /\ status r = "FAIL").
Proof.
  intros r.
  destruct (report_fields w c file_path doc_type) as (Hv & _ & Hs & _).
  fold r in Hv, Hs. rewrite <- Hv in Hs.
  destruct (len (rep_violations r) =? 0) eqn:E.
  - left. split; [now apply len_zero_iff | exact Hs].
  - right. split; [|exact Hs]. intros H. apply len_zero_iff in H. congruence.
Qed.

Lemma violations_high w c file_path doc_type f :
  In f (rep_violations (snd (validate_document w c file_path doc_type))) ->
  sev f = HIGH /\ rule f <> "ITAR-BOM-001".
Proof.
  destruct (report_fields w c file_path doc_type) as (Hv & _).
  destruct (emitted_sorted w file_path doc_type) as [Hmaj _].
  rewrite Hv. intros Hf.
  rewrite forallb_forall in Hmaj. specialize (Hmaj f Hf).
  split; [now apply is_major_high|].
  unfold is_major, has_rule in Hmaj. apply andb_true_iff in Hmaj as [_ Hr].
  apply negb_true_iff, String.eqb_neq in Hr. exact Hr.
Qed.

End Status.



(** ** Risk score *)

(** C2, as amended.  The risk score is min(100, 15 x violations + 5 x
    warnings), where the violations are the findings of severity High
    other than ITAR-BOM-001 and the warnings are all the others (Medium,
    Low, and ITAR-BOM-001).  It lies in 0..100, it does not decrease when
    a call has at least as many findings of each kind as another, and
    seven or more violations give 100. *)
Theorem risk_score_by_list w c file_path doc_type :
  let r := snd (validate_document w c file_path doc_type) in
  rep_risk_score r =
    Z.min 100 (15 * count is_major (findings r) + 5 * count is_minor (findings r))
  /\ count is_major (findings r) = len (rep_violations r)
  /\ count is_minor (findings r) = len (rep_warnings r)
  /\ 0 <= rep_risk_score r <= 100
  /\ (7 <= count is_major (findings r) -> rep_risk_score r = 100)
  /\ (forall w' c' file_path' doc_type',
        let r' := snd (validate_document w' c' file_path' doc_type') in
        count is_major (findings r) <= count is_major (findings r') ->
        count is_minor (findings r) <= count is_minor (findings r') ->
        rep_risk_score r <= rep_risk_score r').
Proof.
  intros r.
  destruct (lengths_by_weight w c file_path doc_type) as [Hv Hw].
  destruct (report_fields w c file_path doc_type) as (Ev & Ew & _ & Hr & _).
  fold r in Hv, Hw, Ev, Ew, Hr. rewrite <- Ev, <- Ew in Hr.
  rewrite <- Hv, <- Hw.
  assert (0 <= len (rep_violations r)) by (unfold len; lia).
  assert (0 <= len (rep_warnings r)) by (unfold len; lia).
  repeat split; try lia.
  intros w' c' p' d' r' Hmaj Hmin.
  destruct (lengths_by_weight w' c' p' d') as [Hv' Hw'].
  destruct (report_fields w' c' p' d') as (Ev' & Ew' & _ & Hr' & _).
  fold r' in Hv', Hw', Ev', Ew', Hr'. rewrite <- Ev', <- Ew' in Hr'.
  rewrite <- Hv' in Hmaj. rewrite <- Hw' in Hmin. lia.
Qed.

(** C2, as stated, fails on the PANEL bill of materials: one finding of
    severity High and none other would score 15, the report scores 5. *)
Lemma high_warning_scores_five :
  rep_risk_score (run_bom panel_bom) = 5
  /\ spec_risk_score (findings (run_bom panel_bom)) = 15
  /\ rep_risk_score (run_bom panel_bom)
     <> spec_risk_score (findings (run_bom panel_bom)).
Proof. repeat split. discriminate. Qed.

(** ** Estimated exposure *)

Section Exposure.
Import PyFloat.

Lemma div_rne_nonneg n d : 0 <= n -> 0 < d -> 0 <= div_rne n d.
Proof.
  intros Hn Hd. unfold div_rne.
  assert (0 <= n / d) by (apply Z.div_pos; lia).
  destruct (2 * (n mod d) <? d); [lia|].
  destruct (d <? 2 * (n mod d)); [lia|].
  destruct (Z.even (n / d)); lia.
Qed.

Lemma true_div_nonneg n d :
  0 <= n -> 0 < d -> 0 <= fst (true_div n d) /\ 0 < snd (true_div n d).
Proof.
  intros Hn Hd. unfold true_div.
  destruct (0 <=? 52 - ilog2_ratio n d) eqn:E; cbn [fst snd].
  - apply Z.leb_le in E. split.
    + apply div_rne_nonneg; [|lia]. apply Z.mul_nonneg_nonneg; [lia|].
      apply Z.pow_nonneg; lia.
    + apply Z.pow_pos_nonneg; lia.
  - apply Z.leb_gt in E. split; [|lia].
    assert (0 < 2 ^ (- (52 - ilog2_ratio n d))) by (apply Z.pow_pos_nonneg; lia).
    apply Z.mul_nonneg_nonneg; [|lia].
    apply div_rne_nonneg; [lia|]. apply Z.mul_pos_pos; lia.
Qed.

(** One decimal: an integer part, a point and one digit. *)
Lemma fmt_1f_shape n d :
  0 <= n -> 0 < d ->
  exists X Y, 0 <= X /\ 0 <= Y < 10
    /\ fmt_1f (true_div n d) = PyStr.str_int X ++ "." ++ PyStr.str_int Y.
Proof.
  intros Hn Hd. destruct (true_div_nonneg Hn Hd) as [Hnum Hden].
  destruct (true_div n d) as [num den]. cbn [fst snd] in *.
  unfold fmt_1f.
  assert (0 <= div_rne (10 * num) den) by (apply div_rne_nonneg; lia).
  exists (div_rne (10 * num) den / 10), (div_rne (10 * num) den mod 10).
  repeat split.
  - apply Z.div_pos; lia.
  - apply Z.mod_pos_bound; lia.
  - apply Z.mod_pos_bound; lia.
Qed.

Lemma render_exposure_cases total :
  0 <= total ->
  (total = 0 /\ render_exposure total = "Minimal risk")
  \/ (0 < total <= 1000000
      /\ render_exposure total
         = "$" ++ PyStr.fmt_comma total ++ " potential exposure")
  \/ (1000000 < total
      /\ exists X Y, 0 <= X /\ 0 <= Y < 10
         /\ render_exposure total
            = "$" ++ (PyStr.str_int X ++ "." ++ PyStr.str_int Y)
                  ++ "M potential exposure").
Proof.
  intros H0. unfold render_exposure.
  destruct (1000000 <? total) eqn:E1.
  - apply Z.ltb_lt in E1. right; right. split; [exact E1|].
    destruct (@fmt_1f_shape total 1000000) as (X & Y & HX & HY & ->); try lia.
    exists X, Y. repeat split; lia.
  - apply Z.ltb_ge in E1. destruct (0 <? total) eqn:E2.
    + apply Z.ltb_lt in E2. right; left. split; [lia | reflexivity].
    + apply Z.ltb_ge in E2. left. split; [lia | reflexivity].
Qed.

End Exposure.

(** C3, as amended.  The exposure string renders the total of 50,000 per
    violation (the findings of severity High other than ITAR-BOM-001) and
    5,000 per warning (all the other findings): "Minimal risk" when the
    total is zero, the comma-grouped dollar amount up to one million, and
    a one-decimal figure of millions above it.  A call with no finding has
    "Minimal risk", risk score 0 and status PASS. *)
Theorem exposure_by_list w c file_path doc_type :
  let r := snd (validate_document w c file_path doc_type) in
  let total := 50000 * count is_major (findings r)
               + 5000 * count is_minor (findings r) in
  estimated_risk (rep_summary r) = render_exposure total
  /\ ((total = 0 /\ estimated_risk (rep_summary r) = "Minimal risk")
      \/ (0 < total <= 1000000
          /\ estimated_risk (rep_summary r)
             = "$" ++ PyStr.fmt_comma total ++ " potential exposure")
      \/ (1000000 < total
          /\ exists X Y, 0 <= X /\ 0 <= Y < 10
             /\ estimated_risk (rep_summary r)
                = "$" ++ (PyStr.str_int X ++ "." ++ PyStr.str_int Y)
                      ++ "M potential exposure"))
  /\ (findings r = [] ->
      estimated_risk (rep_summary r) = "Minimal risk"
      /\ rep_risk_score r = 0 /\ status r = "PASS").
Proof.
  intros r total.
  destruct (lengths_by_weight w c file_path doc_type) as [Hv Hw].
  destruct (report_fields w c file_path doc_type)
    as (Ev & Ew & Hst & Hr & Hsum & _).
  fold r in Hv, Hw, Ev, Ew, Hst, Hr, Hsum.
  rewrite <- Ev in Hst. rewrite <- Ev, <- Ew in Hr, Hsum.
  assert (Htot : len (rep_violations r) * 50000 + len (rep_warnings r) * 5000
                 = total) by (unfold total; lia).
  rewrite Htot in Hsum. rewrite Hsum. cbn [estimated_risk].
  assert (0 <= total)
    by (unfold total, count, len; lia).
  split; [reflexivity|]. split; [now apply render_exposure_cases|].
  intros Hnil. unfold findings in Hnil.
  apply app_eq_nil in Hnil as [Hnv Hnw].
  rewrite Hnv, Hnw in *. cbn in Htot. subst total.
  rewrite <- Htot. repeat split; assumption || reflexivity.
Qed.

(** C3, as stated, fails on the PANEL bill of materials: its one finding
    has severity High, which the stated sum prices at 50,000; the report
    says 5,000. *)
Lemma high_warning_costs_five_thousand :
  estimated_risk (rep_summary (run_bom panel_bom)) = "$5,000 potential exposure"
  /\ render_exposure (spec_exposure_total (findings (run_bom panel_bom)))
     = "$50,000 potential exposure"
  /\ estimated_risk (rep_summary (run_bom panel_bom))
     <> render_exposure (spec_exposure_total (findings (run_bom panel_bom))).
Proof. repeat split. discriminate. Qed.

(** ** Decode failures *)

(** C5, as amended.  When the artifact cannot be decoded the call still
    returns a report, with exactly one finding, a warning of rule SYSTEM,
    status PASS and risk score 5.  On the drawing path the finding has
    severity Low and recommends manual review; on the BOM path it has
    severity Medium and recommends checking the file format and
    structure. *)
Theorem decode_failure_report w c file_path doc_type e :
  (doc_type = "drawing" /\ pdf_pages w file_path = Raised e)
  \/ (doc_type = "bom" /\ read_bom w file_path = Raised e) ->
  let r := snd (validate_document w c file_path doc_type) in
  exists f,
    findings r = [f] /\ rep_warnings r = [f] /\ rule f = "SYSTEM"
    /\ status r = "PASS" /\ rep_risk_score r = 5
    /\ rep_summary r = Summary 0 1 "$5,000 potential exposure"
    /\ (doc_type = "drawing" ->
        sev f = LOW /\ fix_ f = "Manual review recommended"
        /\ description f
           = "Could not fully parse drawing: PDF extraction failed: " ++ e)
    /\ (doc_type = "bom" ->
        sev f = MEDIUM /\ fix_ f = "Check file format and structure"
        /\ description f = "Error processing BOM: " ++ e).
Proof.
  intros H r.
  destruct (report_fields w c file_path doc_type)
    as (Ev & Ew & Hst & Hr & Hsum & _).
  fold r in Ev, Ew, Hst, Hr, Hsum. unfold findings.
  rewrite Ev, Ew, Hst, Hr, Hsum. clear Ev Ew Hst Hr Hsum.
  unfold emitted, _extract_pdf_text.
  destruct H as [[-> He] | [-> He]]; rewrite He; cbn [String.eqb Ascii.eqb Bool.eqb fst snd].
  - eexists. repeat split; try reflexivity; discriminate.
  - eexists. repeat split; try reflexivity; discriminate.
Qed.

Lemma decode_failure_report_witness :
  (("bom" = "drawing" /\ pdf_pages unreadable "bom.csv" = Raised "No columns to parse from file")
   \/ ("bom" = "bom"
       /\ read_bom unreadable "bom.csv" = Raised "No columns to parse from file"))
  /\ exists f,
      findings broken_bom_report = [f] /\ rep_warnings broken_bom_report = [f]
      /\ rule f = "SYSTEM"
      /\ status broken_bom_report = "PASS" /\ rep_risk_score broken_bom_report = 5
      /\ rep_summary broken_bom_report = Summary 0 1 "$5,000 potential exposure"
      /\ ("bom" = "drawing" ->
          sev f = LOW /\ fix_ f = "Manual review recommended"
          /\ description f
             = "Could not fully parse drawing: PDF extraction failed: "
               ++ "No columns to parse from file")
      /\ ("bom" = "bom" ->
          sev f = MEDIUM /\ fix_ f = "Check file format and structure"
          /\ description f
             = "Error processing BOM: " ++ "No columns to parse from file").
Proof.
  split.
  - right. split; reflexivity.
  - apply (@decode_failure_report unreadable init "bom.csv" "bom"
             "No columns to parse from file").
    right. split; reflexivity.
Defined.

(** C5, as stated, fails on the BOM path: the one finding of an
    unreadable table has severity Medium and does not recommend manual
    review. *)
Lemma bom_decode_failure_is_medium :
  ~ (exists f, findings broken_bom_report = [f]
               /\ sev f = LOW /\ fix_ f = "Manual review recommended").
Proof.
  intros (f & Hf & Hsev & _). vm_compute in Hf.
  injection Hf as <-. discriminate.
Qed.

(** ** Statelessness *)

Lemma emitted_same_content w1 w2 file_path doc_type :
  same_content w1 w2 file_path ->
  emitted w1 file_path doc_type = emitted w2 file_path doc_type.
Proof.
  intros (Hp & Hx & Hc). unfold emitted, _extract_pdf_text, read_bom.
  now rewrite Hp, Hx, Hc.
Qed.

(** C6.  Whatever attributes earlier calls left in the checker, a call on
    the same file content and document type returns the same violations,
    warnings, status, risk score and summary; only the timestamp (and the
    [checked_items] echo, which is none of these fields) may differ. *)
Theorem validate_document_stateless w1 w2 c1 c2 file_path doc_type :
  same_content w1 w2 file_path ->
  core_fields (snd (validate_document w1 c1 file_path doc_type))
  = core_fields (snd (validate_document w2 c2 file_path doc_type)).
Proof.
  intros Hsame.
  destruct (report_fields w1 c1 file_path doc_type) as (V1 & W1 & S1 & R1 & M1 & _).
  destruct (report_fields w2 c2 file_path doc_type) as (V2 & W2 & S2 & R2 & M2 & _).
  unfold core_fields.
  rewrite V1, W1, S1, R1, M1, V2, W2, S2, R2, M2.
  now rewrite (emitted_same_content doc_type Hsame).
Qed.

Lemma validate_document_stateless_witness :
  same_content (const_world (Returned ["Rev A"]) (Returned panel_bom))
               (later (const_world (Returned ["Rev A"]) (Returned panel_bom)))
               "drawing.pdf"
  /\ core_fields
       (snd (validate_document
               (const_world (Returned ["Rev A"]) (Returned panel_bom))
               (after [(const_world (Returned []) (Returned five_row_bom),
                        "bom.csv", "bom")])
               "drawing.pdf" "drawing"))
     = core_fields
         (snd (validate_document
                 (later (const_world (Returned ["Rev A"]) (Returned panel_bom)))
                 init "drawing.pdf" "drawing")).
Proof.
  split.
  - repeat split.
  - apply validate_document_stateless. repeat split.
Defined.

(** What does survive a call is [checked_items]: a drawing validated after
    a five-row BOM still reports five checked items. *)
Remark checked_items_survives_calls :
  rep_checked_items
    (snd (validate_document
            (const_world (Returned ["Rev A"]) (Returned panel_bom))
            (after [(const_world (Returned []) (Returned five_row_bom),
                     "bom.csv", "bom")])
            "drawing.pdf" "drawing")) = 5
  /\ rep_checked_items (run_drawing "Rev A") = 0.
Proof. split; reflexivity. Qed.

(** ** Row labels *)

Section RowLabels.
Import PyStr PyStrFacts.

Lemma string_of_uint_digits d :
  all_digits (NilEmpty.string_of_uint d) = true.
Proof. induction d; cbn; auto. Qed.

Lemma str_int_digits n : 0 <= n -> all_digits (str_int n) = true.
Proof.
  intros Hn. unfold str_int. destruct n as [|p|p]; [reflexivity| |lia].
  cbn [Z.to_int NilZero.string_of_int]. unfold NilZero.string_of_uint.
  destruct (Pos.to_uint p) eqn:E; try reflexivity;
    rewrite <- E; apply string_of_uint_digits.
Qed.

Lemma str_int_inj a b : str_int a = str_int b -> a = b.
Proof.
  unfold str_int. intros H. apply DecimalZ.to_int_inj.
  assert (Hnn : forall z, Z.to_int z <> Decimal.Pos Decimal.Nil
                          /\ Z.to_int z <> Decimal.Neg Decimal.Nil).
  { intros [|p|p]; cbn; split; try discriminate;
      intros [= E]; now apply (DecimalPos.Unsigned.to_uint_nonnil p). }
  destruct (Hnn a) as [A1 A2], (Hnn b) as [B1 B2].
  pose proof (NilZero.isi _ A1 A2) as Ia. pose proof (NilZero.isi _ B1 B2) as Ib.
  rewrite H in Ia. congruence.
Qed.

(** Digits stop at the first comma. *)
Lemma digits_then_comma d1 : forall d2 t1 t2,
  all_digits d1 = true -> all_digits d2 = true ->
  d1 ++ String "," t1 = d2 ++ String "," t2 -> d1 = d2.
Proof.
  induction d1 as [|c d1 IH]; intros [|c2 d2] t1 t2 H1 H2 E;
    cbn in *; try reflexivity.
  - injection E as <- _. discriminate.
  - injection E as -> _. discriminate.
  - apply andb_true_iff in H1 as [_ H1]. apply andb_true_iff in H2 as [_ H2].
    injection E as -> E. f_equal. eapply IH; eassumption.
Qed.

Lemma digits_no_comma d : forall x y,
  all_digits d = true -> d <> x ++ String "," y.
Proof.
  induction d as [|c d IH]; intros [|cx x] y Hd E; cbn in *; try discriminate.
  - injection E as -> _. discriminate.
  - apply andb_true_iff in Hd as [_ Hd]. injection E as _ E.
    now apply (IH x y).
Qed.

Lemma row_label_inj i j : row_label i = row_label j -> i = j.
Proof.
  unfold row_label. intros [= E]. apply str_int_inj in E. lia.
Qed.

Lemma row_label_digits i : all_digits (str_int (Z.of_nat i + 2)) = true.
Proof. apply str_int_digits. lia. Qed.

(** A location [Row N] or [Row N, ...] names row [i] only when it was
    rendered for row [i]. *)
Lemma at_row_plain i j f :
  location f = Some (row_label j) -> at_row i f = Nat.eqb i j.
Proof.
  intros Hl. unfold at_row. rewrite Hl.
  destruct (Nat.eqb_spec i j) as [->|Hne].
  - now rewrite String.eqb_refl.
  - apply orb_false_iff. split.
    + apply String.eqb_neq. intros E. apply row_label_inj in E. congruence.
    + apply not_true_iff_false. rewrite prefix_iff. intros [b E].
      unfold row_label in E. cbn in E. injection E as E.
      rewrite append_assoc in E.
      exact (digits_no_comma _ _ (row_label_digits j) E).
Qed.

Lemma at_row_part i j f t :
  location f = Some (row_label j ++ ", Part: " ++ t) ->
  at_row i f = Nat.eqb i j.
Proof.
  intros Hl. unfold at_row. rewrite Hl.
  destruct (Nat.eqb_spec i j) as [->|Hne].
  - apply orb_true_iff. right. apply prefix_iff.
    exists (" Part: " ++ t). now rewrite append_assoc.
  - apply orb_false_iff. split.
    + apply String.eqb_neq. unfold row_label. cbn. intros [= E].
      symmetry in E.
      exact (digits_no_comma _ _ (row_label_digits i) E).
    + apply not_true_iff_false. rewrite prefix_iff. intros [b E].
      unfold row_label in E. cbn in E. injection E as E.
      rewrite !append_assoc in E. cbn in E.
      apply digits_then_comma in E; try apply row_label_digits.
      apply str_int_inj in E. lia.
Qed.

End RowLabels.

(** ** The BOM loop, rule by rule *)

Section BomRules.

Lemma filter_flat_map {A B} (p : B -> bool) (f : A -> list B) (l : list A) :
  filter p (flat_map f l) = flat_map (fun x => filter p (f x)) l.
Proof.
  induction l as [|x l IH]; cbn [flat_map]; [reflexivity|].
  now rewrite filter_app, IH.
Qed.

Lemma flat_map_singletons {A B} (b : A -> bool) (g : A -> B) (l : list A) :
  flat_map (fun x => if b x then [g x] else []) l = map g (filter b l).
Proof.
  induction l as [|x l IH]; cbn [flat_map filter]; [reflexivity|].
  rewrite IH. now destruct (b x).
Qed.

Lemma flat_map_nil {A B} (l : list A) :
  flat_map (fun _ : A => @nil B) l = [].
Proof. induction l; cbn; auto. Qed.

Lemma flat_map_ext' {A B} (f g : A -> list B) (l : list A) :
  (forall x, f x = g x) -> flat_map f l = flat_map g l.
Proof. intros H. induction l; cbn; congruence. Qed.

Lemma emitted_bom w file_path df :
  read_bom w file_path = Returned df ->
  emitted w file_path "bom" = (bom_violations df, bom_warnings df).
Proof. intros H. unfold emitted. cbn [String.eqb Ascii.eqb Bool.eqb]. now rewrite H. Qed.

Lemma findings_bom w c file_path df :
  read_bom w file_path = Returned df ->
  let r := snd (validate_document w c file_path "bom") in
  rep_violations r = bom_violations df /\ rep_warnings r = bom_warnings df.
Proof.
  intros H r.
  destruct (report_fields w c file_path "bom") as (Ev & Ew & _).
  fold r in Ev, Ew. rewrite Ev, Ew, (emitted_bom _ _ H). now split.
Qed.

Lemma enumerate_from_combine rs : forall start,
  Pd.enumerate_from start rs = combine (seq start (List.length rs)) rs.
Proof.
  induction rs as [|r rs IH]; intros start; cbn; [reflexivity|].
  now rewrite IH.
Qed.

Variable cols : list string.
Variables pc mc sc : option string.

(** What each rule contributes to the violations of one row. *)
Lemma emits_violations_mat loc row :
  filter (has_rule "AS9100-MAT-002") (emits_violations cols pc mc loc row)
  = if fires_restricted cols mc row
    then [mat_002_at (material_shown cols mc row) (part_shown cols pc row) loc]
    else [].
Proof.
  unfold emits_violations.
  destruct (fires_restricted cols mc row), (fires_missing_part cols pc row);
    reflexivity.
Qed.

Lemma emits_violations_data loc row :
  filter (has_rule "AS9100-DATA-001") (emits_violations cols pc mc loc row)
  = if fires_missing_part cols pc row then [data_001_at loc] else [].
Proof.
  unfold emits_violations.
  destruct (fires_restricted cols mc row), (fires_missing_part cols pc row);
    reflexivity.
Qed.

Lemma emits_warnings_itar loc row :
  filter (has_rule "ITAR-BOM-001") (emits_warnings cols pc sc loc row)
  = if fires_itar_bom cols pc row
    then [itar_bom_at (part_shown cols pc row) loc] else [].
Proof.
  unfold emits_warnings.
  destruct (fires_itar_bom cols pc row), (fires_uncertified cols sc row);
    reflexivity.
Qed.

Lemma emits_warnings_sup loc row :
  filter (has_rule "AS9100-SUP-001") (emits_warnings cols pc sc loc row)
  = if fires_uncertified cols sc row
    then [sup_001_at (supplier_shown cols sc row) loc] else [].
Proof.
  unfold emits_warnings.
  destruct (fires_itar_bom cols pc row), (fires_uncertified cols sc row);
    reflexivity.
Qed.

(** A rule of one list leaves nothing in the other. *)
Lemma emits_violations_other name loc row :
  name = "ITAR-BOM-001" \/ name = "AS9100-SUP-001" ->
  filter (has_rule name) (emits_violations cols pc mc loc row) = [].
Proof.
  unfold emits_violations.
  intros [-> | ->];
    destruct (fires_restricted cols mc row), (fires_missing_part cols pc row);
    reflexivity.
Qed.

Lemma emits_warnings_other name loc row :
  name = "AS9100-MAT-002" \/ name = "AS9100-DATA-001" ->
  filter (has_rule name) (emits_warnings cols pc sc loc row) = [].
Proof.
  unfold emits_warnings.
  intros [-> | ->];
    destruct (fires_itar_bom cols pc row), (fires_uncertified cols sc row);
    reflexivity.
Qed.

(** The same, by position. *)
Lemma row_violations_mat ir :
  filter (has_rule "AS9100-MAT-002") (row_violations cols pc mc ir)
  = if fires_restricted cols mc (snd ir)
    then [mat_002 (material_shown cols mc (snd ir))
                  (part_shown cols pc (snd ir)) (fst ir)]
    else [].
Proof. destruct ir as [idx row]. apply emits_violations_mat. Qed.

Lemma row_violations_data ir :
  filter (has_rule "AS9100-DATA-001") (row_violations cols pc mc ir)
  = if fires_missing_part cols pc (snd ir) then [data_001 (fst ir)] else [].
Proof. destruct ir as [idx row]. apply emits_violations_data. Qed.

Lemma row_warnings_itar ir :
  filter (has_rule "ITAR-BOM-001") (row_warnings cols pc sc ir)
  = if fires_itar_bom cols pc (snd ir)
    then [itar_bom_001 (part_shown cols pc (snd ir)) (fst ir)] else [].
Proof. destruct ir as [idx row]. apply emits_warnings_itar. Qed.

Lemma row_warnings_sup ir :
  filter (has_rule "AS9100-SUP-001") (row_warnings cols pc sc ir)
  = if fires_uncertified cols sc (snd ir)
    then [sup_001 (supplier_shown cols sc (snd ir)) (fst ir)] else [].
Proof. destruct ir as [idx row]. apply emits_warnings_sup. Qed.

Lemma row_violations_other name ir :
  name = "ITAR-BOM-001" \/ name = "AS9100-SUP-001" ->
  filter (has_rule name) (row_violations cols pc mc ir) = [].
Proof. destruct ir as [idx row]. apply emits_violations_other. Qed.

Lemma row_warnings_other name ir :
  name = "AS9100-MAT-002" \/ name = "AS9100-DATA-001" ->
  filter (has_rule name) (row_warnings cols pc sc ir) = [].
Proof. destruct ir as [idx row]. apply emits_warnings_other. Qed.

(** No rule fires twice on one row. *)
Lemma emits_at_most_once name loc row :
  (List.length (filter (has_rule name)
                  (emits_violations cols pc mc loc row
                   ++ emits_warnings cols pc sc loc row))
   <= 1)%nat.
Proof.
  unfold emits_violations, emits_warnings, has_rule.
  destruct (fires_restricted cols mc row), (fires_missing_part cols pc row),
    (fires_itar_bom cols pc row), (fires_uncertified cols sc row);
    cbn [app filter rule mat_002_at data_001_at itar_bom_at sup_001_at];
    repeat match goal with
           | |- context [String.eqb ?a name] =>
               destruct (String.eqb_spec a name); try subst name
           end;
    try discriminate; cbn [String.eqb Ascii.eqb Bool.eqb List.length]; lia.
Qed.

Lemma row_emits_at_most_once name ir :
  (List.length (filter (has_rule name)
                  (fst (row_emits cols pc mc sc ir)
                   ++ snd (row_emits cols pc mc sc ir)))
   <= 1)%nat.
Proof.
  unfold row_emits. destruct (row_location (fst ir)); cbn [fst snd].
  - cbn. lia.
  - apply emits_at_most_once.
Qed.

(** A row emits at most two entries into each list. *)
Lemma row_emits_length ir :
  (List.length (fst (row_emits cols pc mc sc ir)) <= 2)%nat
  /\ (List.length (snd (row_emits cols pc mc sc ir)) <= 2)%nat.
Proof.
  unfold row_emits, emits_violations, emits_warnings.
  destruct (row_location (fst ir)); cbn [fst snd]; [cbn; lia|].
  destruct (fires_restricted cols mc (snd ir)),
    (fires_missing_part cols pc (snd ir)),
    (fires_itar_bom cols pc (snd ir)), (fires_uncertified cols sc (snd ir));
    cbn; lia.
Qed.

(** The loop completes a prefix of the rows; what is left starts with a
    row on which a rule fires and whose label does not render. *)
Lemma processed_prefix irs :
  exists rest,
    irs = (processed cols pc mc sc irs ++ rest)%list
    /\ ((rest = [] /\ first_raise cols pc mc sc irs = None)
        \/ exists ir rest' e,
             rest = ir :: rest'
             /\ row_location (fst ir) = Raised e
             /\ row_fires cols pc mc sc (snd ir) = true
             /\ first_raise cols pc mc sc irs = Some e).
Proof.
  induction irs as [|ir irs (rest & Hsplit & Hrest)];
    cbn [processed first_raise].
  - exists []. split; [reflexivity|]. left. now split.
  - unfold row_raises.
    destruct (row_location (fst ir)) as [e|loc] eqn:E.
    + destruct (row_fires cols pc mc sc (snd ir)) eqn:F.
      * exists (ir :: irs). split; [reflexivity|]. right.
        exists ir, irs, e. repeat split; assumption.
      * exists rest. split; [cbn [app]; now f_equal|]. exact Hrest.
    + exists rest. split; [cbn [app]; now f_equal|]. exact Hrest.
Qed.

Lemma processed_length irs :
  (List.length (processed cols pc mc sc irs)
   + (match first_raise cols pc mc sc irs with Some _ => 1 | None => 0 end)
   <= List.length irs)%nat.
Proof.
  induction irs as [|ir irs IH]; cbn [processed first_raise List.length]; [lia|].
  destruct (row_raises cols pc mc sc ir); cbn [List.length]; lia.
Qed.

(** On the default index every label renders, so the loop completes
    every row and emits what the positions say. *)
Lemma row_location_position i :
  row_location (LInt (Z.of_nat i)) = Returned (row_label i).
Proof. reflexivity. Qed.

Lemma processed_range data : forall start,
  processed cols pc mc sc (Pd.range_from start data) = Pd.range_from start data.
Proof.
  induction data as [|r data IH]; intros start;
    cbn [Pd.range_from processed]; [reflexivity|].
  unfold row_raises. cbn [fst snd]. rewrite row_location_position.
  now rewrite IH.
Qed.

Lemma first_raise_range data : forall start,
  first_raise cols pc mc sc (Pd.range_from start data) = None.
Proof.
  induction data as [|r data IH]; intros start;
    cbn [Pd.range_from first_raise]; [reflexivity|].
  unfold row_raises. cbn [fst snd]. rewrite row_location_position.
  apply IH.
Qed.

Lemma row_emits_range data : forall start,
  flat_map (fun ir => fst (row_emits cols pc mc sc ir)) (Pd.range_from start data)
  = flat_map (row_violations cols pc mc) (Pd.enumerate_from start data)
  /\ flat_map (fun ir => snd (row_emits cols pc mc sc ir))
              (Pd.range_from start data)
     = flat_map (row_warnings cols pc sc) (Pd.enumerate_from start data).
Proof.
  induction data as [|r data IH]; intros start;
    cbn [Pd.range_from Pd.enumerate_from flat_map]; [now split|].
  destruct (IH (S start)) as [IHv IHw]. rewrite IHv, IHw.
  unfold row_emits. cbn [fst snd]. rewrite row_location_position.
  now split.
Qed.

End BomRules.

Lemma range_frame_violations cols data :
  bom_violations (Pd.range_frame cols data) = positional_violations cols data.
Proof.
  unfold bom_violations, completed, positional_violations, Pd.range_frame,
    part_column, material_column, supplier_column, Pd.enumerate.
  cbn [columns rows]. rewrite processed_range. apply row_emits_range.
Qed.

Lemma range_frame_warnings cols data :
  bom_warnings (Pd.range_frame cols data) = positional_warnings cols data.
Proof.
  unfold bom_warnings, loop_warning, completed, positional_warnings,
    Pd.range_frame, part_column, material_column, supplier_column, Pd.enumerate.
  cbn [columns rows]. rewrite processed_range, first_raise_range, app_nil_r.
  apply row_emits_range.
Qed.

(** What a call reports for a frame with the default index. *)
Lemma findings_range w c file_path cols data :
  read_bom w file_path = Returned (Pd.range_frame cols data) ->
  let r := snd (validate_document w c file_path "bom") in
  rep_violations r = positional_violations cols data
  /\ rep_warnings r = positional_warnings cols data.
Proof.
  intros H r. destruct (findings_bom w c file_path H) as [Ev Ew].
  fold r in Ev, Ew.
  now rewrite Ev, Ew, range_frame_violations, range_frame_warnings.
Qed.

Section BomReport.

Variable cols : list string.
Variable data : list (list cell).

Let pc := _find_column cols part_names.
Let mc := _find_column cols material_names.
Let sc := _find_column cols supplier_names.

Lemma bom_filter_rule name :
  filter (has_rule name)
         (positional_violations cols data ++ positional_warnings cols data)
  = (flat_map (fun ir => filter (has_rule name) (row_violations cols pc mc ir))
              (Pd.enumerate data)
     ++ flat_map (fun ir => filter (has_rule name) (row_warnings cols pc sc ir))
                 (Pd.enumerate data))%list.
Proof.
  unfold positional_violations, positional_warnings.
  now rewrite filter_app, !filter_flat_map.
Qed.

Lemma bom_data_001 :
  filter (has_rule "AS9100-DATA-001")
         (positional_violations cols data ++ positional_warnings cols data)
  = map (fun ir => data_001 (fst ir))
        (filter (fun ir => fires_missing_part cols pc (snd ir))
                (Pd.enumerate data)).
Proof.
  rewrite bom_filter_rule.
  rewrite (flat_map_ext' _ _ _ (row_violations_data cols pc mc)).
  rewrite (flat_map_ext'
             (fun ir => filter (has_rule "AS9100-DATA-001") (row_warnings cols pc sc ir))
             (fun _ => [])),
    flat_map_nil, app_nil_r by (intros; apply row_warnings_other; auto).
  apply flat_map_singletons.
Qed.

Lemma bom_mat_002 :
  filter (has_rule "AS9100-MAT-002")
         (positional_violations cols data ++ positional_warnings cols data)
  = map (fun ir => mat_002 (material_shown cols mc (snd ir))
                           (part_shown cols pc (snd ir)) (fst ir))
        (filter (fun ir => fires_restricted cols mc (snd ir))
                (Pd.enumerate data)).
Proof.
  rewrite bom_filter_rule.
  rewrite (flat_map_ext' _ _ _ (row_violations_mat cols pc mc)).
  rewrite (flat_map_ext'
             (fun ir => filter (has_rule "AS9100-MAT-002") (row_warnings cols pc sc ir))
             (fun _ => [])),
    flat_map_nil, app_nil_r by (intros; apply row_warnings_other; auto).
  apply flat_map_singletons.
Qed.

Lemma bom_itar_001 :
  filter (has_rule "ITAR-BOM-001")
         (positional_violations cols data ++ positional_warnings cols data)
  = map (fun ir => itar_bom_001 (part_shown cols pc (snd ir)) (fst ir))
        (filter (fun ir => fires_itar_bom cols pc (snd ir))
                (Pd.enumerate data)).
Proof.
  rewrite bom_filter_rule.
  rewrite (flat_map_ext' _ _ _ (row_warnings_itar cols pc sc)).
  rewrite (flat_map_ext'
             (fun ir => filter (has_rule "ITAR-BOM-001") (row_violations cols pc mc ir))
             (fun _ => [])),
    flat_map_nil by (intros; apply row_violations_other; auto).
  apply flat_map_singletons.
Qed.

Lemma bom_sup_001 :
  filter (has_rule "AS9100-SUP-001")
         (positional_violations cols data ++ positional_warnings cols data)
  = map (fun ir => sup_001 (supplier_shown cols sc (snd ir)) (fst ir))
        (filter (fun ir => fires_uncertified cols sc (snd ir))
                (Pd.enumerate data)).
Proof.
  rewrite bom_filter_rule.
  rewrite (flat_map_ext' _ _ _ (row_warnings_sup cols pc sc)).
  rewrite (flat_map_ext'
             (fun ir => filter (has_rule "AS9100-SUP-001") (row_violations cols pc mc ir))
             (fun _ => [])),
    flat_map_nil by (intros; apply row_violations_other; auto).
  apply flat_map_singletons.
Qed.

Lemma filter_enumerate (q : list cell -> bool) rs : forall start,
  List.length (filter (fun ir => q (snd ir)) (Pd.enumerate_from start rs))
  = List.length (filter q rs).
Proof.
  induction rs as [|r rs IH]; intros start; cbn; [reflexivity|].
  destruct (q r); cbn; now rewrite IH.
Qed.

End BomReport.

(** C7.  The claim holds of a table read with the default index, but not
    of every BOM: the loop prints the index label of the row, not its
    position, although its comment ("+2 for header and 0-index") takes
    the one for the other.  Three files whose data rows start with one
    field more than the header, so that the first field is the index; in
    each the first and the second row lack a part number, and the claim
    expects the findings at "Row 2" and "Row 3".  With the labels 10 and
    20 the two missing-part-number findings are at "Row 12" and "Row 22";
    with the label 7 twice both are at "Row 9"; with the labels "A" and
    "B" adding 2 raises inside the loop, no row finding is recorded, and
    the report holds one SYSTEM warning and is PASS. *)
Theorem row_location_prints_index_label :
  map (fires_missing_part (columns numbered_bom) (part_column numbered_bom))
      (map snd (rows numbered_bom)) = [true; true]
  /\ map location
         (filter (has_rule "AS9100-DATA-001") (findings (run_bom numbered_bom)))
     = [Some "Row 12"; Some "Row 22"]
  /\ map snd (rows repeated_bom) = map snd (rows numbered_bom)
  /\ map location
         (filter (has_rule "AS9100-DATA-001") (findings (run_bom repeated_bom)))
     = [Some "Row 9"; Some "Row 9"]
  /\ map snd (rows lettered_bom) = map snd (rows numbered_bom)
  /\ findings (run_bom lettered_bom) = [bom_error Pd.str_plus_int]
  /\ count (has_rule "AS9100-DATA-001") (findings (run_bom lettered_bom)) = 0
  /\ status (run_bom lettered_bom) = "PASS".
Proof. vm_compute. repeat split. Qed.

(** ** Order of the BOM findings *)

(** C4, as amended.  The BOM loop runs over the rows, and for each row
    over the rules.  The violations of the report are thus the violations
    of the first row (AS9100-MAT-002, then AS9100-DATA-001), then those of
    the second, and so on over the rows the loop completes; the warnings
    likewise (ITAR-BOM-001, then AS9100-SUP-001, row after row), followed
    by the warning of the handler when the loop was left.  The loop
    completes a prefix of the rows: it is left at the first row on which
    a rule fires and whose label does not print.  Each rule fires at most
    once per row, so the findings of a single rule appear in row order;
    and both lists are functions of the frame alone, so the same input
    gives the same order. *)
Theorem bom_findings_row_major w c file_path df :
  read_bom w file_path = Returned df ->
  let r := snd (validate_document w c file_path "bom") in
  let cols := columns df in
  let pc := _find_column cols part_names in
  let mc := _find_column cols material_names in
  let sc := _find_column cols supplier_names in
  let emits := row_emits cols pc mc sc in
  rep_violations r = flat_map (fun ir => fst (emits ir)) (completed df)
  /\ rep_warnings r
     = (flat_map (fun ir => snd (emits ir)) (completed df) ++ loop_warning df)%list
  /\ (exists rest,
        Pd.iterrows df = (completed df ++ rest)%list
        /\ ((rest = [] /\ loop_warning df = [])
            \/ exists ir rest' e,
                 rest = ir :: rest'
                 /\ row_location (fst ir) = Raised e
                 /\ row_fires cols pc mc sc (snd ir) = true
                 /\ loop_warning df = [bom_error e]))
  /\ (forall idx row loc,
        row_location idx = Returned loc ->
        emits (idx, row)
        = (((if fires_restricted cols mc row
             then [mat_002_at (material_shown cols mc row)
                              (part_shown cols pc row) loc]
             else [])
            ++ (if fires_missing_part cols pc row then [data_001_at loc] else []))%list,
           ((if fires_itar_bom cols pc row
             then [itar_bom_at (part_shown cols pc row) loc] else [])
            ++ (if fires_uncertified cols sc row
                then [sup_001_at (supplier_shown cols sc row) loc] else []))%list))
  /\ (forall idx row e,
        row_location idx = Raised e -> emits (idx, row) = ([], []))
  /\ (forall name,
        filter (has_rule name) (findings r)
        = (flat_map (fun ir => filter (has_rule name) (fst (emits ir)))
                    (completed df)
           ++ flat_map (fun ir => filter (has_rule name) (snd (emits ir)))
                       (completed df)
           ++ filter (has_rule name) (loop_warning df))%list)
  /\ (forall name ir,
        (List.length
           (filter (has_rule name) (fst (emits ir) ++ snd (emits ir)))
         <= 1)%nat).
Proof.
  intros Hread r cols pc mc sc emits.
  destruct (findings_bom w c file_path Hread) as [Ev Ew]. fold r in Ev, Ew.
  unfold findings. rewrite Ev, Ew.
  split; [reflexivity|]. split; [reflexivity|].
  split.
  { destruct (processed_prefix cols pc mc sc (rows df))
      as (rest & Hsplit & Hrest).
    exists rest. split; [exact Hsplit|].
    unfold loop_warning, part_column, material_column, supplier_column.
    fold cols pc mc sc.
    destruct Hrest as [[-> Hnone] | (ir & rest' & e & -> & Hloc & Hfires & Hsome)].
    - left. now rewrite Hnone.
    - right. exists ir, rest', e. now rewrite Hsome. }
  split; [intros idx row loc Hloc; now apply row_emits_returned|].
  split; [intros idx row e Hloc; now apply row_emits_raised with (e := e)|].
  split.
  { intros name. unfold bom_violations, bom_warnings.
    now rewrite !filter_app, !filter_flat_map. }
  intros name ir. apply row_emits_at_most_once.
Qed.

Lemma bom_findings_row_major_witness :
  read_bom (const_world (Returned []) (Returned two_bad_rows)) "bom.csv"
  = Returned two_bad_rows
  /\ map rule (rep_violations (run_bom two_bad_rows))
     = ["AS9100-MAT-002"; "AS9100-DATA-001"; "AS9100-MAT-002"; "AS9100-DATA-001"]
  /\ map location (rep_violations (run_bom two_bad_rows))
     = [Some "Row 2, Part: nan"; Some "Row 2"; Some "Row 3, Part: nan"; Some "Row 3"].
Proof.
  split; [reflexivity|].
  pose proof (@bom_findings_row_major
                (const_world (Returned []) (Returned two_bad_rows))
                init "bom.csv" two_bad_rows eq_refl) as H.
  cbv zeta in H. destruct H as (H & _).
  unfold run_bom. rewrite H. split; reflexivity.
Defined.

(** C4, as stated, fails: with two rows that each break both rules, the
    missing-part-number finding of the first row comes before the
    restricted-material finding of the second, and the supplier warning
    of the first row before the ITAR warning of the second; the findings
    of neither rule all precede those of the other. *)
Lemma bom_findings_interleave_rules :
  ~ rule_precedes "AS9100-MAT-002" "AS9100-DATA-001"
      (rep_violations (run_bom two_bad_rows))
  /\ ~ rule_precedes "AS9100-DATA-001" "AS9100-MAT-002"
        (rep_violations (run_bom two_bad_rows))
  /\ ~ rule_precedes "ITAR-BOM-001" "AS9100-SUP-001"
        (rep_warnings (run_bom two_bad_rows))
  /\ ~ rule_precedes "AS9100-SUP-001" "ITAR-BOM-001"
        (rep_warnings (run_bom two_bad_rows)).
Proof.
  unfold rule_precedes. repeat split; intros H.
  - specialize (H 2%nat 1%nat _ _ eq_refl eq_refl eq_refl eq_refl). lia.
  - specialize (H 1%nat 0%nat _ _ eq_refl eq_refl eq_refl eq_refl). lia.
  - specialize (H 2%nat 1%nat _ _ eq_refl eq_refl eq_refl eq_refl). lia.
  - specialize (H 1%nat 0%nat _ _ eq_refl eq_refl eq_refl eq_refl). lia.
Qed.

(** ** Single rows *)

Section SingleRow.
Import PyStr PyStrFacts.

Lemma filter_andb {A} (p q : A -> bool) (l : list A) :
  filter (fun x => (p x && q x)%bool) l = filter q (filter p l).
Proof.
  induction l as [|x l IH]; cbn [filter]; [reflexivity|].
  destruct (p x); cbn [andb filter]; rewrite IH; reflexivity.
Qed.

Lemma filter_map_swap' {A B} (p : B -> bool) (g : A -> B) (l : list A) :
  filter p (map g l) = map g (filter (fun x => p (g x)) l).
Proof.
  induction l as [|x l IH]; cbn [map filter]; [reflexivity|].
  rewrite IH. now destruct (p (g x)).
Qed.

Lemma filter_comm {A} (p q : A -> bool) (l : list A) :
  filter p (filter q l) = filter q (filter p l).
Proof.
  induction l as [|x l IH]; cbn [filter]; [reflexivity|].
  destruct (p x) eqn:Ep, (q x) eqn:Eq; cbn [filter];
    rewrite ?Ep, ?Eq, IH; reflexivity.
Qed.

Lemma enumerate_before k rs : forall start,
  (k < start)%nat ->
  filter (fun ir : nat * list cell => Nat.eqb k (fst ir))
         (Pd.enumerate_from start rs) = [].
Proof.
  induction rs as [|r rs IH]; intros start Hk; cbn [Pd.enumerate_from filter fst];
    [reflexivity|].
  destruct (Nat.eqb_spec k start); [lia|]. apply IH. lia.
Qed.

(** One entry of the enumeration per position. *)
Lemma enumerate_at rs : forall start i row,
  nth_error rs i = Some row ->
  filter (fun ir : nat * list cell => Nat.eqb (start + i) (fst ir))
         (Pd.enumerate_from start rs) = [((start + i)%nat, row)].
Proof.
  induction rs as [|r rs IH]; intros start [|i] row H; cbn in H; try discriminate.
  - injection H as ->. cbn [Pd.enumerate_from filter fst].
    rewrite Nat.add_0_r, Nat.eqb_refl. f_equal. apply enumerate_before. lia.
  - cbn [Pd.enumerate_from filter fst].
    destruct (Nat.eqb_spec (start + S i) start); [lia|].
    replace (start + S i)%nat with (S start + i)%nat by lia.
    now apply IH.
Qed.

Lemma enumerate_In rs : forall start i row,
  nth_error rs i = Some row ->
  In ((start + i)%nat, row) (Pd.enumerate_from start rs).
Proof.
  induction rs as [|r rs IH]; intros start [|i] row H; cbn in H; try discriminate.
  - injection H as ->. rewrite Nat.add_0_r. now left.
  - right. replace (start + S i)%nat with (S start + i)%nat by lia. now apply IH.
Qed.

Lemma lower_nonempty s : s <> "" -> lower s <> "".
Proof. destruct s; [congruence | discriminate]. Qed.

Lemma truthy_lower s : truthy (lower s) = true -> truthy s = true.
Proof. now destruct s. Qed.

(** A column that [_find_column] returns has a non-empty label, hence is
    truthy in the guards of the loop. *)
Lemma find_column_truthy cols names col :
  forallb truthy names = true ->
  _find_column cols names = Some col -> truthy_col (Some col) = true.
Proof.
  intros Hnames. induction cols as [|c cols IH]; cbn [_find_column];
    [discriminate|].
  destruct (existsb _ names) eqn:E; [|exact IH].
  intros [= <-]. apply existsb_exists in E as (name & Hin & Hc).
  rewrite forallb_forall in Hnames. specialize (Hnames name Hin).
  cbn [truthy_col]. apply truthy_lower.
  apply (contains_nonempty (n := lower name)); [|exact Hc].
  apply lower_nonempty. now destruct name.
Qed.

Lemma get_found cols row key v d :
  Pd.get cols row (Some key) None = Some v ->
  Pd.get cols row (Some key) d = Some v.
Proof.
  unfold Pd.get. destruct (Pd.lookup cols row key); [auto | discriminate].
Qed.

End SingleRow.

(** The restricted-material findings that name the row at one position
    of a frame with the default index. *)
Lemma positional_mat_002_at_row cols data i row :
  nth_error data i = Some row ->
  let pc := _find_column cols part_names in
  let mc := _find_column cols material_names in
  filter (fun g => (has_rule "AS9100-MAT-002" g && at_row i g)%bool)
         (positional_violations cols data ++ positional_warnings cols data)
  = if fires_restricted cols mc row
    then [mat_002 (material_shown cols mc row) (part_shown cols pc row) i]
    else [].
Proof.
  intros Hrow pc mc.
  rewrite filter_andb, bom_mat_002, filter_map_swap'.
  fold pc mc.
  rewrite (filter_ext _ (fun ir : nat * list cell => Nat.eqb i (fst ir)))
    by (intros [j row']; now apply at_row_part with (t := Pd.str (part_shown cols pc row'))).
  rewrite filter_comm. unfold Pd.enumerate.
  pose proof (enumerate_at data 0 i Hrow) as Hat.
  cbn [Nat.add] in Hat. rewrite Hat. cbn [filter snd].
  now destruct (fires_restricted cols mc row).
Qed.

(** C9.  The claim holds of a table read with the default index, but not
    of every BOM row.  In the file [Part Number,Material] over
    [X1,B-2,Cadmium Plating 0.002in] the data row has one field more than
    the header, so the row is labelled "X1"; its material contains
    "cadmium" and the test of the loop holds for it, but building the
    location adds 2 to the label, which raises inside the loop before
    the finding is appended.  The report holds no restricted-material
    finding, only one SYSTEM warning of severity Medium, and is PASS.  The
    same row under the default index gets the one finding the claim
    describes, at "Row 2, Part: B-2".  (The comment of the loop, "+2 for
    header and 0-index", takes the label for the position.) *)
Theorem restricted_material_lost_under_label :
  let row := [Val "B-2"; Val "Cadmium Plating 0.002in"] in
  let cols := columns labelled_cadmium_bom in
  rows labelled_cadmium_bom = [(LStr "X1", row)]
  /\ Pd.get cols row (material_column labelled_cadmium_bom) None
     = Some (Val "Cadmium Plating 0.002in")
  /\ PyStr.contains "cadmium" (PyStr.lower "Cadmium Plating 0.002in") = true
  /\ fires_restricted cols (material_column labelled_cadmium_bom) row = true
  /\ count (has_rule "AS9100-MAT-002") (findings (run_bom labelled_cadmium_bom))
     = 0
  /\ findings (run_bom labelled_cadmium_bom) = [bom_error Pd.str_plus_int]
  /\ map sev (findings (run_bom labelled_cadmium_bom)) = [MEDIUM]
  /\ status (run_bom labelled_cadmium_bom) = "PASS"
  /\ findings (run_bom (Pd.range_frame cols [row]))
     = [Finding "AS9100-MAT-002"
                "Restricted material in BOM: CADMIUM PLATING 0.002IN" HIGH
                "Replace with approved material" None
                (Some "Row 2, Part: B-2")].
Proof. vm_compute. repeat split. Qed.

(** C10.  The claim holds of a table read with the default index, but
    not of every BOM row.  In the file [Part Number] over [X1,PANEL] the
    data row has one field more than the header, so the row is labelled
    "X1"; its part number contains "AN" and the test of the loop holds
    for it, but building the location adds 2 to the label, which raises
    inside the loop before the finding is appended.  Neither list holds
    an ITAR-BOM-001 finding; the warnings hold one SYSTEM warning
    instead.  The same row under the default index gets the warning the
    claim describes.  (The comment of the loop, "+2 for header and
    0-index", takes the label for the position.) *)
Theorem itar_part_lost_under_label :
  let cols := columns labelled_panel_bom in
  rows labelled_panel_bom = [(LStr "X1", [Val "PANEL"])]
  /\ PyStr.contains "AN" (PyStr.upper "PANEL") = true
  /\ fires_itar_bom cols (part_column labelled_panel_bom) [Val "PANEL"] = true
  /\ count (has_rule "ITAR-BOM-001") (findings (run_bom labelled_panel_bom)) = 0
  /\ rep_violations (run_bom labelled_panel_bom) = []
  /\ rep_warnings (run_bom labelled_panel_bom) = [bom_error Pd.str_plus_int]
  /\ rep_warnings (run_bom (Pd.range_frame cols [[Val "PANEL"]]))
     = [Finding "ITAR-BOM-001" "ITAR controlled part: PANEL" HIGH
                "Ensure proper export licensing" None (Some "Row 2")].
Proof. vm_compute. repeat split. Qed.

(** ** Letter case in the drawing checks *)

Section LetterCase.
Import PyStr PyStrFacts.

Lemma emitted_drawing w file_path text :
  _extract_pdf_text w file_path = Returned text ->
  emitted w file_path "drawing"
  = (drawing_violations text, drawing_warnings text).
Proof.
  intros H. unfold emitted. cbn [String.eqb Ascii.eqb Bool.eqb]. now rewrite H.
Qed.

Lemma findings_drawing w c file_path text :
  _extract_pdf_text w file_path = Returned text ->
  let r := snd (validate_document w c file_path "drawing") in
  rep_violations r = drawing_violations text
  /\ rep_warnings r = drawing_warnings text.
Proof.
  intros H r.
  destruct (report_fields w c file_path "drawing") as (Ev & Ew & _).
  fold r in Ev, Ew. rewrite Ev, Ew, (emitted_drawing _ _ H). now split.
Qed.

Lemma itar_marking_any_case t a s b :
  t = a ++ s ++ b -> lower s = "itar" -> _check_itar_marking t = true.
Proof.
  intros -> Hs. unfold _check_itar_marking, any, itar_keywords.
  cbn [existsb]. apply orb_true_iff. left.
  change (lower "ITAR") with "itar". apply contains_iff.
  exists (lower a), (lower b). unfold lower in *.
  now rewrite !smap_app, Hs.
Qed.

Lemma marked_drawing_has_no_itar_001 t f :
  _check_itar_marking t = true ->
  In f (drawing_violations t ++ drawing_warnings t) -> rule f <> "ITAR-001".
Proof.
  intros Hm Hin. unfold drawing_violations, drawing_warnings in Hin.
  rewrite Hm in Hin. cbn [negb app] in Hin.
  apply in_app_or in Hin as [Hin|Hin].
  - apply in_app_or in Hin as [Hin|Hin].
    + apply in_map_iff in Hin as (m & <- & _). discriminate.
    + destruct (_check_traceability t); cbn in Hin;
        [destruct Hin | destruct Hin as [<- | []]; discriminate].
  - destruct (_check_revision_marking t); cbn in Hin;
      [destruct Hin | destruct Hin as [<- | []]; discriminate].
Qed.

End LetterCase.

(** C8, as amended.  The export-marking flag, the traceability flag and
    the restricted-material scan compare in lower case: two drawing texts
    that differ only in letter case get the same two flags, the same
    materials and the same violations.  A text that contains "ITAR" in
    any letter case sets the export-marking flag, and its report has no
    ITAR-001 finding.  (The revision flag is matched by case-sensitive
    patterns and is not covered.) *)
Theorem keyword_flags_ignore_case w w' c c' file_path file_path' text text' :
  _extract_pdf_text w file_path = Returned text ->
  _extract_pdf_text w' file_path' = Returned text' ->
  PyStr.lower text = PyStr.lower text' ->
  let r := snd (validate_document w c file_path "drawing") in
  let r' := snd (validate_document w' c' file_path' "drawing") in
  _check_itar_marking text = _check_itar_marking text'
  /\ _check_traceability text = _check_traceability text'
  /\ _check_restricted_materials text = _check_restricted_materials text'
  /\ rep_violations r = rep_violations r'
  /\ (forall a s b,
        text = a ++ s ++ b -> PyStr.lower s = "itar" ->
        _check_itar_marking text = true
        /\ forall f, In f (findings r) -> rule f <> "ITAR-001").
Proof.
  intros Ht Ht' Hcase r r'.
  destruct (findings_drawing w c file_path Ht) as [Ev Ew].
  destruct (findings_drawing w' c' file_path' Ht') as [Ev' _].
  fold r in Ev, Ew. fold r' in Ev'.
  assert (Hi : _check_itar_marking text = _check_itar_marking text')
    by (unfold _check_itar_marking; now rewrite Hcase).
  assert (Htr : _check_traceability text = _check_traceability text')
    by (unfold _check_traceability; now rewrite Hcase).
  assert (Hm : _check_restricted_materials text = _check_restricted_materials text')
    by (unfold _check_restricted_materials; now rewrite Hcase).
  repeat split; try assumption.
  - rewrite Ev, Ev'. unfold drawing_violations. now rewrite Hi, Htr, Hm.
  - eapply itar_marking_any_case; eassumption.
  - intros f Hf. unfold findings in Hf. rewrite Ev, Ew in Hf.
    eapply marked_drawing_has_no_itar_001; [|exact Hf].
    eapply itar_marking_any_case; eassumption.
Qed.

Lemma keyword_flags_ignore_case_witness :
  PyStr.lower (fold_left (fun t p => t ++ (p ++ newline)) ["Drawing 7, Itar, S/N 4"] "")
  = PyStr.lower (fold_left (fun t p => t ++ (p ++ newline)) ["DRAWING 7, ITAR, s/n 4"] "")
  /\ rep_violations (run_drawing "Drawing 7, Itar, S/N 4")
     = rep_violations (run_drawing "DRAWING 7, ITAR, s/n 4")
  /\ rep_violations (run_drawing "Drawing 7, Itar, S/N 4") = [].
Proof.
  split; [reflexivity|].
  pose proof (@keyword_flags_ignore_case
                (const_world (Returned ["Drawing 7, Itar, S/N 4"]) (Raised "no table"))
                (const_world (Returned ["DRAWING 7, ITAR, s/n 4"]) (Raised "no table"))
                init init "drawing.pdf" "drawing.pdf" _ _
                eq_refl eq_refl eq_refl) as T.
  cbv zeta in T. destruct T as (_ & _ & _ & T & _).
  split; [exact T | reflexivity].
Defined.

(** C8, as stated, fails for the revision flag: "Rev A" and "REV A"
    differ only in letter case, the first has a revision mark and the
    second has none, so only the second report carries AS9100-DOC-002. *)
Lemma revision_flag_is_case_sensitive :
  ~ (forall t t', PyStr.lower t = PyStr.lower t' ->
                  _check_revision_marking t = _check_revision_marking t')
  /\ ~ (forall t t', PyStr.lower t = PyStr.lower t' ->
                     findings (run_drawing t) = findings (run_drawing t')).
Proof.
  split; intros H.
  - specialize (H "Rev A" "REV A" eq_refl). vm_compute in H. discriminate.
  - specialize (H "Rev A ITAR S/N" "REV A ITAR S/N" eq_refl).
    vm_compute in H. discriminate.
Qed.

(** ** The matcher against the language of a pattern *)

Module ReFacts.
Import Re.

Lemma append_eq_nil (u v : string) : u ++ v = "" -> u = "" /\ v = "".
Proof. destruct u; cbn; [auto | discriminate]. Qed.

Lemma nullable_iff r : nullable r = true <-> lang r "".
Proof.
  split.
  - induction r; cbn; intros H; try discriminate.
    + constructor.
    + apply andb_true_iff in H as [Ha Hb].
      change "" with ("" ++ ""). constructor; auto.
    + apply orb_true_iff in H as [H|H]; [apply L_alt_l | apply L_alt_r]; auto.
    + constructor.
  - intros H. remember "" as s eqn:Es.
    induction H; cbn; try reflexivity; try discriminate.
    + apply append_eq_nil in Es as [-> ->]. now rewrite IHlang1, IHlang2.
    + now rewrite IHlang.
    + rewrite IHlang by assumption. apply orb_true_r.
Qed.

Lemma star_cons_inv a c s :
  lang (Star a) (String c s) ->
  exists u v, s = u ++ v /\ lang a (String c u) /\ lang (Star a) v.
Proof.
  intros H. remember (Star a) as r eqn:Er. remember (String c s) as t eqn:Et.
  revert s Et.
  induction H; intros s Et; try discriminate.
  injection Er as ->. destruct u as [|d u]; cbn in Et.
  - now apply IHlang2.
  - injection Et as Ed Es. subst d s. exists u, v. auto.
Qed.

Lemma lang_void_inv s : ~ lang Void s.
Proof. intros H. inversion H. Qed.

Lemma lang_eps_inv s : lang Eps s -> s = "".
Proof. intros H. now inversion H. Qed.

Lemma lang_class_inv p s :
  lang (Class p) s -> exists c, s = String c "" /\ p c = true.
Proof. intros H. inversion H; subst. eauto. Qed.

Lemma lang_cat_inv a b s :
  lang (Cat a b) s -> exists u v, s = u ++ v /\ lang a u /\ lang b v.
Proof. intros H. inversion H; subst. eauto. Qed.

Lemma lang_alt_inv a b s : lang (Alt a b) s -> lang a s \/ lang b s.
Proof. intros H. inversion H; subst; auto. Qed.

Lemma lang_cat_cons a b c u v :
  lang a (String c u) -> lang b v -> lang (Cat a b) (String c (u ++ v)).
Proof.
  intros Ha Hb. change (String c (u ++ v)) with (String c u ++ v).
  now constructor.
Qed.

Lemma deriv_iff c r : forall s, lang (deriv c r) s <-> lang r (String c s).
Proof.
  induction r as [| |p|a IHa b IHb|a IHa b IHb|a IHa]; intros s; cbn [deriv].
  - split; intros H; now apply lang_void_inv in H.
  - split; intros H; [now apply lang_void_inv in H|].
    apply lang_eps_inv in H. discriminate.
  - split; intros H.
    + destruct (p c) eqn:E; [|now apply lang_void_inv in H].
      apply lang_eps_inv in H. subst s. now constructor.
    + apply lang_class_inv in H as (d & [= -> ->] & Hp).
      rewrite Hp. constructor.
  - split; intros H.
    + destruct (nullable a) eqn:Na.
      * apply lang_alt_inv in H as [H|H].
        -- apply lang_cat_inv in H as (u & v & -> & Hu & Hv).
           apply lang_cat_cons; [now apply IHa | assumption].
        -- change (String c s) with ("" ++ String c s).
           constructor; [now apply nullable_iff | now apply IHb].
      * apply lang_cat_inv in H as (u & v & -> & Hu & Hv).
        apply lang_cat_cons; [now apply IHa | assumption].
    + apply lang_cat_inv in H as (u & v & E & Hu & Hv).
      destruct u as [|d u]; cbn in E.
      * subst v. apply nullable_iff in Hu. rewrite Hu.
        apply L_alt_r. now apply IHb.
      * injection E as Ed Es. subst d s.
        assert (Hc : lang (Cat (deriv c a) b) (u ++ v))
          by (constructor; [now apply IHa | assumption]).
        destruct (nullable a); [now apply L_alt_l | exact Hc].
  - split; intros H; apply lang_alt_inv in H as [H|H];
      (apply L_alt_l; now apply IHa) || (apply L_alt_r; now apply IHb).
  - split; intros H.
    + apply lang_cat_inv in H as (u & v & -> & Hu & Hv).
      change (String c (u ++ v)) with (String c u ++ v).
      constructor; [now apply IHa | assumption].
    + apply star_cons_inv in H as (u & v & -> & Hu & Hv).
      constructor; [now apply IHa | assumption].
Qed.

(** [match_prefix]: some prefix of the text is in the language. *)
Lemma match_prefix_iff s : forall r,
  match_prefix r s = true <-> exists u v, s = u ++ v /\ lang r u.
Proof.
  induction s as [|c s IH]; intros r; cbn [match_prefix].
  - rewrite nullable_iff. split.
    + intros H. exists "", "". auto.
    + intros (u & v & E & H). symmetry in E.
      apply append_eq_nil in E as [-> _]. exact H.
  - rewrite orb_true_iff, nullable_iff, IH. split.
    + intros [H | (u & v & -> & H)].
      * exists "", (String c s). auto.
      * exists (String c u), v. split; [reflexivity | now apply deriv_iff].
    + intros (u & v & E & H). destruct u as [|d u]; cbn in E.
      * now left.
      * injection E as <- ->. right. exists u, v.
        split; [reflexivity | now apply deriv_iff].
Qed.

(** [search]: some substring of the text is in the language. *)
Lemma search_iff r s :
  search r s = true <-> exists a u b, s = a ++ u ++ b /\ lang r u.
Proof.
  induction s as [|c s IH]; cbn [search].
  - rewrite match_prefix_iff. split.
    + intros (u & v & E & H). exists "", u, v. auto.
    + intros (a & u & b & E & H). symmetry in E.
      apply append_eq_nil in E as [-> E]. exists u, b. auto.
  - rewrite orb_true_iff, IH, match_prefix_iff. split.
    + intros [(u & v & E & H) | (a & u & b & -> & H)].
      * exists "", u, v. auto.
      * exists (String c a), u, b. auto.
    + intros (a & u & b & E & H). destruct a as [|d a]; cbn in E.
      * left. exists u, b. auto.
      * injection E as <- ->. right. exists a, u, b. auto.
Qed.

End ReFacts.

(** ** Worked examples *)

Example lower_upper_examples :
  PyStr.lower "Rev A, 22 CFR" = "rev a, 22 cfr"
  /\ PyStr.upper "Cadmium Plating 0.002in" = "CADMIUM PLATING 0.002IN".
Proof. split; reflexivity. Qed.

Example contains_examples :
  PyStr.contains "AN" "PANEL" = true /\ PyStr.contains "MS" "PANEL" = false
  /\ PyStr.contains "" "" = true.
Proof. repeat split. Qed.

Example fmt_comma_examples :
  PyStr.fmt_comma 5000 = "5,000" /\ PyStr.fmt_comma 155000 = "155,000"
  /\ PyStr.fmt_comma 1000000 = "1,000,000" /\ PyStr.fmt_comma 0 = "0".
Proof. repeat split. Qed.

(** What the three patterns accept and what they miss. *)
Example revision_marking_examples :
  map _check_revision_marking
      ["Rev A"; "rev a"; "REV A"; "Revs9"; "Revision B"; "version 1.2";
       "Date: 1/2/24"; "date:12-3-2024"; "Date: 1/2/3"]
  = [true; false; false; true; false; true; true; true; false].
Proof. vm_compute. reflexivity. Qed.

(** Seven violations already reach the ceiling of the score, as do
    eight; six do not. *)
Example seven_and_eight_high :
  count is_high (findings seven_high) = 7 /\ rep_risk_score seven_high = 100
  /\ count is_high (findings eight_high) = 8 /\ rep_risk_score eight_high = 100
  /\ rep_risk_score (run_drawing
       ("ITAR. S/N 4. Rev A. " ++ six_materials)) = 90.
Proof. vm_compute. repeat split. Qed.

(** The exposure string at the three ranges.  The one-decimal figure is
    rounded from the binary value of the quotient: 1.05 prints as 1.1,
    1.15 as 1.1 and 1.25 as 1.2. *)
Example render_exposure_examples :
  render_exposure 0 = "Minimal risk"
  /\ render_exposure 215000 = "$215,000 potential exposure"
  /\ render_exposure 1000000 = "$1,000,000 potential exposure"
  /\ render_exposure 1005000 = "$1.0M potential exposure"
  /\ render_exposure 1050000 = "$1.1M potential exposure"
  /\ render_exposure 1150000 = "$1.1M potential exposure"
  /\ render_exposure 1250000 = "$1.2M potential exposure"
  /\ render_exposure 12350000 = "$12.3M potential exposure".
Proof. vm_compute. repeat split. Qed.

(** A BOM on which no rule fires. *)
Example clean_bom :
  let r := run_bom (Pd.range_frame ["Part Number"; "Material"; "Supplier"]
                          [[Val "B-1"; Val "Steel 4130"; Val "Boeing"]]) in
  findings r = [] /\ status r = "PASS" /\ rep_risk_score r = 0
  /\ estimated_risk (rep_summary r) = "Minimal risk".
Proof. vm_compute. repeat split. Qed.

(* ================================================================== *)
(** * Further properties of [app.py] *)

(** ** The report as a whole *)

(** X1.  A document type other than 'drawing' and 'bom' is not rejected:
    the call reads no file and returns an empty PASS report with risk
    score 0 and "Minimal risk", whatever the file system holds. *)
Theorem unknown_doc_type_passes w c file_path doc_type :
  doc_type <> "drawing" -> doc_type <> "bom" ->
  let r := snd (validate_document w c file_path doc_type) in
  findings r = [] /\ status r = "PASS" /\ rep_risk_score r = 0
  /\ rep_summary r = Summary 0 0 "Minimal risk"
  /\ rep_checked_items r = checked_items c
  /\ forall w', core_fields (snd (validate_document w' c file_path doc_type))
                = core_fields r.
Proof.
  intros Hd Hb r.
  apply String.eqb_neq in Hd, Hb.
  assert (He : forall w0, emitted w0 file_path doc_type = ([], []))
    by (intros w0; unfold emitted; now rewrite Hd, Hb).
  destruct (report_fields w c file_path doc_type) as (Ev & Ew & Hs & Hr & Hm & _).
  fold r in Ev, Ew, Hs, Hr, Hm.
  rewrite (He w) in Ev, Ew, Hs, Hr, Hm.
  change (rep_violations r = []) in Ev. change (rep_warnings r = []) in Ew.
  change (status r = "PASS") in Hs. change (rep_risk_score r = 0) in Hr.
  change (rep_summary r = Summary 0 0 "Minimal risk") in Hm.
  unfold findings. rewrite Ev, Ew, Hs, Hr, Hm.
  repeat split.
  - unfold r, validate_document. now rewrite Hd, Hb.
  - intros w'.
    destruct (report_fields w' c file_path doc_type) as (Ev' & Ew' & Hs' & Hr' & Hm' & _).
    unfold core_fields. rewrite Ev', Ew', Hs', Hr', Hm', Ev, Ew, Hs, Hr, Hm, (He w').
    reflexivity.
Qed.

Lemma unknown_doc_type_passes_witness :
  "BOM" <> "drawing" /\ "BOM" <> "bom"
  /\ status (snd (validate_document
                    (const_world (Returned []) (Returned two_bad_rows))
                    init "bom.csv" "BOM")) = "PASS".
Proof.
  assert (H1 : "BOM" <> "drawing") by discriminate.
  assert (H2 : "BOM" <> "bom") by discriminate.
  split; [exact H1|]. split; [exact H2|].
  pose proof (@unknown_doc_type_passes
                (const_world (Returned []) (Returned two_bad_rows))
                init "bom.csv" "BOM" H1 H2) as T.
  cbv zeta in T. destruct T as (_ & T & _). exact T.
Defined.

(** X2.  [checked_items] is the one attribute [validate_document] does
    not reset: a BOM call whose file is read sets it to the number of
    rows, and every other call (a drawing, an unreadable BOM, an unknown
    type) reports the value the previous call left. *)
Theorem checked_items_is_stale w c file_path doc_type :
  rep_checked_items (snd (validate_document w c file_path doc_type))
  = if String.eqb doc_type "drawing" then checked_items c
    else if String.eqb doc_type "bom" then
      match read_bom w file_path with
      | Returned df => len (rows df)
      | Raised _ => checked_items c
      end
    else checked_items c.
Proof.
  unfold validate_document, _validate_technical_drawing, _validate_bom, read_bom.
  destruct (String.eqb doc_type "drawing").
  - destruct (_extract_pdf_text w file_path) as [e|text]; [reflexivity|].
    now rewrite drawing_checks_spec.
  - destruct (String.eqb doc_type "bom"); [|reflexivity].
    destruct (if endswith file_path ".xlsx" then _ else _) as [e|df];
      [reflexivity|]. now rewrite bom_checks_handled.
Qed.

(** X3.  In every report the summary counts are the lengths of the two
    lists, the risk score is a multiple of 5 between 0 and 100, it is 0
    exactly when there is no finding, and a FAIL report scores at least
    15. *)
Theorem report_is_consistent w c file_path doc_type :
  let r := snd (validate_document w c file_path doc_type) in
  total_violations (rep_summary r) = len (rep_violations r)
  /\ total_warnings (rep_summary r) = len (rep_warnings r)
  /\ 0 <= rep_risk_score r <= 100
  /\ rep_risk_score r mod 5 = 0
  /\ (rep_risk_score r = 0 <-> findings r = [])
  /\ (status r = "FAIL" -> 15 <= rep_risk_score r).
Proof.
  intros r.
  destruct (report_fields w c file_path doc_type) as (Ev & Ew & _ & Hr & Hm & _).
  fold r in Ev, Ew, Hr, Hm. rewrite <- Ev, <- Ew in Hr, Hm.
  rewrite Hm, Hr. cbn [total_violations total_warnings].
  assert (Hv : 0 <= len (rep_violations r)) by (unfold len; lia).
  assert (Hw : 0 <= len (rep_warnings r)) by (unfold len; lia).
  split; [reflexivity|]. split; [reflexivity|]. split; [lia|].
  split.
  { destruct (Z.min_spec 100 (len (rep_violations r) * 15 + len (rep_warnings r) * 5))
      as [[_ ->] | [_ ->]]; [reflexivity|].
    replace (len (rep_violations r) * 15 + len (rep_warnings r) * 5)
      with ((len (rep_violations r) * 3 + len (rep_warnings r)) * 5) by lia.
    apply Z.mod_mul. lia. }
  split.
  { unfold findings. split.
    - intros H0.
      assert (len (rep_violations r) = 0 /\ len (rep_warnings r) = 0) as [Zv Zw] by lia.
      apply Z.eqb_eq, len_zero_iff in Zv. apply Z.eqb_eq, len_zero_iff in Zw.
      now rewrite Zv, Zw.
    - intros Hnil. apply app_eq_nil in Hnil as [-> ->]. reflexivity. }
  intros Hfail.
  destruct (status_cases w c file_path doc_type) as [[_ Hs]|[Hne _]].
  - fold r in Hs. rewrite Hs in Hfail. discriminate.
  - fold r in Hne. assert (len (rep_violations r) <> 0).
    { intros Z0. apply Z.eqb_eq, len_zero_iff in Z0. contradiction. }
    lia.
Qed.

(** ** Column lookup *)

Lemma existsb_permutation {A} (p : A -> bool) (l l' : list A) :
  Permutation l l' -> existsb p l = existsb p l'.
Proof.
  induction 1; cbn; try congruence.
  - now destruct (p x), (p y).
Qed.

(** X4.  [_find_column] returns the first column label, in the order of
    the frame, that contains one of the candidate names with letter case
    ignored, and [None] when no label does.  The order of the candidates
    plays no part: a column matched by the last candidate wins over a
    later column matched by the first. *)
Theorem find_column_first_match cols names :
  match _find_column cols names with
  | Some col =>
      exists before rest,
        cols = (before ++ col :: rest)%list
        /\ column_matches names col = true
        /\ forallb (fun c => negb (column_matches names c)) before = true
  | None => forallb (fun c => negb (column_matches names c)) cols = true
  end
  /\ forall names', Permutation names names' ->
                    _find_column cols names' = _find_column cols names.
Proof.
  split.
  - induction cols as [|col cols IH]; cbn [_find_column]; [reflexivity|].
    fold (column_matches names col).
    change (existsb _ names) with (column_matches names col).
    destruct (column_matches names col) eqn:E.
    + exists [], cols. repeat split. exact E.
    + destruct (_find_column cols names) as [found|].
      * destruct IH as (before & rest & -> & Hm & Hb).
        exists (col :: before), rest. repeat split; [exact Hm|].
        cbn [forallb]. now rewrite E, Hb.
      * cbn [forallb]. now rewrite E, IH.
  - intros names' Hperm.
    induction cols as [|col cols IH]; cbn [_find_column]; [reflexivity|].
    rewrite (existsb_permutation _ Hperm), IH. reflexivity.
Qed.

(** A label that merely contains "part" shadows the part-number column. *)
Example description_shadows_part_number :
  _find_column ["Part Description"; "Part Number"] part_names
  = Some "Part Description".
Proof. reflexivity. Qed.

(** ** The drawing checks *)

Lemma fold_collect {A} (p : A -> bool) (l : list A) : forall acc,
  fold_left (fun found x => if p x then (found ++ [x])%list else found) l acc
  = (acc ++ filter p l)%list.
Proof.
  induction l as [|x l IH]; intros acc; cbn [fold_left filter].
  - now rewrite app_nil_r.
  - rewrite IH. destruct (p x); [|reflexivity].
    now rewrite <- app_assoc.
Qed.

Lemma restricted_materials_filter text :
  _check_restricted_materials text
  = filter (fun m => icontains m text) restricted_drawing.
Proof.
  unfold _check_restricted_materials, icontains.
  now rewrite (fold_collect
                 (fun m => PyStr.contains (PyStr.lower m) (PyStr.lower text))).
Qed.

(** X5.  [_check_restricted_materials] returns the names of its lexicon
    that occur in the text with letter case ignored, in the order of the
    lexicon, each at most once: never more than six names, however often
    a material is mentioned. *)
Theorem restricted_materials_scan text :
  _check_restricted_materials text
  = filter (fun m => icontains m text) restricted_drawing
  /\ (forall m, In m (_check_restricted_materials text)
                <-> In m restricted_drawing /\ icontains m text = true)
  /\ NoDup (_check_restricted_materials text)
  /\ (List.length (_check_restricted_materials text) <= 6)%nat.
Proof.
  pose proof (restricted_materials_filter text) as E.
  rewrite E. split; [reflexivity|].
  split; [intros m; exact (filter_In (fun m => icontains m text) m restricted_drawing)|].
  split.
  - apply NoDup_filter. unfold restricted_drawing.
    repeat (constructor; [cbn; intros H;
                          repeat (destruct H as [H|H]; [discriminate|]); exact H|]).
    constructor.
  - etransitivity; [apply filter_length_le|]. cbn. lia.
Qed.

Lemma list_if_length {A} (b : bool) (x : A) :
  (List.length (if b then [] else [x]) <= 1)%nat.
Proof. destruct b; cbn; lia. Qed.

(** X6.  A drawing whose text is extracted yields, in this order,
    ITAR-001 when no export marking is found, one AS9100-MAT-001 per
    restricted material found, and AS9100-TRACE-001 when no traceability
    note is found; its only possible warning is AS9100-DOC-002.  So a
    drawing has at most 8 violations and 1 warning, and its exposure
    string never takes the millions form. *)
Theorem drawing_report_shape w c file_path text :
  _extract_pdf_text w file_path = Returned text ->
  let r := snd (validate_document w c file_path "drawing") in
  rep_violations r
  = ((if _check_itar_marking text then [] else [itar_001])
     ++ map mat_001 (filter (fun m => icontains m text) restricted_drawing)
     ++ (if _check_traceability text then [] else [trace_001]))%list
  /\ rep_warnings r = (if _check_revision_marking text then [] else [doc_002])
  /\ len (rep_violations r) <= 8 /\ len (rep_warnings r) <= 1
  /\ exists total,
       0 <= total <= 405000
       /\ (estimated_risk (rep_summary r) = "Minimal risk"
           \/ estimated_risk (rep_summary r)
              = "$" ++ PyStr.fmt_comma total ++ " potential exposure").
Proof.
  intros Ht r.
  destruct (findings_drawing w c file_path Ht) as [Ev Ew]. fold r in Ev, Ew.
  pose proof (restricted_materials_filter text) as Escan.
  assert (Hlen : (List.length (_check_restricted_materials text) <= 6)%nat).
  { rewrite Escan. etransitivity; [apply filter_length_le|]. cbn. lia. }
  assert (Hv : rep_violations r
    = ((if _check_itar_marking text then [] else [itar_001])
       ++ map mat_001 (filter (fun m => icontains m text) restricted_drawing)
       ++ (if _check_traceability text then [] else [trace_001]))%list).
  { rewrite Ev. unfold drawing_violations. rewrite Escan.
    now destruct (_check_itar_marking text), (_check_traceability text). }
  assert (Hw : rep_warnings r
               = (if _check_revision_marking text then [] else [doc_002])).
  { rewrite Ew. unfold drawing_warnings.
    now destruct (_check_revision_marking text). }
  assert (Lv : len (rep_violations r) <= 8).
  { rewrite Hv. unfold len. rewrite !length_app, length_map, <- Escan.
    pose proof (list_if_length (_check_itar_marking text) itar_001).
    pose proof (list_if_length (_check_traceability text) trace_001). lia. }
  assert (Lw : len (rep_warnings r) <= 1).
  { rewrite Hw. unfold len.
    pose proof (list_if_length (_check_revision_marking text) doc_002). lia. }
  split; [exact Hv|]. split; [exact Hw|]. split; [exact Lv|]. split; [exact Lw|].
  destruct (report_fields w c file_path "drawing") as (Ev' & Ew' & _ & _ & Hm & _).
  fold r in Ev', Ew', Hm. rewrite <- Ev', <- Ew' in Hm.
  exists (len (rep_violations r) * 50000 + len (rep_warnings r) * 5000).
  assert (0 <= len (rep_violations r)) by (unfold len; lia).
  assert (0 <= len (rep_warnings r)) by (unfold len; lia).
  split; [lia|]. rewrite Hm. cbn [estimated_risk].
  assert (Hnn : 0 <= len (rep_violations r) * 50000 + len (rep_warnings r) * 5000)
    by lia.
  destruct (render_exposure_cases Hnn)
    as [[_ Hzero] | [[_ Hmid] | [Hbig _]]]; try lia; auto.
Qed.

Lemma drawing_report_shape_witness :
  _extract_pdf_text (const_world (Returned ["Rev A. Lead and CADMIUM."])
                                 (Raised "no table")) "drawing.pdf"
  = Returned ("Rev A. Lead and CADMIUM." ++ newline)
  /\ map rule (rep_violations (run_drawing "Rev A. Lead and CADMIUM."))
     = ["ITAR-001"; "AS9100-MAT-001"; "AS9100-MAT-001"; "AS9100-TRACE-001"]
  /\ map description (rep_violations (run_drawing "Rev A. Lead and CADMIUM."))
     = ["Missing ITAR export control statement";
        "Restricted material detected: cadmium";
        "Restricted material detected: lead";
        "Missing traceability requirements"].
Proof.
  split; [reflexivity|].
  pose proof (@drawing_report_shape
                (const_world (Returned ["Rev A. Lead and CADMIUM."])
                             (Raised "no table"))
                init "drawing.pdf" _ eq_refl) as T.
  cbv zeta in T. destruct T as (T & _).
  unfold run_drawing. rewrite T. split; reflexivity.
Defined.

(** ** The BOM loop *)

Lemma flat_map_length_le {A B} (f : A -> list B) (k : nat) (l : list A) :
  (forall x, (List.length (f x) <= k)%nat) ->
  (List.length (flat_map f l) <= k * List.length l)%nat.
Proof.
  intros H. induction l as [|x l IH]; cbn [flat_map List.length]; [lia|].
  rewrite length_app. specialize (H x). lia.
Qed.

(** X7.  The BOM loop appends at most two violations and two warnings
    per row, so a report on n rows holds at most 2n violations and 2n
    warnings, and its [checked_items] is n. *)
Theorem bom_report_is_bounded w c file_path df :
  read_bom w file_path = Returned df ->
  let r := snd (validate_document w c file_path "bom") in
  len (rep_violations r) <= 2 * len (rows df)
  /\ len (rep_warnings r) <= 2 * len (rows df)
  /\ rep_checked_items r = len (rows df).
Proof.
  intros Hread r.
  destruct (findings_bom w c file_path Hread) as [Ev Ew]. fold r in Ev, Ew.
  rewrite Ev, Ew.
  unfold len, bom_violations, bom_warnings, loop_warning, completed.
  set (cols := columns df). set (pc := part_column df).
  set (mc := material_column df). set (sc := supplier_column df).
  pose proof (processed_length cols pc mc sc (rows df)) as Hlen.
  split; [|split].
  - pose proof (@flat_map_length_le _ _
                  (fun ir => fst (row_emits cols pc mc sc ir))
                  2%nat (processed cols pc mc sc (rows df))
                  (fun ir => proj1 (row_emits_length cols pc mc sc ir))) as H.
    lia.
  - pose proof (@flat_map_length_le _ _
                  (fun ir => snd (row_emits cols pc mc sc ir))
                  2%nat (processed cols pc mc sc (rows df))
                  (fun ir => proj2 (row_emits_length cols pc mc sc ir))) as H.
    rewrite length_app.
    destruct (first_raise cols pc mc sc (rows df)); cbn [List.length]; lia.
  - unfold r, validate_document, _validate_bom.
    cbn [String.eqb Ascii.eqb Bool.eqb].
    change (if endswith file_path ".xlsx"
            then read_excel w file_path else read_csv w file_path)
      with (read_bom w file_path).
    rewrite Hread, bom_checks_handled. reflexivity.
Qed.

Lemma bom_report_is_bounded_witness :
  read_bom (const_world (Returned []) (Returned two_bad_rows)) "bom.csv"
  = Returned two_bad_rows
  /\ len (rep_violations (run_bom two_bad_rows)) <= 2 * 2
  /\ len (rep_warnings (run_bom two_bad_rows)) <= 2 * 2
  /\ rep_checked_items (run_bom two_bad_rows) = 2.
Proof.
  split; [reflexivity|].
  exact (@bom_report_is_bounded
           (const_world (Returned []) (Returned two_bad_rows))
           init "bom.csv" two_bad_rows eq_refl).
Defined.

(** Without a found column no rule fires, so no label is printed. *)
Lemma no_column_row cols ir :
  row_emits cols None None None ir = ([], [])
  /\ row_raises cols None None None ir = None.
Proof.
  unfold row_emits, row_raises.
  destruct (row_location (fst ir)); split; reflexivity.
Qed.

Lemma no_column_loop cols irs :
  processed cols None None None irs = irs
  /\ first_raise cols None None None irs = None.
Proof.
  induction irs as [|ir irs [IHp IHf]]; cbn [processed first_raise];
    [now split|].
  rewrite (proj2 (no_column_row cols ir)), IHp. now split.
Qed.

(** X8.  A BOM with no row, or whose header has no label containing any
    of the candidate names, gets an empty PASS report whatever its cells
    hold: the loop has no check that does not go through a found
    column. *)
Theorem unrecognised_bom_is_clean w c file_path df :
  read_bom w file_path = Returned df ->
  rows df = []
  \/ (_find_column (columns df) part_names = None
      /\ _find_column (columns df) material_names = None
      /\ _find_column (columns df) supplier_names = None) ->
  let r := snd (validate_document w c file_path "bom") in
  findings r = [] /\ status r = "PASS" /\ rep_risk_score r = 0
  /\ rep_summary r = Summary 0 0 "Minimal risk".
Proof.
  intros Hread Hcase r.
  assert (He : emitted w file_path "bom" = ([], [])).
  { rewrite (emitted_bom _ _ Hread).
    unfold bom_violations, bom_warnings, loop_warning, completed,
      part_column, material_column, supplier_column.
    destruct Hcase as [Hrows | (Hp & Hm & Hs)].
    - rewrite Hrows. reflexivity.
    - rewrite Hp, Hm, Hs.
      destruct (no_column_loop (columns df) (rows df)) as [-> ->].
      rewrite app_nil_r. f_equal.
      + rewrite (flat_map_ext'
                   (fun ir => fst (row_emits (columns df) None None None ir))
                   (fun _ => [])); [apply flat_map_nil|].
        intros ir. now rewrite (proj1 (no_column_row (columns df) ir)).
      + rewrite (flat_map_ext'
                   (fun ir => snd (row_emits (columns df) None None None ir))
                   (fun _ => [])); [apply flat_map_nil|].
        intros ir. now rewrite (proj1 (no_column_row (columns df) ir)). }
  destruct (report_fields w c file_path "bom") as (Ev & Ew & Hs & Hr & Hm & _).
  fold r in Ev, Ew, Hs, Hr, Hm. rewrite He in Ev, Ew, Hs, Hr, Hm.
  unfold findings. rewrite Ev, Ew, Hs, Hr, Hm. repeat split.
Qed.

Lemma unrecognised_bom_is_clean_witness :
  _find_column ["Item"; "Alloy"; "Source"] part_names = None
  /\ status (run_bom (Frame ["Item"; "Alloy"; "Source"]
                            [(LStr "X1", [NaN; Val "Cadmium"; Val "Acme"])]))
     = "PASS"
  /\ findings (run_bom (Frame ["Item"; "Alloy"; "Source"]
                              [(LStr "X1", [NaN; Val "Cadmium"; Val "Acme"])]))
     = [].
Proof.
  split; [reflexivity|].
  pose proof (@unrecognised_bom_is_clean
                (const_world (Returned [])
                   (Returned (Frame ["Item"; "Alloy"; "Source"]
                                    [(LStr "X1", [NaN; Val "Cadmium"; Val "Acme"])])))
                init "bom.csv" _ eq_refl
                (or_intror (conj eq_refl (conj eq_refl eq_refl)))) as T.
  cbv zeta in T. destruct T as (T1 & T2 & _). split; [exact T2 | exact T1].
Defined.

(** X9.  In a table read with the default index, a row whose part number
    is missing gets two findings: the violation AS9100-DATA-001, and the
    warning ITAR-BOM-001, because the missing value prints as "nan",
    which in upper case contains the indicator "AN". *)
Theorem missing_part_number_is_also_itar w c file_path cols data pcol i row :
  read_bom w file_path = Returned (Pd.range_frame cols data) ->
  _find_column cols part_names = Some pcol ->
  nth_error data i = Some row ->
  Pd.get cols row (Some pcol) None = Some NaN ->
  let r := snd (validate_document w c file_path "bom") in
  In (data_001 i) (rep_violations r)
  /\ In (itar_bom_001 (Some NaN) i) (rep_warnings r)
  /\ description (itar_bom_001 (Some NaN) i) = "ITAR controlled part: nan"
  /\ status r = "FAIL".
Proof.
  intros Hread Hcol Hrow Hcell r.
  destruct (findings_range w c file_path Hread) as [Ev Ew].
  fold r in Ev, Ew.
  pose proof (find_column_truthy cols part_names eq_refl Hcol) as Htruthy.
  pose proof (enumerate_In data 0 i Hrow) as Hin. cbn [Nat.add] in Hin.
  assert (Hv : In (data_001 i) (rep_violations r)).
  { rewrite Ev. unfold positional_violations. apply in_flat_map.
    exists (i, row). split; [exact Hin|].
    unfold row_violations, emits_violations, fires_missing_part.
    rewrite Hcol, Htruthy, Hcell.
    cbn [Pd.isna andb]. apply in_or_app. right. now left. }
  split; [exact Hv|]. split.
  - rewrite Ew. unfold positional_warnings. apply in_flat_map.
    exists (i, row). split; [exact Hin|].
    unfold row_warnings, emits_warnings, fires_itar_bom, part_shown.
    rewrite Hcol, Htruthy.
    rewrite !(get_found _ _ _ _ Hcell). cbn [Pd.str andb].
    replace (_is_itar_controlled "nan") with true by reflexivity.
    now left.
  - split; [reflexivity|].
    destruct (status_cases w c file_path "bom") as [[Hnil _]|[_ Hs]].
    + fold r in Hnil. rewrite Hnil in Hv. destruct Hv.
    + exact Hs.
Qed.

Lemma missing_part_number_is_also_itar_witness :
  Pd.get (columns five_row_bom) [NaN; Val "shim"] (Some "Part Number") None
  = Some NaN
  /\ In (data_001 1) (rep_violations (run_bom five_row_bom))
  /\ In (itar_bom_001 (Some NaN) 1) (rep_warnings (run_bom five_row_bom)).
Proof.
  split; [reflexivity|].
  pose proof (@missing_part_number_is_also_itar
                (const_world (Returned []) (Returned five_row_bom))
                init "bom.csv" ["Part Number"; "Description"] five_rows
                "Part Number" 1%nat
                [NaN; Val "shim"] eq_refl eq_refl eq_refl eq_refl) as T.
  cbv zeta in T. destruct T as (T1 & T2 & _). split; [exact T1 | exact T2].
Defined.

(** ** Locations *)

Lemma enumerate_from_indices rs : forall start,
  map fst (Pd.enumerate_from start rs) = seq start (List.length rs).
Proof.
  induction rs as [|r rs IH]; intros start; cbn; [reflexivity|].
  now rewrite IH.
Qed.

Lemma NoDup_map_filter {A B} (k : A -> B) (q : A -> bool) (l : list A) :
  NoDup (map k l) -> NoDup (map k (filter q l)).
Proof.
  induction l as [|x l IH]; cbn [map filter]; intros H; [constructor|].
  apply NoDup_cons_iff in H as [Hx Hl].
  destruct (q x); cbn [map]; [|now apply IH].
  constructor; [|now apply IH].
  intros Hin. apply Hx. apply in_map_iff in Hin as (y & Hy & Hin).
  apply filter_In in Hin as [Hin _]. apply in_map_iff. eauto.
Qed.

Lemma NoDup_map_via {A B C} (k : A -> B) (h : A -> C) (l : list A) :
  (forall x y, h x = h y -> k x = k y) ->
  NoDup (map k l) -> NoDup (map h l).
Proof.
  intros Hinj. induction l as [|x l IH]; cbn [map]; intros H; [constructor|].
  apply NoDup_cons_iff in H as [Hx Hl].
  constructor; [|now apply IH].
  intros Hin. apply Hx. apply in_map_iff in Hin as (y & Hy & Hin).
  apply in_map_iff. exists y. split; [now apply Hinj | exact Hin].
Qed.

Lemma Some_inj {A} (x y : A) : Some x = Some y -> x = y.
Proof. congruence. Qed.

Lemma part_location_inj i j t t' :
  row_label i ++ ", Part: " ++ t = row_label j ++ ", Part: " ++ t' -> i = j.
Proof.
  intros E.
  assert (H : at_row i (mat_002 "" (Some (Val t')) j) = true).
  { unfold at_row, mat_002, mat_002_at. cbn [location Pd.str]. rewrite <- E.
    apply orb_true_iff. right. apply PyStrFacts.prefix_iff.
    exists (" Part: " ++ t). now rewrite PyStrFacts.append_assoc. }
  rewrite (@at_row_part i j (mat_002 "" (Some (Val t')) j) t' eq_refl) in H.
  now apply Nat.eqb_eq.
Qed.

(** X10.  In the report on a table read with the default index no two
    findings of the same rule share a location: the location is printed
    from the position of the row, and different positions print
    differently.  (Under an index of the file's own the same label can
    come twice, and with it the same location.) *)
Theorem bom_locations_are_unique w c file_path cols data :
  read_bom w file_path = Returned (Pd.range_frame cols data) ->
  let r := snd (validate_document w c file_path "bom") in
  forall name,
    In name ["ITAR-BOM-001"; "AS9100-MAT-002"; "AS9100-SUP-001"; "AS9100-DATA-001"] ->
    NoDup (map location (filter (has_rule name) (findings r))).
Proof.
  intros Hread r name Hname.
  destruct (findings_range w c file_path Hread) as [Ev Ew].
  fold r in Ev, Ew.
  unfold findings. rewrite Ev, Ew.
  assert (Hidx : forall q : nat * list cell -> bool,
             NoDup (map fst (filter q (Pd.enumerate data)))).
  { intros q. apply NoDup_map_filter. unfold Pd.enumerate.
    rewrite enumerate_from_indices. apply seq_NoDup. }
  cbn in Hname.
  destruct Hname as [<- | [<- | [<- | [<- | []]]]].
  - rewrite bom_itar_001, map_map.
    apply (NoDup_map_via fst); [|apply Hidx].
    intros [i x] [j y]; cbn [fst snd itar_bom_001 itar_bom_at location].
    intros E. apply Some_inj in E. now apply row_label_inj.
  - rewrite bom_mat_002, map_map.
    apply (NoDup_map_via fst); [|apply Hidx].
    intros [i x] [j y]; cbn [fst snd mat_002 mat_002_at location].
    intros E. apply Some_inj in E. now apply part_location_inj in E.
  - rewrite bom_sup_001, map_map.
    apply (NoDup_map_via fst); [|apply Hidx].
    intros [i x] [j y]; cbn [fst snd sup_001 sup_001_at location].
    intros E. apply Some_inj in E. now apply row_label_inj.
  - rewrite bom_data_001, map_map.
    apply (NoDup_map_via fst); [|apply Hidx].
    intros [i x] [j y]; cbn [fst snd data_001 data_001_at location].
    intros E. apply Some_inj in E. now apply row_label_inj.
Qed.

Lemma bom_locations_are_unique_witness :
  read_bom (const_world (Returned []) (Returned two_bad_rows)) "bom.csv"
  = Returned two_bad_rows
  /\ NoDup (map location
              (filter (has_rule "AS9100-MAT-002") (findings (run_bom two_bad_rows)))).
Proof.
  split; [reflexivity|].
  apply (@bom_locations_are_unique
           (const_world (Returned []) (Returned two_bad_rows))
           init "bom.csv" ["Part Number"; "Material"; "Supplier"]
           [[NaN; Val "Cadmium"; Val "Acme"]; [NaN; Val "Lead"; Val "Apex"]]
           eq_refl).
  cbn. tauto.
Defined.

(** Under the label 7 twice, both findings of a rule share a location. *)
Example repeated_label_repeats_location :
  map location
      (filter (has_rule "ITAR-BOM-001") (findings (run_bom repeated_bom)))
  = [Some "Row 9"; Some "Row 9"].
Proof. vm_compute. reflexivity. Qed.

(** ** Tables read with the default index *)

(** X20.  In the report on a table read with the default index every
    row rule fires once for each row on which its condition holds, in
    row order, and for no other row; the number of missing-part-number
    findings is the number of rows whose part number is missing.  The
    location of a finding is printed from the 1-based position of the
    row plus the header offset 1: alone for ITAR-BOM-001, AS9100-SUP-001
    and AS9100-DATA-001, followed by the part for AS9100-MAT-002. *)
Theorem default_index_rule_fires_once_per_row w c file_path cols data :
  read_bom w file_path = Returned (Pd.range_frame cols data) ->
  let r := snd (validate_document w c file_path "bom") in
  let pc := _find_column cols part_names in
  let mc := _find_column cols material_names in
  let sc := _find_column cols supplier_names in
  filter (has_rule "AS9100-DATA-001") (findings r)
  = map (fun ir => data_001 (fst ir))
        (filter (fun ir => fires_missing_part cols pc (snd ir)) (Pd.enumerate data))
  /\ filter (has_rule "AS9100-MAT-002") (findings r)
     = map (fun ir => mat_002 (material_shown cols mc (snd ir))
                              (part_shown cols pc (snd ir)) (fst ir))
           (filter (fun ir => fires_restricted cols mc (snd ir)) (Pd.enumerate data))
  /\ filter (has_rule "ITAR-BOM-001") (findings r)
     = map (fun ir => itar_bom_001 (part_shown cols pc (snd ir)) (fst ir))
           (filter (fun ir => fires_itar_bom cols pc (snd ir)) (Pd.enumerate data))
  /\ filter (has_rule "AS9100-SUP-001") (findings r)
     = map (fun ir => sup_001 (supplier_shown cols sc (snd ir)) (fst ir))
           (filter (fun ir => fires_uncertified cols sc (snd ir)) (Pd.enumerate data))
  /\ count (has_rule "AS9100-DATA-001") (findings r)
     = len (filter (fires_missing_part cols pc) data)
  /\ count (has_rule "SYSTEM") (findings r) = 0
  /\ Pd.enumerate data = combine (seq 0 (List.length data)) data
  /\ (forall idx part material supplier,
        let shown := "Row " ++ PyStr.str_int (Z.of_nat (S idx) + 1) in
        location (data_001 idx) = Some shown
        /\ location (itar_bom_001 part idx) = Some shown
        /\ location (sup_001 supplier idx) = Some shown
        /\ location (mat_002 material part idx)
           = Some (shown ++ ", Part: " ++ Pd.str part)).
Proof.
  intros Hread r pc mc sc.
  destruct (findings_range w c file_path Hread) as [Ev Ew].
  fold r in Ev, Ew.
  unfold findings. rewrite Ev, Ew.
  split; [apply bom_data_001|].
  split; [apply bom_mat_002|].
  split; [apply bom_itar_001|].
  split; [apply bom_sup_001|].
  split.
  { unfold count. rewrite bom_data_001. unfold len.
    rewrite length_map. unfold Pd.enumerate.
    now rewrite (filter_enumerate (fires_missing_part cols pc)). }
  split.
  { unfold count. rewrite bom_filter_rule.
    rewrite (flat_map_ext'
               (fun ir => filter (has_rule "SYSTEM") (row_violations cols pc mc ir))
               (fun _ => [])), flat_map_nil.
    - rewrite (flat_map_ext'
                 (fun ir => filter (has_rule "SYSTEM") (row_warnings cols pc sc ir))
                 (fun _ => [])), flat_map_nil; [reflexivity|].
      intros [idx row]. unfold row_warnings, emits_warnings.
      now destruct (fires_itar_bom cols pc row), (fires_uncertified cols sc row).
    - intros [idx row]. unfold row_violations, emits_violations.
      now destruct (fires_restricted cols mc row), (fires_missing_part cols pc row). }
  split; [apply enumerate_from_combine|].
  intros idx part material supplier.
  unfold data_001, itar_bom_001, sup_001, mat_002, data_001_at, itar_bom_at,
    sup_001_at, mat_002_at, row_label.
  cbn [location].
  replace (Z.of_nat (S idx) + 1) with (Z.of_nat idx + 2) by lia.
  repeat split.
Qed.

(** The five-row BOM whose rows 2 and 4 lack a part number: exactly two
    missing-part-number findings, at "Row 3" and "Row 5". *)
Lemma default_index_rule_fires_once_per_row_witness :
  read_bom (const_world (Returned []) (Returned five_row_bom)) "bom.csv"
  = Returned (Pd.range_frame ["Part Number"; "Description"] five_rows)
  /\ map location
         (filter (has_rule "AS9100-DATA-001") (findings (run_bom five_row_bom)))
     = [Some "Row 3"; Some "Row 5"].
Proof.
  split; [reflexivity|].
  pose proof (@default_index_rule_fires_once_per_row
                (const_world (Returned []) (Returned five_row_bom))
                init "bom.csv" ["Part Number"; "Description"] five_rows
                eq_refl) as H.
  cbv zeta in H. destruct H as (H & _).
  unfold run_bom. rewrite H. reflexivity.
Defined.

(** X21.  In a table read with the default index that has a material
    column, a row whose material is not missing gets exactly one
    restricted-material finding (AS9100-MAT-002) naming that row when
    the test of the loop holds of its upper-cased material, that is when
    one of the six restricted names occurs in it, and none otherwise.
    The finding is a violation of severity High; its description shows
    the material in upper case and its location the row, then the
    part. *)
Theorem default_index_restricted_material_row
        w c file_path cols data mcol i row m :
  read_bom w file_path = Returned (Pd.range_frame cols data) ->
  _find_column cols material_names = Some mcol ->
  nth_error data i = Some row ->
  Pd.get cols row (Some mcol) None = Some (Val m) ->
  let r := snd (validate_document w c file_path "bom") in
  let part := Pd.get cols row (_find_column cols part_names)
                     (Some (Val "Unknown")) in
  let f := mat_002 (PyStr.upper m) part i in
  filter (fun g => (has_rule "AS9100-MAT-002" g && at_row i g)%bool) (findings r)
  = (if _is_restricted_material (PyStr.upper m) then [f] else [])
  /\ (_is_restricted_material (PyStr.upper m) = true
      <-> exists name, In name restricted_bom
                       /\ PyStr.contains name (PyStr.upper (PyStr.upper m)) = true)
  /\ (_is_restricted_material (PyStr.upper m) = true -> In f (rep_violations r))
  /\ sev f = HIGH
  /\ description f = "Restricted material in BOM: " ++ PyStr.upper m
  /\ location f
     = Some ("Row " ++ PyStr.str_int (Z.of_nat i + 2) ++ ", Part: " ++ Pd.str part).
Proof.
  intros Hread Hcol Hrow Hcell r part f.
  destruct (findings_range w c file_path Hread) as [Ev Ew].
  fold r in Ev, Ew.
  assert (Hfilter :
    filter (fun g => (has_rule "AS9100-MAT-002" g && at_row i g)%bool) (findings r)
    = if _is_restricted_material (PyStr.upper m) then [f] else []).
  { unfold findings. rewrite Ev, Ew, (positional_mat_002_at_row cols data i Hrow).
    unfold fires_restricted, material_shown. rewrite Hcol.
    rewrite (find_column_truthy cols material_names eq_refl Hcol).
    rewrite Hcell, (get_found _ _ _ (Some (Val "")) Hcell).
    cbn [Pd.notna Pd.isna negb andb Pd.str].
    reflexivity. }
  split; [exact Hfilter|].
  split.
  { unfold _is_restricted_material, PyStr.any. apply existsb_exists. }
  split.
  - intros Htest. rewrite Htest in Hfilter.
    assert (Hin : In f (findings r)).
    { eapply proj1. apply filter_In. rewrite Hfilter. left. reflexivity. }
    unfold findings in Hin. apply in_app_or in Hin as [Hin|Hin]; [exact Hin|].
    exfalso. rewrite Ew in Hin.
    assert (Hnone : filter (has_rule "AS9100-MAT-002")
                           (positional_warnings cols data) = []).
    { unfold positional_warnings. rewrite filter_flat_map.
      rewrite (flat_map_ext' _ (fun _ => [])); [apply flat_map_nil|].
      intros ir. apply row_warnings_other. auto. }
    assert (Hf : In f (filter (has_rule "AS9100-MAT-002")
                              (positional_warnings cols data)))
      by (apply filter_In; split; [exact Hin | reflexivity]).
    rewrite Hnone in Hf. exact Hf.
  - repeat split.
Qed.

Lemma default_index_restricted_material_row_witness :
  _is_restricted_material (PyStr.upper "Cadmium Plating 0.002in") = true
  /\ filter (fun g => (has_rule "AS9100-MAT-002" g && at_row 1 g)%bool)
            (findings (run_bom cadmium_bom))
     = [Finding "AS9100-MAT-002"
                "Restricted material in BOM: CADMIUM PLATING 0.002IN" HIGH
                "Replace with approved material" None
                (Some "Row 3, Part: B-2")].
Proof.
  split; [reflexivity|].
  pose proof (@default_index_restricted_material_row
                (const_world (Returned []) (Returned cadmium_bom))
                init "bom.csv" ["Part Number"; "Material"] cadmium_rows
                "Material" 1%nat
                [Val "B-2"; Val "Cadmium Plating 0.002in"]
                "Cadmium Plating 0.002in"
                eq_refl eq_refl eq_refl eq_refl) as T.
  cbv zeta in T. destruct T as (T & _). exact T.
Defined.

(** X22.  In a table read with the default index that has a part column,
    a row whose part number, in upper case, contains one of "MIL-", "MS",
    "NAS", "AN", "CAGE" gets the finding ITAR-BOM-001 with severity High
    and the location of the row appended to the warnings, never to the
    violations: it counts 5 in the risk score, and a report whose only
    findings are of this rule is PASS. *)
Theorem default_index_itar_part_is_a_warning w c file_path cols data pcol i row :
  read_bom w file_path = Returned (Pd.range_frame cols data) ->
  _find_column cols part_names = Some pcol ->
  nth_error data i = Some row ->
  (exists ind, In ind itar_indicators
               /\ PyStr.contains ind
                    (PyStr.upper
                       (Pd.str (Pd.get cols row (Some pcol)
                                       (Some (Val ""))))) = true) ->
  let r := snd (validate_document w c file_path "bom") in
  let f := itar_bom_001 (Pd.get cols row (Some pcol) (Some (Val "Unknown"))) i in
  sev f = HIGH /\ rule f = "ITAR-BOM-001"
  /\ location f = Some ("Row " ++ PyStr.str_int (Z.of_nat i + 2))
  /\ (exists before rest,
        rep_warnings r = (before ++ f :: rest)%list
        /\ rep_risk_score r
           = Z.min 100 (15 * len (rep_violations r)
                        + 5 * (len before + len rest) + 5))
  /\ (forall g, In g (rep_violations r) -> rule g <> "ITAR-BOM-001")
  /\ (status r = "FAIL" <-> rep_violations r <> [])
  /\ ((forall g, In g (findings r) -> rule g = "ITAR-BOM-001") ->
      status r = "PASS").
Proof.
  intros Hread Hcol Hrow Hind r f.
  destruct (findings_range w c file_path Hread) as [Ev Ew].
  fold r in Ev, Ew.
  destruct (report_fields w c file_path "bom") as (Ev' & Ew' & _ & Hr & _).
  fold r in Ev', Ew', Hr. rewrite <- Ev', <- Ew' in Hr.
  assert (Hnot : forall g, In g (rep_violations r) -> rule g <> "ITAR-BOM-001")
    by (intros g Hg; now apply (violations_high w c file_path "bom" g)).
  assert (Hin : In f (rep_warnings r)).
  { rewrite Ew. unfold positional_warnings. apply in_flat_map.
    exists (i, row). split.
    - apply (enumerate_In data 0 i Hrow).
    - unfold row_warnings, emits_warnings, fires_itar_bom, part_shown.
      rewrite Hcol.
      rewrite (find_column_truthy cols part_names eq_refl Hcol).
      cbn [andb]. unfold _is_itar_controlled, PyStr.any.
      replace (existsb _ itar_indicators) with true
        by (symmetry; apply existsb_exists; exact Hind).
      now left. }
  split; [reflexivity|]. split; [reflexivity|]. split; [reflexivity|].
  split.
  { apply in_split in Hin as (before & rest & Hsplit).
    exists before, rest. split; [exact Hsplit|].
    rewrite Hr, Hsplit. unfold len. rewrite length_app. cbn [List.length]. f_equal. lia. }
  split; [exact Hnot|].
  destruct (status_cases w c file_path "bom") as [[Hv Hs]|[Hv Hs]];
    fold r in Hv, Hs; rewrite Hs.
  - split; [split; [discriminate | congruence] | reflexivity].
  - split; [split; [auto | reflexivity]|].
    intros Hall. destruct (rep_violations r) as [|g l] eqn:E; [congruence|].
    exfalso. apply (Hnot g (or_introl eq_refl)). apply Hall.
    unfold findings. rewrite E. now left.
Qed.

Lemma default_index_itar_part_is_a_warning_witness :
  (exists ind, In ind itar_indicators
               /\ PyStr.contains ind (PyStr.upper "PANEL") = true)
  /\ rep_warnings (run_bom panel_bom)
     = [Finding "ITAR-BOM-001" "ITAR controlled part: PANEL" HIGH
                "Ensure proper export licensing" None (Some "Row 2")]
  /\ rep_risk_score (run_bom panel_bom) = 5
  /\ status (run_bom panel_bom) = "PASS".
Proof.
  assert (H : exists ind, In ind itar_indicators
                          /\ PyStr.contains ind (PyStr.upper "PANEL") = true).
  { exists "AN". split; [cbn; tauto | reflexivity]. }
  split; [exact H|].
  pose proof (@default_index_itar_part_is_a_warning
                (const_world (Returned []) (Returned panel_bom))
                init "bom.csv" ["Part Number"] [[Val "PANEL"]]
                "Part Number" 0%nat [Val "PANEL"]
                eq_refl eq_refl eq_refl H) as T.
  cbv zeta in T. destruct T as (_ & _ & _ & _ & _ & _ & T).
  split; [reflexivity|]. split; [reflexivity|].
  apply T. intros g Hg. vm_compute in Hg.
  destruct Hg as [<- | []]. reflexivity.
Defined.

(** ** Keyword checks under more text *)

Section Monotone.
Import PyStr PyStrFacts.

Lemma contains_extend k t a b :
  contains k t = true -> contains k (a ++ t ++ b) = true.
Proof.
  rewrite !contains_iff. intros (x & y & ->).
  exists (a ++ x), (y ++ b). now rewrite !append_assoc.
Qed.

Lemma contains_lower_extend k t a b :
  contains k (lower t) = true -> contains k (lower (a ++ t ++ b)) = true.
Proof.
  intros H. unfold lower. rewrite !smap_app. now apply contains_extend.
Qed.

Lemma contains_upper_extend k t a b :
  contains k (upper t) = true -> contains k (upper (a ++ t ++ b)) = true.
Proof.
  intros H. unfold upper. rewrite !smap_app. now apply contains_extend.
Qed.

Lemma existsb_impl {A} (p q : A -> bool) (l : list A) :
  (forall x, p x = true -> q x = true) ->
  existsb p l = true -> existsb q l = true.
Proof.
  intros H. rewrite !existsb_exists. intros (x & Hin & Hp). eauto.
Qed.

Lemma search_extend r t a b :
  Re.search r t = true -> Re.search r (a ++ t ++ b) = true.
Proof.
  rewrite !ReFacts.search_iff. intros (x & u & y & -> & Hu).
  exists (a ++ x), u, (y ++ b). split; [|exact Hu].
  now rewrite !append_assoc.
Qed.

End Monotone.

Lemma itar_marking_extend t a b :
  _check_itar_marking t = true -> _check_itar_marking (a ++ t ++ b) = true.
Proof.
  unfold _check_itar_marking, PyStr.any.
  apply existsb_impl. intros k. apply contains_lower_extend.
Qed.

Lemma restricted_found_extend t a b m :
  In m (_check_restricted_materials t) ->
  In m (_check_restricted_materials (a ++ t ++ b)).
Proof.
  rewrite !restricted_materials_filter, !filter_In.
  intros [Hin Hc]. split; [exact Hin|].
  unfold icontains in *. now apply contains_lower_extend.
Qed.

(** X11.  Text added before or after never unsets a keyword test: an
    export marking, a traceability note or a revision mark found in a
    text is found in every text that contains it, a restricted material
    found stays found, and a part number, material or supplier name that
    is flagged as ITAR, restricted or certified stays so however it is
    extended. *)
Theorem keyword_checks_are_monotone t a b :
  (_check_itar_marking t = true -> _check_itar_marking (a ++ t ++ b) = true)
  /\ (_check_traceability t = true -> _check_traceability (a ++ t ++ b) = true)
  /\ (_check_revision_marking t = true ->
      _check_revision_marking (a ++ t ++ b) = true)
  /\ (forall m, In m (_check_restricted_materials t) ->
                In m (_check_restricted_materials (a ++ t ++ b)))
  /\ (_is_itar_controlled t = true -> _is_itar_controlled (a ++ t ++ b) = true)
  /\ (_is_restricted_material t = true ->
      _is_restricted_material (a ++ t ++ b) = true)
  /\ (_is_certified_supplier t = true ->
      _is_certified_supplier (a ++ t ++ b) = true).
Proof.
  unfold _check_itar_marking, _check_traceability, _check_revision_marking,
    _is_itar_controlled, _is_restricted_material, _is_certified_supplier,
    PyStr.any.
  repeat split.
  - apply existsb_impl. intros k. apply contains_lower_extend.
  - apply existsb_impl. intros k. apply contains_lower_extend.
  - apply existsb_impl. intros k. apply search_extend.
  - intros m. apply restricted_found_extend.
  - apply existsb_impl. intros k. apply contains_upper_extend.
  - apply existsb_impl. intros k. apply contains_upper_extend.
  - apply existsb_impl. intros k. apply contains_upper_extend.
Qed.

(** ** Pages *)

Lemma join_pages_from pages : forall acc,
  fold_left (fun text page => text ++ (page ++ newline)) pages acc
  = acc ++ join_pages pages.
Proof.
  unfold join_pages.
  induction pages as [|p pages IH]; intros acc; cbn [fold_left].
  - now rewrite PyStrFacts.append_nil_r.
  - rewrite IH, (IH ("" ++ (p ++ newline))). cbn [append].
    now rewrite PyStrFacts.append_assoc.
Qed.

Lemma join_pages_app ps qs :
  join_pages (ps ++ qs) = join_pages ps ++ join_pages qs.
Proof.
  unfold join_pages at 1. rewrite fold_left_app.
  fold (join_pages ps). apply join_pages_from.
Qed.

Lemma join_pages_cons p ps : join_pages (p :: ps) = p ++ newline ++ join_pages ps.
Proof.
  change (p :: ps) with ([p] ++ ps)%list. rewrite join_pages_app.
  unfold join_pages at 1. cbn [fold_left append].
  now rewrite PyStrFacts.append_assoc.
Qed.

Lemma page_in_text pages page :
  In page pages -> exists a b, join_pages pages = a ++ page ++ b.
Proof.
  intros Hin. apply in_split in Hin as (ps & qs & ->).
  rewrite join_pages_app, join_pages_cons.
  exists (join_pages ps), (newline ++ join_pages qs). reflexivity.
Qed.

(** X12.  The text of a drawing is its pages in order, each followed by
    a line feed, and the checks run on the whole of it: an export marking
    on any one page keeps ITAR-001 out of the report, and a restricted
    material named on any one page is reported. *)
Theorem any_page_counts w c file_path pages page :
  pdf_pages w file_path = Returned pages ->
  In page pages ->
  let r := snd (validate_document w c file_path "drawing") in
  _extract_pdf_text w file_path = Returned (join_pages pages)
  /\ (forall ps qs, join_pages (ps ++ qs) = join_pages ps ++ join_pages qs)
  /\ (_check_itar_marking page = true ->
      forall f, In f (findings r) -> rule f <> "ITAR-001")
  /\ (forall m, In m restricted_drawing -> icontains m page = true ->
                In (mat_001 m) (rep_violations r)).
Proof.
  intros Hpages Hin r.
  assert (Ht : _extract_pdf_text w file_path = Returned (join_pages pages))
    by (unfold _extract_pdf_text; now rewrite Hpages).
  destruct (findings_drawing w c file_path Ht) as [Ev Ew]. fold r in Ev, Ew.
  destruct (page_in_text pages page Hin) as (a & b & Hsplit).
  split; [exact Ht|]. split; [apply join_pages_app|]. split.
  - intros Hmark f Hf. unfold findings in Hf. rewrite Ev, Ew in Hf.
    eapply marked_drawing_has_no_itar_001; [|exact Hf].
    rewrite Hsplit. now apply itar_marking_extend.
  - intros m Hm Hc. rewrite Ev. unfold drawing_violations.
    apply in_or_app. right. apply in_or_app. left. apply in_map.
    rewrite Hsplit. apply restricted_found_extend.
    rewrite restricted_materials_filter. apply filter_In. now split.
Qed.

Lemma any_page_counts_witness :
  In "Export controlled per ITAR" ["Sheet 1: bracket"; "Export controlled per ITAR"]
  /\ forall f,
       In f (findings
               (snd (validate_document
                       (const_world
                          (Returned ["Sheet 1: bracket"; "Export controlled per ITAR"])
                          (Raised "no table"))
                       init "drawing.pdf" "drawing"))) ->
       rule f <> "ITAR-001".
Proof.
  assert (H : In "Export controlled per ITAR"
                 ["Sheet 1: bracket"; "Export controlled per ITAR"])
    by (cbn; tauto).
  split; [exact H|].
  pose proof (@any_page_counts
                (const_world
                   (Returned ["Sheet 1: bracket"; "Export controlled per ITAR"])
                   (Raised "no table"))
                init "drawing.pdf" _ _ eq_refl H) as T.
  cbv zeta in T. destruct T as (_ & _ & T & _). apply T. reflexivity.
Defined.

(** ** Text without letters *)

Section NoLetters.
Import PyStr PyStrFacts.

Lemma no_letters_app a b :
  no_letters (a ++ b) = (no_letters a && no_letters b)%bool.
Proof.
  induction a as [|c a IH]; cbn [append no_letters]; [reflexivity|].
  now rewrite IH, andb_assoc.
Qed.

Lemma has_letter_not_no_letters k : has_letter k = true -> no_letters k = false.
Proof.
  induction k as [|c k IH]; cbn [has_letter no_letters]; [discriminate|].
  destruct (letter c); cbn [negb orb andb]; auto.
Qed.

Lemma no_letters_lower t : no_letters t = true -> lower t = t.
Proof.
  induction t as [|c t IH]; cbn [no_letters]; [reflexivity|].
  intros H. apply andb_true_iff in H as [Hc Ht].
  unfold lower in *. cbn [smap]. rewrite (IH Ht). f_equal.
  unfold lower_char. unfold letter in Hc.
  destruct (is_upper c); [discriminate | reflexivity].
Qed.

Lemma contains_needs_letters k h :
  has_letter k = true -> no_letters h = true -> contains k h = false.
Proof.
  intros Hk Hh. apply not_true_iff_false. intros Hc.
  apply contains_iff in Hc as (a & b & ->).
  rewrite !no_letters_app in Hh.
  apply andb_true_iff in Hh as [_ Hh]. apply andb_true_iff in Hh as [Hh _].
  rewrite (has_letter_not_no_letters _ Hk) in Hh. discriminate.
Qed.

Lemma existsb_none {A} (p : A -> bool) (l : list A) :
  (forall x, In x l -> p x = false) -> existsb p l = false.
Proof.
  intros H. apply not_true_iff_false. intros He.
  apply existsb_exists in He as (x & Hin & Hp). rewrite (H x Hin) in Hp.
  discriminate.
Qed.

Lemma keywords_need_letters (keywords : list string) t :
  forallb (fun k => has_letter (lower k)) keywords = true ->
  no_letters t = true ->
  existsb (fun k => contains (lower k) (lower t)) keywords = false.
Proof.
  intros Hk Ht. apply existsb_none. intros k Hin.
  rewrite forallb_forall in Hk. rewrite (no_letters_lower _ Ht).
  apply contains_needs_letters; auto.
Qed.

Lemma all_letters_mem members c :
  all_letters members = true -> Re.mem_char c members = true -> letter c = true.
Proof.
  induction members as [|a ms IH]; cbn [all_letters Re.mem_char]; [discriminate|].
  intros Ha Hm. apply andb_true_iff in Ha as [Ha Hms].
  apply orb_true_iff in Hm as [Hm|Hm]; [|auto].
  apply Ascii.eqb_eq in Hm. now subst.
Qed.

(** A pattern that opens with a class of letters finds nothing in a text
    without letters. *)
Lemma search_needs_letters members rest t :
  all_letters members = true ->
  no_letters t = true ->
  Re.search (Re.Cat (Re.set members) rest) t = false.
Proof.
  intros Hm Ht. apply not_true_iff_false. intros Hs.
  apply ReFacts.search_iff in Hs as (a & u & b & -> & Hu).
  apply ReFacts.lang_cat_inv in Hu as (u1 & u2 & -> & H1 & _).
  apply ReFacts.lang_class_inv in H1 as (c & -> & Hc).
  rewrite !no_letters_app in Ht. cbn [append no_letters] in Ht.
  apply andb_true_iff in Ht as [_ Ht]. apply andb_true_iff in Ht as [Ht _].
  apply andb_true_iff in Ht as [Ht _]. rewrite andb_true_r in Ht.
  apply negb_true_iff in Ht.
  rewrite (all_letters_mem _ _ Hm Hc) in Ht. discriminate.
Qed.

Lemma join_pages_no_letters pages :
  (forall page, In page pages -> no_letters page = true) ->
  no_letters (join_pages pages) = true.
Proof.
  induction pages as [|p pages IH]; intros H; [reflexivity|].
  rewrite join_pages_cons, !no_letters_app.
  rewrite (H p (or_introl eq_refl)), IH by (intros q Hq; apply H; now right).
  reflexivity.
Qed.

Lemma blank_text_flags t :
  no_letters t = true ->
  _check_itar_marking t = false /\ _check_traceability t = false
  /\ _check_revision_marking t = false /\ _check_restricted_materials t = [].
Proof.
  intros Ht. repeat split.
  - apply keywords_need_letters; [reflexivity | exact Ht].
  - apply keywords_need_letters; [reflexivity | exact Ht].
  - unfold _check_revision_marking, revision_patterns. cbn [existsb].
    rewrite !search_needs_letters by (reflexivity || exact Ht). reflexivity.
  - rewrite restricted_materials_filter.
    assert (H : forall m, In m restricted_drawing -> icontains m t = false).
    { intros m Hin. unfold icontains. rewrite (no_letters_lower _ Ht).
      apply contains_needs_letters; [|exact Ht].
      cbn in Hin. repeat (destruct Hin as [<- | Hin]; [reflexivity|]).
      destruct Hin. }
    induction restricted_drawing as [|m l IH]; [reflexivity|].
    cbn [filter]. rewrite (H m (or_introl eq_refl)).
    apply IH. intros m' Hm'. apply H. now right.
Qed.

End NoLetters.

(** X13.  A drawing whose pages hold no letter at all (no text layer,
    empty pages, or only digits and punctuation), and likewise a drawing
    without pages, always gets the same report: the violations ITAR-001
    and AS9100-TRACE-001, the warning AS9100-DOC-002, status FAIL, risk
    score 35 and an exposure of $105,000. *)
Theorem blank_drawing_fails w c file_path pages :
  pdf_pages w file_path = Returned pages ->
  (forall page, In page pages -> no_letters page = true) ->
  let r := snd (validate_document w c file_path "drawing") in
  rep_violations r = [itar_001; trace_001]
  /\ rep_warnings r = [doc_002]
  /\ status r = "FAIL" /\ rep_risk_score r = 35
  /\ estimated_risk (rep_summary r) = "$105,000 potential exposure".
Proof.
  intros Hpages Hblank r.
  assert (Ht : _extract_pdf_text w file_path = Returned (join_pages pages))
    by (unfold _extract_pdf_text; now rewrite Hpages).
  destruct (blank_text_flags _ (join_pages_no_letters pages Hblank))
    as (Hi & Htr & Hrev & Hmat).
  assert (He : emitted w file_path "drawing" = ([itar_001; trace_001], [doc_002])).
  { rewrite (emitted_drawing _ _ Ht).
    unfold drawing_violations, drawing_warnings.
    now rewrite Hi, Htr, Hrev, Hmat. }
  destruct (report_fields w c file_path "drawing") as (Ev & Ew & Hs & Hr & Hm & _).
  fold r in Ev, Ew, Hs, Hr, Hm. rewrite He in Ev, Ew, Hs, Hr, Hm.
  rewrite Ev, Ew, Hs, Hr, Hm. repeat split.
Qed.

Lemma blank_drawing_fails_witness :
  (forall page, In page [""; "1:4  2024-03-07  (3/8)"] -> no_letters page = true)
  /\ status (snd (validate_document
                    (const_world (Returned [""; "1:4  2024-03-07  (3/8)"])
                                 (Raised "no table"))
                    init "scan.pdf" "drawing")) = "FAIL".
Proof.
  assert (H : forall page, In page [""; "1:4  2024-03-07  (3/8)"] ->
                           no_letters page = true).
  { intros page [<- | [<- | []]]; reflexivity. }
  split; [exact H|].
  pose proof (@blank_drawing_fails
                (const_world (Returned [""; "1:4  2024-03-07  (3/8)"])
                             (Raised "no table"))
                init "scan.pdf" _ eq_refl H) as T.
  cbv zeta in T. destruct T as (_ & _ & T & _). exact T.
Defined.

(** ** The comma-grouped amount *)

Section Commas.
Import PyStr.

Lemma digit_not_comma c : Re.digit c = true -> Ascii.eqb c "," = false.
Proof.
  intros H. destruct (Ascii.eqb_spec c ","); [subst; discriminate | reflexivity].
Qed.

Lemma remove_commas_group3 s : forall first,
  all_digits s = true -> remove_commas (group3 first s) = s.
Proof.
  induction s as [|c s IH]; intros first H; [reflexivity|].
  cbn [all_digits] in H. apply andb_true_iff in H as [Hc Hs].
  cbn [group3].
  destruct (negb first && Nat.eqb (Nat.modulo (String.length (String c s)) 3) 0)%bool;
    cbn [remove_commas Ascii.eqb Bool.eqb];
    rewrite (digit_not_comma _ Hc), (IH false Hs); reflexivity.
Qed.

(** Up to three digits stay as they are; beyond that the last three
    digits form a group after a comma. *)
Lemma group3_last_three a b :
  a <> "" -> String.length b = 3%nat -> forall first,
  group3 first (a ++ b) = group3 first a ++ "," ++ b.
Proof.
  intros Ha Hb. induction a as [|c a IH]; [congruence|]. intros first.
  cbn [append group3 String.length].
  assert (Hlen : String.length (a ++ b) = (String.length a + 3)%nat).
  { clear -Hb. induction a; cbn; [exact Hb | now rewrite IHa]. }
  rewrite Hlen.
  replace (Nat.modulo (S (String.length a + 3)) 3)
    with (Nat.modulo (S (String.length a)) 3)
    by (replace (S (String.length a + 3)) with (S (String.length a) + 1 * 3)%nat by lia;
        now rewrite Nat.Div0.mod_add).
  assert (Hrest : group3 false (a ++ b) = group3 false a ++ "," ++ b).
  { destruct a as [|d a].
    - destruct b as [|b1 [|b2 [|b3 [|]]]]; try discriminate. reflexivity.
    - apply IH. discriminate. }
  rewrite Hrest.
  now destruct (negb first && Nat.eqb (Nat.modulo (S (String.length a)) 3) 0)%bool.
Qed.

End Commas.

(** X14.  The comma-grouped amount of the exposure string reads back:
    taking the commas out of the rendering of a non-negative total and
    parsing the digits gives the total again. *)
Theorem comma_amount_round_trip total :
  0 <= total ->
  remove_commas (PyStr.fmt_comma total) = PyStr.str_int total
  /\ parse_amount (PyStr.fmt_comma total) = Some total
  /\ (0 < total <= 1000000 ->
      exists amount,
        render_exposure total = "$" ++ amount ++ " potential exposure"
        /\ parse_amount amount = Some total).
Proof.
  intros Hn.
  assert (E : remove_commas (PyStr.fmt_comma total) = PyStr.str_int total)
    by (apply remove_commas_group3, str_int_digits, Hn).
  assert (P : parse_amount (PyStr.fmt_comma total) = Some total).
  { unfold parse_amount. rewrite E. unfold PyStr.str_int.
    rewrite NilZero.isi.
    - cbn [option_map]. now rewrite DecimalZ.of_to.
    - destruct total as [|p|p]; cbn; try discriminate.
      intros [= Hp]. now apply (DecimalPos.Unsigned.to_uint_nonnil p).
    - destruct total as [|p|p]; cbn; try discriminate. lia. }
  split; [exact E|]. split; [exact P|].
  intros Hrange. exists (PyStr.fmt_comma total). split; [|exact P].
  destruct (render_exposure_cases Hn) as [[H0 _] | [[_ Hmid] | [Hbig _]]];
    try lia; exact Hmid.
Qed.

Lemma comma_amount_round_trip_witness :
  0 <= 215000
  /\ PyStr.fmt_comma 215000 = "215,000"
  /\ parse_amount (PyStr.fmt_comma 215000) = Some 215000.
Proof.
  split; [lia|]. split; [reflexivity|].
  apply (@comma_amount_round_trip 215000). lia.
Defined.

(** ** Which reader a BOM path goes to *)

Lemma substring_whole s : substring 0 (String.length s) s = s.
Proof. induction s; cbn; congruence. Qed.

Lemma substring_suffix pre suf :
  substring (String.length pre) (String.length suf) (pre ++ suf) = suf.
Proof. induction pre; cbn; [apply substring_whole | assumption]. Qed.

Lemma substring_tail s : forall m,
  (m <= String.length s)%nat ->
  exists pre, s = pre ++ substring m (String.length s - m) s.
Proof.
  induction s as [|c s IH]; intros m Hm.
  - cbn [String.length] in Hm. assert (m = 0%nat) as -> by lia.
    exists "". reflexivity.
  - destruct m as [|m].
    + exists "". rewrite Nat.sub_0_r, substring_whole. reflexivity.
    + cbn [String.length] in Hm. destruct (@IH m) as [pre Hpre]; [lia|].
      exists (String c pre). cbn [String.length append Nat.sub substring].
      congruence.
Qed.

Lemma append_length a b :
  String.length (a ++ b) = (String.length a + String.length b)%nat.
Proof. induction a; cbn; congruence. Qed.

Lemma endswith_iff s suffix :
  endswith s suffix = true <-> exists pre, s = pre ++ suffix.
Proof.
  unfold endswith. rewrite andb_true_iff, Nat.leb_le, String.eqb_eq. split.
  - intros [Hle Hsub].
    destruct (@substring_tail s (String.length s - String.length suffix)%nat) as [pre Hpre];
      [lia|].
    replace (String.length s - (String.length s - String.length suffix))%nat
      with (String.length suffix) in Hpre by lia.
    rewrite Hsub in Hpre. eauto.
  - intros [pre ->]. rewrite append_length. split; [lia|].
    replace (String.length pre + String.length suffix - String.length suffix)%nat
      with (String.length pre) by lia.
    apply substring_suffix.
Qed.

(** X15.  A BOM path is read as a spreadsheet exactly when it ends in
    the lower-case suffix ".xlsx"; every other path, one ending in
    ".XLSX" or ".xls" included, is read as CSV, and the report then does
    not depend on what the spreadsheet reader would return. *)
Theorem bom_reader_by_suffix w c file_path :
  ((exists stem, file_path = stem ++ ".xlsx") ->
   read_bom w file_path = read_excel w file_path)
  /\ ((forall stem, file_path <> stem ++ ".xlsx") ->
      read_bom w file_path = read_csv w file_path
      /\ forall excel,
           core_fields
             (snd (validate_document
                     (World (pdf_pages w) excel (read_csv w) (now_isoformat w))
                     c file_path "bom"))
           = core_fields (snd (validate_document w c file_path "bom"))).
Proof.
  split.
  - intros H. apply endswith_iff in H. unfold read_bom. now rewrite H.
  - intros H.
    assert (E : endswith file_path ".xlsx" = false).
    { apply not_true_iff_false. intros E. apply endswith_iff in E as [stem ->].
      now apply (H stem). }
    split; [unfold read_bom; now rewrite E|].
    intros excel.
    destruct (report_fields w c file_path "bom") as (V1 & W1 & S1 & R1 & M1 & _).
    destruct (report_fields (World (pdf_pages w) excel (read_csv w) (now_isoformat w))
                            c file_path "bom") as (V2 & W2 & S2 & R2 & M2 & _).
    unfold core_fields. rewrite V1, W1, S1, R1, M1, V2, W2, S2, R2, M2.
    assert (Hem : emitted (World (pdf_pages w) excel (read_csv w) (now_isoformat w))
                          file_path "bom"
                  = emitted w file_path "bom").
    { unfold emitted, read_bom. cbn [String.eqb Ascii.eqb Bool.eqb].
      rewrite E. reflexivity. }
    now rewrite Hem.
Qed.

(** An upper-case extension sends a spreadsheet to the CSV reader. *)
Example upper_case_extension_is_csv :
  endswith "BOM.XLSX" ".xlsx" = false /\ endswith "bom.xls" ".xlsx" = false
  /\ endswith "bom.xlsx" ".xlsx" = true /\ endswith ".xlsx" ".xlsx" = true
  /\ endswith "lsx" ".xlsx" = false.
Proof. repeat split. Qed.

(** ** Letter case in the BOM tests *)

(** X16.  On ASCII text the three row tests of the BOM loop ignore
    letter case: two part numbers, materials or supplier names made of
    ASCII characters that differ only in letter case are treated alike.
    (Outside ASCII the case maps of Python are not inverse to each other
    up to case, and the tests compare upper-cased text only.) *)
Theorem bom_tests_ignore_case s s' :
  ascii_only s = true -> ascii_only s' = true ->
  PyStr.lower s = PyStr.lower s' ->
  PyStr.upper s = PyStr.upper s'
  /\ _is_itar_controlled s = _is_itar_controlled s'
  /\ _is_restricted_material s = _is_restricted_material s'
  /\ _is_certified_supplier s = _is_certified_supplier s'.
Proof.
  intros _ _ H.
  assert (E : PyStr.upper s = PyStr.upper s').
  { rewrite <- (PyStrFacts.upper_lower s), <- (PyStrFacts.upper_lower s').
    now rewrite H. }
  unfold _is_itar_controlled, _is_restricted_material, _is_certified_supplier.
  now rewrite E.
Qed.

Lemma bom_tests_ignore_case_witness :
  ascii_only "Lockheed Martin" = true
  /\ ascii_only "LOCKHEED MARTIN" = true
  /\ PyStr.lower "Lockheed Martin" = PyStr.lower "LOCKHEED MARTIN"
  /\ _is_certified_supplier "Lockheed Martin"
     = _is_certified_supplier "LOCKHEED MARTIN"
  /\ _is_certified_supplier "Lockheed Martin" = true.
Proof.
  split; [reflexivity|]. split; [reflexivity|]. split; [reflexivity|].
  destruct (@bom_tests_ignore_case "Lockheed Martin" "LOCKHEED MARTIN"
              eq_refl eq_refl eq_refl)
    as (_ & _ & _ & T).
  split; [exact T | reflexivity].
Defined.

(* ================================================================== *)
(** * Properties of [ComplianceEngine] *)

Lemma fold_minus {A} (k : Z) (l : list A) : forall a,
  fold_left (fun score _ => score - k) l a = a - k * len l.
Proof.
  unfold len. induction l as [|x l IH]; intros a; cbn [fold_left List.length].
  - cbn. lia.
  - rewrite IH. lia.
Qed.

(** X17.  [calculate_risk_score] is max(0, 100 - 15 v - 5 w) for v
    violations and w warnings: it lies between 0 and 100 and is the
    complement to 100 of the risk score [validate_document] reports for
    the same two lists, so the engine counts down from 100 where the
    checker counts up from 0. *)
Theorem engine_score_is_complement {A B} (vs : list A) (ws : list B) :
  Engine.calculate_risk_score vs ws = Z.max 0 (100 - 15 * len vs - 5 * len ws)
  /\ Engine.calculate_risk_score vs ws
     = 100 - Z.min 100 (15 * len vs + 5 * len ws)
  /\ 0 <= Engine.calculate_risk_score vs ws <= 100
  /\ forall w c file_path doc_type,
       let r := snd (validate_document w c file_path doc_type) in
       Engine.calculate_risk_score (rep_violations r) (rep_warnings r)
       + rep_risk_score r = 100.
Proof.
  assert (E : forall (X Y : Type) (xs : list X) (ys : list Y),
             Engine.calculate_risk_score xs ys
             = Z.max 0 (100 - 15 * len xs - 5 * len ys)).
  { intros X Y xs ys. unfold Engine.calculate_risk_score.
    now rewrite !fold_minus. }
  assert (0 <= len vs) by (unfold len; lia).
  assert (0 <= len ws) by (unfold len; lia).
  rewrite E. repeat split; try lia.
  intros w c file_path doc_type r. rewrite E.
  destruct (report_fields w c file_path doc_type) as (Ev & Ew & _ & Hr & _).
  fold r in Ev, Ew, Hr. rewrite <- Ev, <- Ew in Hr. rewrite Hr.
  assert (0 <= len (rep_violations r)) by (unfold len; lia).
  assert (0 <= len (rep_warnings r)) by (unfold len; lia).
  lia.
Qed.

Section EngineChecks.
Import Engine.

Lemma check_material_spec acc mat :
  check_material acc mat
  = ((fst acc ++ (if icontains "beryllium copper" mat
                  then [beryllium_entry mat] else []))%list,
     (snd acc ++ (if icontains "cadmium" mat then [cadmium_entry] else []))%list).
Proof.
  destruct acc as [vs ws].
  unfold check_material, restricted_materials, icontains.
  cbn [fold_left material severity String.eqb Ascii.eqb Bool.eqb fst snd].
  destruct (PyStr.contains (PyStr.lower "beryllium copper") (PyStr.lower mat));
    destruct (PyStr.contains (PyStr.lower "cadmium") (PyStr.lower mat));
    cbn [fst snd]; rewrite ?app_nil_r; reflexivity.
Qed.

Lemma fold_check_material ms : forall acc,
  fold_left check_material ms acc
  = ((fst acc ++ map beryllium_entry
                     (filter (icontains "beryllium copper") ms))%list,
     (snd acc ++ map (fun _ => cadmium_entry)
                     (filter (icontains "cadmium") ms))%list).
Proof.
  induction ms as [|m ms IH]; intros acc; cbn [fold_left filter map].
  - rewrite !app_nil_r. now destruct acc.
  - rewrite IH, check_material_spec. cbn [fst snd].
    destruct (icontains "beryllium copper" m), (icontains "cadmium" m);
      cbn [map]; rewrite <- ?app_assoc, ?app_nil_r; reflexivity.
Qed.

End EngineChecks.

(** X18.  [check_as9100] reports one violation, located at the material,
    for every entry of ['materials'] that contains "beryllium copper"
    and one warning for every entry that contains "cadmium", letter case
    ignored and in the order of the entries; it recommends an audit
    exactly when there are four or more violations, and reports nothing
    when the key is absent. *)
Theorem engine_as9100_check d :
  let res := Engine.check_as9100 d in
  Engine.violations res
  = map beryllium_entry
        (filter (icontains "beryllium copper")
                (match Engine.materials d with Some ms => ms | None => [] end))
  /\ Engine.warnings res
     = map (fun _ => cadmium_entry)
           (filter (icontains "cadmium")
                   (match Engine.materials d with Some ms => ms | None => [] end))
  /\ (Engine.recommendations res <> [] <-> 4 <= len (Engine.violations res))
  /\ (List.length (Engine.recommendations res) <= 1)%nat
  /\ (Engine.materials d = None -> res = Engine.Result [] [] []).
Proof.
  intros res. unfold res, Engine.check_as9100.
  destruct (Engine.materials d) as [ms|].
  - rewrite fold_check_material. cbn [fst snd app].
    set (vs := map beryllium_entry (filter (icontains "beryllium copper") ms)).
    cbn [Engine.violations Engine.warnings Engine.recommendations].
    split; [reflexivity|]. split; [reflexivity|].
    destruct (3 <? len vs) eqn:E.
    + apply Z.ltb_lt in E.
      split; [split; [intros _; lia | intros _; discriminate]|].
      split; [cbn; lia | discriminate].
    + apply Z.ltb_ge in E.
      split; [split; [congruence | lia]|].
      split; [cbn; lia | discriminate].
  - cbn [fst snd filter map Engine.violations Engine.warnings
         Engine.recommendations].
    change (3 <? len (@nil Engine.entry)) with false. cbn iota.
    split; [reflexivity|]. split; [reflexivity|].
    split; [split; [congruence | unfold len; cbn; lia]|].
    split; [cbn; lia | reflexivity].
Qed.

(** X19.  [check_itar] never reports a warning or a recommendation and
    at most one violation.  It reports the missing-marking violation
    exactly when ['raw_text'] is present, holds none of the markers
    "itar", "export controlled", "technical data" and holds at least one
    trigger keyword, letter case ignored; an unmarked text without a
    trigger keyword is not reported. *)
Theorem engine_itar_check d :
  let res := Engine.check_itar d in
  Engine.warnings res = [] /\ Engine.recommendations res = []
  /\ (Engine.violations res = [] \/ Engine.violations res = [Engine.missing_marking])
  /\ (Engine.violations res = [Engine.missing_marking]
      <-> exists raw,
            Engine.raw_text d = Some raw
            /\ (forall marker, In marker Engine.itar_markers ->
                               icontains marker raw = false)
            /\ (exists keyword, In keyword Engine.keywords_to_check
                                /\ icontains keyword raw = true)).
Proof.
  intros res. unfold res, Engine.check_itar.
  destruct (Engine.raw_text d) as [raw|].
  2:{ cbn. repeat split; auto; try discriminate.
      intros (raw & Hraw & _). discriminate. }
  assert (Hmark :
    PyStr.any (fun marker => PyStr.contains marker (PyStr.lower raw))
              Engine.itar_markers
    = existsb (fun marker => icontains marker raw) Engine.itar_markers)
    by reflexivity.
  rewrite Hmark.
  change (PyStr.any (fun keyword => PyStr.contains (PyStr.lower keyword) (PyStr.lower raw))
                    Engine.keywords_to_check)
    with (existsb (fun keyword => icontains keyword raw) Engine.keywords_to_check).
  destruct (existsb (fun marker => icontains marker raw) Engine.itar_markers) eqn:Em;
    cbn [negb].
  - cbn. repeat split; auto; try discriminate.
    intros (raw' & [= <-] & Hnone & _).
    apply existsb_exists in Em as (m & Hin & Hm).
    rewrite (Hnone m Hin) in Hm. discriminate.
  - destruct (existsb (fun keyword => icontains keyword raw)
                      Engine.keywords_to_check) eqn:Ek.
    + cbn. repeat split; auto.
      intros _. exists raw. split; [reflexivity|]. split.
      * intros m Hin. apply not_true_iff_false. intros Hm.
        assert (existsb (fun marker => icontains marker raw) Engine.itar_markers
                = true)
          by (apply existsb_exists; exists m; split; [exact Hin | exact Hm]).
        congruence.
      * apply existsb_exists in Ek. exact Ek.
    + cbn. repeat split; auto; try discriminate.
      intros (raw' & [= <-] & _ & (k & Hin & Hk)).
      assert (existsb (fun keyword => icontains keyword raw)
                      Engine.keywords_to_check = true)
        by (apply existsb_exists; exists k; split; [exact Hin | exact Hk]).
      congruence.
Qed.

(** An unmarked text about brackets is not reported by the engine,
    although [validate_document] raises ITAR-001 for it; an unmarked
    text about a missile is reported by both. *)
Example engine_and_checker_on_unmarked_text :
  Engine.violations (Engine.check_itar (Engine.Data None (Some "Bracket, Rev A")))
  = []
  /\ map rule (rep_violations (run_drawing "Bracket, Rev A"))
     = ["ITAR-001"; "AS9100-TRACE-001"]
  /\ Engine.violations
       (Engine.check_itar (Engine.Data None (Some "Missile fin, Rev A")))
     = [Engine.missing_marking].
Proof. vm_compute. repeat split. Qed.
